(** * Ring record API: validation, DDL and insert-query construction

    A shallow embedding of [src/uploads/server.js]: the field schema, the type
    mapper [typeMap], the DDL generator [createTableSQL], the validator
    [validateFile] / [validate] and the query builder [buildInsertQuery],
    the upload configuration and the handler of [POST /api/save],
    together with the parts of the JavaScript run-time they rely on (strings,
    the three regular expressions, numbers and their conversions).

    Conventions of the embedding.
    - A JavaScript string is a [string]: a sequence of code units, here
      restricted to the range 0..255.
    - The objects [schema], [req.body] and [req.files] are used as maps and
      are association lists in enumeration order ([Object.entries] /
      [Object.keys]); [lookup] finds own properties.  Where the code reads
      [schema] under a key of the request, the properties that the object
      literal inherits from [Object.prototype] are accounted for
      ([inherited]); the names of the fields of a schema are not among
      them.  The functions read the global [schema]; here they take it as
      an argument, and the shipped one is the constant [schema].
    - A value of the body is a string, null, a boolean or a number
      ([value]).  The handler also takes a body with objects that [String]
      cannot convert ([Received]), on which [validate] throws; arrays and
      objects that do convert are left out.
    - A JavaScript number is a [number]: NaN, the two infinities, the
      integer-valued doubles and the other finite doubles as dyadic
      fractions.  Negative zero is identified with zero.
    - [new URL], [Date.parse] and [Date.prototype.toISOString] are owned by the
      host; they are the fields of a [Host].
    - The handler of [POST /api/save] runs against an abstract pool and
      database: a function that hands over a client or gives the reason why
      not, a type of states and a function that answers a query in a state
      with rows, or with the error the promise is rejected with.  A run
      gives the events in order (the queries with their outcome, the
      response, the release of the client) and the object that escapes, if
      any.  Output on the console is left out, and [res.json] and
      [client.release] do not throw. *)

From Stdlib Require Import ZArith Lia List Bool Ascii String.
Import ListNotations.

Local Open Scope string_scope.
Local Open Scope Z_scope.

Set Implicit Arguments.

(* ================================================================== *)
(** * JavaScript strings *)

Module JSString.

Definition code (c : ascii) : nat := nat_of_ascii c.

(** [WhiteSpace] and [LineTerminator] code units below 256: TAB, LF, VT, FF,
    CR, SP and NBSP.  This is the set removed by [trim], skipped by
    [parseInt] / [parseFloat] and matched by the regex class [\s]. *)
Definition isWhiteSpace (c : ascii) : bool :=
  let n := code c in
  ((9 <=? n) && (n <=? 13) || (n =? 32) || (n =? 160))%nat.

(** The regex class [\d]. *)
Definition isDigit (c : ascii) : bool :=
  let n := code c in ((48 <=? n) && (n <=? 57))%nat.

Definition isEmpty (s : string) : bool :=
  match s with EmptyString => true | String _ _ => false end.

Fixpoint trimStart (s : string) : string :=
  match s with
  | EmptyString => EmptyString
  | String c s' => if isWhiteSpace c then trimStart s' else s
  end.

Fixpoint trimEnd (s : string) : string :=
  match s with
  | EmptyString => EmptyString
  | String c s' =>
      let r := trimEnd s' in
      if isWhiteSpace c && isEmpty r then EmptyString else String c r
  end.

(** [String.prototype.trim]. *)
Definition trim (s : string) : string := trimEnd (trimStart s).

Fixpoint map (f : ascii -> ascii) (s : string) : string :=
  match s with
  | EmptyString => EmptyString
  | String c s' => String (f c) (map f s')
  end.

Fixpoint filter (p : ascii -> bool) (s : string) : string :=
  match s with
  | EmptyString => EmptyString
  | String c s' => if p c then String c (filter p s') else filter p s'
  end.

Fixpoint forallb (p : ascii -> bool) (s : string) : bool :=
  match s with
  | EmptyString => true
  | String c s' => p c && forallb p s'
  end.

(** Lower-casing of one code unit below 256: A-Z, and the Latin-1 capitals
    U+00C0..U+00DE except the multiplication sign U+00D7. *)
Definition lowerChar (c : ascii) : ascii :=
  let n := code c in
  if ((65 <=? n) && (n <=? 90) ||
      (192 <=? n) && (n <=? 222) && negb (n =? 215))%nat
  then ascii_of_nat (n + 32) else c.

(** [String.prototype.toLowerCase]. *)
Definition toLowerCase (s : string) : string := map lowerChar s.

(** [p] is a prefix of [s]. *)
Fixpoint isPrefix (p s : string) : bool :=
  match p with
  | EmptyString => true
  | String a p' =>
      match s with
      | EmptyString => false
      | String b s' => Ascii.eqb a b && isPrefix p' s'
      end
  end.

(** [s.startsWith(p)]. *)
Definition startsWith (s p : string) : bool := isPrefix p s.

(** [s.endsWith(p)]: some suffix of [s] is [p]. *)
Fixpoint endsWith (s p : string) : bool :=
  String.eqb s p ||
  match s with
  | EmptyString => false
  | String _ s' => endsWith s' p
  end.

(** [s.includes(p)]: [p] starts at some position of [s]. *)
Fixpoint includes (s p : string) : bool :=
  isPrefix p s ||
  match s with
  | EmptyString => false
  | String _ s' => includes s' p
  end.

Fixpoint drop (n : nat) (s : string) : string :=
  match n, s with
  | O, _ => s
  | S _, EmptyString => EmptyString
  | S n', String _ s' => drop n' s'
  end.

(** [s.replace(p, r)] with a string pattern: the first occurrence only. *)
Fixpoint replace (s p r : string) : string :=
  if isPrefix p s then r ++ drop (String.length p) s
  else match s with
       | EmptyString => EmptyString
       | String c s' => String c (replace s' p r)
       end.

(** [s.split(sep)] for a separator of one code unit: the pieces between the
    separators, in order; never the empty list. *)
Fixpoint split (sep : ascii) (s : string) : list string :=
  match s with
  | EmptyString => [EmptyString]
  | String c s' =>
      if Ascii.eqb c sep then EmptyString :: split sep s'
      else match split sep s' with
           | [] => [String c EmptyString]
           | p :: ps => String c p :: ps
           end
  end.

(** [a.join(sep)]. *)
Definition join (sep : string) (l : list string) : string :=
  String.concat sep l.

(** [s.slice(0, -n)]: [s] without its last [n] code units. *)
Definition sliceEnd (s : string) (n : nat) : string :=
  String.substring 0 (String.length s - n) s.

End JSString.

(* ================================================================== *)
(** * Regular expressions

    The fragment of the regex language used by the three patterns of
    [validate], all of them anchored at both ends and applied with [test]:
    character classes, concatenation, alternation, iteration, and bounded
    repetition [{lo,hi}] of a character class.  Matching is by derivatives. *)

Module Regex.

Inductive regex : Type :=
| Void
| Eps
| Cls (p : ascii -> bool)
| Cat (r1 r2 : regex)
| Alt (r1 r2 : regex)
| Star (r : regex)
| Rep (lo hi : nat) (p : ascii -> bool).

(** A literal code unit, [r?] and [r+]. *)
Definition Chr (c : ascii) : regex := Cls (Ascii.eqb c).
Definition Opt (r : regex) : regex := Alt Eps r.
Definition Plus (r : regex) : regex := Cat r (Star r).

Fixpoint nullable (r : regex) : bool :=
  match r with
  | Void => false
  | Eps => true
  | Cls _ => false
  | Cat r1 r2 => nullable r1 && nullable r2
  | Alt r1 r2 => nullable r1 || nullable r2
  | Star _ => true
  | Rep lo _ _ => Nat.eqb lo 0
  end.

Fixpoint deriv (c : ascii) (r : regex) : regex :=
  match r with
  | Void => Void
  | Eps => Void
  | Cls p => if p c then Eps else Void
  | Cat r1 r2 =>
      Alt (Cat (deriv c r1) r2) (if nullable r1 then deriv c r2 else Void)
  | Alt r1 r2 => Alt (deriv c r1) (deriv c r2)
  | Star r1 => Cat (deriv c r1) (Star r1)
  | Rep lo hi p =>
      match hi with
      | O => Void
      | S hi' => if p c then Rep (Nat.pred lo) hi' p else Void
      end
  end.

(** [/^r$/.test(s)]. *)
Fixpoint test (r : regex) (s : string) : bool :=
  match s with
  | EmptyString => nullable r
  | String c s' => test (deriv c r) s'
  end.

End Regex.

(* ================================================================== *)
(** * JavaScript numbers *)

Module JSNumber.
Import JSString.

(** The values of the Number type.  [Int z] is the double whose value is the
    integer [z]; [Frac m e] is the non-integer double [m / 2^e], [m] odd. *)
Inductive number : Type :=
| NaN
| Inf (neg : bool)
| Int (z : Z)
| Frac (m : Z) (e : positive).

Definition two53 : Z := 2 ^ 53.

Definition opp (x : number) : number :=
  match x with
  | NaN => NaN
  | Inf b => Inf (negb b)
  | Int z => Int (- z)
  | Frac m e => Frac (- m) e
  end.

(** [Math.abs]. *)
Definition abs (x : number) : number :=
  match x with
  | NaN => NaN
  | Inf _ => Inf false
  | Int z => Int (Z.abs z)
  | Frac m e => Frac (Z.abs m) e
  end.

(** ** Rounding to the nearest double, ties to even *)

(** [floor (log2 (a / b))] for positive [a], [b]. *)
Definition floor_log2 (a b : Z) : Z :=
  let l := Z.log2 a - Z.log2 b in
  if (if 0 <=? l then b * 2 ^ l <=? a else b <=? a * 2 ^ (- l))
  then l else l - 1.

(** [m / 2^k] in lowest terms. *)
Fixpoint reduce (m : positive) (k : Z) : number :=
  match m with
  | xO m' => if 0 <? k then reduce m' (k - 1) else Int (Zpos m)
  | _ => if 0 <? k then Frac (Zpos m) (Z.to_pos k) else Int (Zpos m)
  end.

(** The double nearest to [a / b], for positive [a] and [b]: 53 significant
    bits, least exponent -1074, overflow to Infinity from [2^1024] on. *)
Definition round_pos (a b : Z) : number :=
  let u := Z.max (floor_log2 a b - 52) (-1074) in
  let n := if 0 <=? u then a else a * 2 ^ (- u) in
  let d := if 0 <=? u then b * 2 ^ u else b in
  let q := n / d in
  let r := n mod d in
  let q' := if 2 * r <? d then q
            else if d <? 2 * r then q + 1
            else if Z.even q then q else q + 1 in
  if 0 <=? u
  then if 2 ^ 1024 <=? q' * 2 ^ u then Inf false else Int (q' * 2 ^ u)
  else match q' with
       | Zpos p => reduce p (- u)
       | _ => Int 0
       end.

(** The double nearest to [a / b], [b] positive. *)
Definition round_rat (a b : Z) : number :=
  if a =? 0 then Int 0
  else if a <? 0 then opp (round_pos (- a) b)
  else round_pos a b.

(** The double nearest to the integer [z]; integers below [2^53] in absolute
    value are doubles themselves. *)
Definition round_int (z : Z) : number :=
  if Z.abs z <? two53 then Int z else round_rat z 1.

(** The double nearest to [m * 10^e]. *)
Definition of_decimal (m e : Z) : number :=
  if 0 <=? e then round_int (m * 10 ^ e) else round_rat m (10 ^ (- e)).

(** ** Comparison and arithmetic *)

(** Numerator and (positive) denominator of a finite number. *)
Definition num_den (x : number) : option (Z * Z) :=
  match x with
  | Int z => Some (z, 1)
  | Frac m e => Some (m, 2 ^ Zpos e)
  | _ => None
  end.

(** [x < y]. *)
Definition ltb (x y : number) : bool :=
  match x, y with
  | NaN, _ | _, NaN => false
  | Inf true, Inf true => false
  | Inf true, _ => true
  | _, Inf true => false
  | Inf false, _ => false
  | _, Inf false => true
  | _, _ =>
      match num_den x, num_den y with
      | Some (a, b), Some (c, d) => a * d <? c * b
      | _, _ => false
      end
  end.

(** [x > y] and [x <= y]. *)
Definition gtb (x y : number) : bool := ltb y x.

Definition leb (x y : number) : bool :=
  match x, y with
  | NaN, _ | _, NaN => false
  | _, _ => negb (ltb y x)
  end.

(** [x === y] on numbers. *)
Definition eqb (x y : number) : bool :=
  match x, y with
  | Inf a, Inf b => Bool.eqb a b
  | Int a, Int b => a =? b
  | Frac a e, Frac b f => (a =? b) && Pos.eqb e f
  | _, _ => false
  end.

(** [x - y]. *)
Definition sub (x y : number) : number :=
  match x, y with
  | NaN, _ | _, NaN => NaN
  | Inf a, Inf b => if Bool.eqb a b then NaN else Inf a
  | Inf a, _ => Inf a
  | _, Inf b => Inf (negb b)
  | Int a, Int b => round_int (a - b)
  | _, _ =>
      match num_den x, num_den y with
      | Some (a, b), Some (c, d) => round_rat (a * d - c * b) (b * d)
      | _, _ => NaN
      end
  end.

Definition isZero (x : number) : bool :=
  match x with Int 0 => true | _ => false end.

Definition isNeg (x : number) : bool := ltb x (Int 0).

(** [x * y]. *)
Definition mul (x y : number) : number :=
  match x, y with
  | NaN, _ | _, NaN => NaN
  | Inf a, _ => if isZero y then NaN else Inf (xorb a (isNeg y))
  | _, Inf b => if isZero x then NaN else Inf (xorb b (isNeg x))
  | Int a, Int b => round_int (a * b)
  | _, _ =>
      match num_den x, num_den y with
      | Some (a, b), Some (c, d) => round_rat (a * c) (b * d)
      | _, _ => NaN
      end
  end.

(** [Number.isInteger]. *)
Definition isInteger (x : number) : bool :=
  match x with Int _ => true | _ => false end.

(** [Math.floor]. *)
Definition floor (x : number) : number :=
  match x with
  | Frac m e => Int (m / 2 ^ Zpos e)
  | _ => x
  end.

(** Truthiness of a number, and [x || d]. *)
Definition truthy (x : number) : bool :=
  match x with NaN => false | Int 0 => false | _ => true end.

Definition orDefault (x d : number) : number := if truthy x then x else d.

End JSNumber.

(* ================================================================== *)
(** * Conversions between strings and numbers *)

Module JSConvert.
Import JSString JSNumber.

Fixpoint takeWhile (p : ascii -> bool) (s : string) : string :=
  match s with
  | EmptyString => EmptyString
  | String c s' => if p c then String c (takeWhile p s') else EmptyString
  end.

Fixpoint dropWhile (p : ascii -> bool) (s : string) : string :=
  match s with
  | EmptyString => EmptyString
  | String c s' => if p c then dropWhile p s' else s
  end.

(** Value of a digit in radices up to 36: 0-9, a-z, A-Z. *)
Definition digitValue (c : ascii) : Z :=
  let n := Z.of_nat (code c) in
  if (48 <=? n) && (n <=? 57) then n - 48
  else if (97 <=? n) && (n <=? 122) then n - 87
  else if (65 <=? n) && (n <=? 90) then n - 55
  else 36.

Definition isRadixDigit (R : Z) (c : ascii) : bool := digitValue c <? R.

(** Value of a digit string in radix [R], most significant digit first. *)
Fixpoint valueOf (R : Z) (s : string) (acc : Z) : Z :=
  match s with
  | EmptyString => acc
  | String c s' => valueOf R s' (acc * R + digitValue c)
  end.

Definition signed (neg : bool) (x : number) : number :=
  if neg then opp x else x.

(** [parseInt(input, radix)]; [None] is an absent radix.  Digits beyond the
    20th are taken exactly.  [parseIntBody] is the part after the sign has
    been read. *)
Definition parseIntBody (neg : bool) (s1 : string) (radix : option Z) : number :=
  let R := match radix with
           | None => 10
           | Some r => if r =? 0 then 10 else r
           end in
  let strip := match radix with
               | None => true
               | Some r => (r =? 0) || (r =? 16)
               end in
  if (R <? 2) || (36 <? R) then NaN
  else
    let hex := strip && (startsWith s1 "0x" || startsWith s1 "0X") in
    let s2 := if hex then drop 2 s1 else s1 in
    let R' := if hex then 16 else R in
    let ds := takeWhile (isRadixDigit R') s2 in
    if isEmpty ds then NaN else signed neg (round_int (valueOf R' ds 0)).

Definition parseInt (input : string) (radix : option Z) : number :=
  let s := trimStart input in
  parseIntBody (startsWith s "-")
               (if startsWith s "-" || startsWith s "+" then drop 1 s else s)
               radix.

(** A scanned [StrDecimalLiteral]: sign, then Infinity or mantissa and power
    of ten, and what follows the literal. *)
Inductive scanned : Type :=
| ScanNone
| ScanInf (neg : bool) (rest : string)
| ScanDec (neg : bool) (m e : Z) (rest : string).

Definition isExpChar (c : ascii) : bool :=
  Ascii.eqb c "e" || Ascii.eqb c "E".

(** The longest prefix of [s1] that is a [StrUnsignedDecimalLiteral], the
    sign [neg] having been read. *)
Definition scanUnsigned (neg : bool) (s1 : string) : scanned :=
  if startsWith s1 "Infinity" then ScanInf neg (drop 8 s1)
  else
    let ip := takeWhile isDigit s1 in
    let r1 := dropWhile isDigit s1 in
    let fp := if startsWith r1 "." then takeWhile isDigit (drop 1 r1)
              else EmptyString in
    let r2 := if startsWith r1 "." then dropWhile isDigit (drop 1 r1)
              else r1 in
    if isEmpty ip && isEmpty fp then ScanNone
    else
      let m := valueOf 10 (ip ++ fp) 0 in
      let scale := Z.of_nat (String.length fp) in
      match r2 with
      | String c r3 =>
          if isExpChar c then
            let eneg := startsWith r3 "-" in
            let r4 := if startsWith r3 "-" || startsWith r3 "+"
                      then drop 1 r3 else r3 in
            let ed := takeWhile isDigit r4 in
            if isEmpty ed then ScanDec neg m (- scale) r2
            else
              let ev := valueOf 10 ed 0 in
              ScanDec neg m ((if eneg then - ev else ev) - scale)
                      (dropWhile isDigit r4)
          else ScanDec neg m (- scale) r2
      | EmptyString => ScanDec neg m (- scale) r2
      end.

(** The longest prefix of [s] that is a [StrDecimalLiteral]. *)
Definition scanDecimal (s : string) : scanned :=
  scanUnsigned (startsWith s "-")
               (if startsWith s "-" || startsWith s "+" then drop 1 s else s).

(** [parseFloat(input)]. *)
Definition parseFloat (input : string) : number :=
  match scanDecimal (trimStart input) with
  | ScanNone => NaN
  | ScanInf neg _ => Inf neg
  | ScanDec neg m e _ => signed neg (of_decimal m e)
  end.

(** A [NonDecimalIntegerLiteral] after its two-unit prefix. *)
Definition radixLiteral (R : Z) (ds : string) : number :=
  if isEmpty ds || negb (forallb (isRadixDigit R) ds) then NaN
  else round_int (valueOf R ds 0).

(** [Number(s)] on a string ([StringToNumber]). *)
Definition toNumber (s : string) : number :=
  let t := trim s in
  if isEmpty t then Int 0
  else if startsWith t "0x" || startsWith t "0X" then radixLiteral 16 (drop 2 t)
  else if startsWith t "0o" || startsWith t "0O" then radixLiteral 8 (drop 2 t)
  else if startsWith t "0b" || startsWith t "0B" then radixLiteral 2 (drop 2 t)
  else match scanDecimal t with
       | ScanInf neg EmptyString => Inf neg
       | ScanDec neg m e EmptyString => signed neg (of_decimal m e)
       | _ => NaN
       end.

(** ** Number to string *)

Definition digitChar (d : Z) : ascii := ascii_of_nat (48 + Z.to_nat d).

Fixpoint digitsFuel (fuel : nat) (z : Z) (acc : string) : string :=
  match fuel with
  | O => acc
  | S f =>
      let acc' := String (digitChar (z mod 10)) acc in
      if z <? 10 then acc' else digitsFuel f (z / 10) acc'
  end.

(** The decimal numeral of a natural number, without leading zeros. *)
Definition decimal (z : Z) : string :=
  digitsFuel (S (Z.to_nat (Z.log2 z))) z EmptyString.

Fixpoint zeros (n : nat) : string :=
  match n with
  | O => EmptyString
  | S n' => String "0" (zeros n')
  end.

(** The position [n] of a positive rational [a / b]:
    [10^(n-1) <= a / b < 10^n]. *)
Fixpoint leadingPos (fuel : nat) (a b : Z) (j : Z) : Z :=
  match fuel with
  | O => 1 - j
  | S f => if b <=? a * 10 ^ j then 1 - j else leadingPos f a b (j + 1)
  end.

Definition position (a b : Z) : Z :=
  if b <=? a then Z.of_nat (String.length (decimal (a / b)))
  else leadingPos 400 a b 1.

(** A candidate [s * 10^(n-k)] for printing [x = a / b], with its distance
    to [x] as a fraction. *)
Record candidate : Type := {
  cand_s : Z;
  cand_n : Z;
  cand_dist_num : Z;
  cand_dist_den : Z
}.

Definition mkCandidate (a b n k s : Z) : candidate :=
  let e := n - k in
  if 0 <=? e
  then {| cand_s := s; cand_n := n;
          cand_dist_num := Z.abs (s * 10 ^ e * b - a); cand_dist_den := b |}
  else {| cand_s := s; cand_n := n;
          cand_dist_num := Z.abs (s * b - a * 10 ^ (- e));
          cand_dist_den := b * 10 ^ (- e) |}.

(** The candidates with [k] digits at position [n] that denote [x]. *)
Definition candidatesAt (x : number) (a b n k : Z) : list candidate :=
  let e := n - k in
  let s0 := if 0 <=? e then a / (b * 10 ^ e) else (a * 10 ^ (- e)) / b in
  List.map (mkCandidate a b n k)
    (List.filter
       (fun s => (10 ^ (k - 1) <=? s) && (s <? 10 ^ k) &&
                 eqb (of_decimal s e) x)
       [s0; s0 + 1]).

Definition closer (c1 c2 : candidate) : bool :=
  let l := cand_dist_num c1 * cand_dist_den c2 in
  let r := cand_dist_num c2 * cand_dist_den c1 in
  (l <? r) || ((l =? r) && Z.even (cand_s c1)).

Definition best (cs : list candidate) : option candidate :=
  List.fold_left
    (fun acc c =>
       match acc with
       | None => Some c
       | Some c0 => if closer c0 c then Some c0 else Some c
       end) cs None.

(** The least number of digits [k] (at most 17) with a candidate, and the
    candidate closest to [x]. *)
Fixpoint shortest (fuel : nat) (x : number) (a b n0 k : Z)
  : option (candidate * Z) :=
  match fuel with
  | O => None
  | S f =>
      match best (candidatesAt x a b n0 k ++ candidatesAt x a b (n0 + 1) k) with
      | Some c => Some (c, k)
      | None => shortest f x a b n0 (k + 1)
      end
  end.

(** The digits [d] (there are [k] of them) placed at position [n], as
    [Number::toString] lays them out. *)
Definition layout (d : string) (k n : Z) : string :=
  if (k <=? n) && (n <=? 21) then d ++ zeros (Z.to_nat (n - k))
  else if (0 <? n) && (n <=? 21)
  then String.substring 0 (Z.to_nat n) d ++ "." ++ drop (Z.to_nat n) d
  else if (-6 <? n) && (n <=? 0) then "0." ++ zeros (Z.to_nat (- n)) ++ d
  else
    let e := n - 1 in
    let sign := if e <? 0 then "-" else "+" in
    match d with
    | String c EmptyString => String c ("e" ++ sign ++ decimal (Z.abs e))
    | String c rest => String c ("." ++ rest ++ "e" ++ sign ++ decimal (Z.abs e))
    | EmptyString => "0"
    end.

(** [Number::toString] of a positive finite number [a / b]. *)
Definition positiveToString (x : number) (a b : Z) : string :=
  let n0 := position a b in
  match shortest 17 x a b n0 1 with
  | Some (c, k) => layout (decimal (cand_s c)) k (cand_n c)
  | None =>
      layout (decimal (if n0 <=? 17 then a * 10 ^ (17 - n0) / b
                       else a / (b * 10 ^ (n0 - 17)))) 17 n0
  end.

(** [String(x)] on a number.  Integers below [2^53] print as their decimal
    numeral, which is their shortest representation. *)
Definition numberToString (x : number) : string :=
  match x with
  | NaN => "NaN"
  | Inf neg => if neg then "-Infinity" else "Infinity"
  | Int z =>
      if z =? 0 then "0"
      else if Z.abs z <? two53
      then (if z <? 0 then "-" else "") ++ decimal (Z.abs z)
      else (if z <? 0 then "-" else "") ++ positiveToString (abs x) (Z.abs z) 1
  | Frac m e =>
      (if m <? 0 then "-" else "") ++
      positiveToString (abs x) (Z.abs m) (2 ^ Zpos e)
  end.

End JSConvert.

(* ================================================================== *)
(** * Data model *)

Import JSString JSNumber JSConvert.

(** The double quote and the line feed, which string literals cannot hold. *)
Definition dq : string := String (ascii_of_nat 34) EmptyString.
Definition nl : string := String (ascii_of_nat 10) EmptyString.

(** The semantic types a schema entry may name in its [type] attribute. *)
Inductive FieldType : Type :=
| TText | TDescription | TNumber | TAmount | TYesno | TDatetime | TDate
| TEmail | TPhone | TUrl | TPhoto | TFile.

(** [fileConfig.extensions]: the string ['all'] or an array of extensions. *)
Inductive Extensions : Type :=
| ExtAll
| ExtList (exts : list string).

Record FileConfig : Type := {
  maxSize : Z;
  extensions : Extensions
}.

(** One entry of [schema].  [limit] and [scale] are strings, as the schema
    writes them: a decimal numeral or the empty string. *)
Record FieldSpec : Type := {
  type : FieldType;
  limit : string;
  scale : string;
  required : bool;
  unique : bool;
  allowNegative : bool;
  fileConfig : option FileConfig
}.

Definition Schema : Type := list (string * FieldSpec).

(** The values a request body can hold for a key: a string (multipart and
    JSON), or a JSON null, boolean or number. *)
Inductive value : Type :=
| VNull
| VBool (b : bool)
| VNum (x : number)
| VStr (s : string).

Definition Body : Type := list (string * value).

(** A file as multer hands it over. *)
Record UploadedFile : Type := {
  size : Z;
  originalname : string;
  buffer : string
}.

(** [req.files]: multer stores a non-empty array under each key that
    received a file; the code reads element [0] only, and an entry is that
    element. *)
Definition Files : Type := list (string * UploadedFile).

(** The object that [validate] returns and [buildInsertQuery] throws. *)
Record ValidationError : Type := {
  error : string;
  field : string
}.

(** A value bound to a query parameter. *)
Inductive BoundValue : Type :=
| BBuffer (b : string)
| BNumber (x : number)
| BBool (b : bool)
| BString (s : string).

Record Query : Type := {
  text : string;
  values : list BoundValue
}.

Inductive Outcome : Type :=
| Returns (q : Query)
| Throws (e : ValidationError).

(** What the program takes from its host. *)
Record Host : Type := {
  (** [new URL(s)] does not throw. *)
  URL_parses : string -> bool;
  (** [Date.parse(s)]: the time value, [None] for NaN. *)
  Date_parse : string -> option Z;
  (** [toISOString] of a valid date with this time value. *)
  toISOString : Z -> string
}.

(** [obj[key]] on an object used as a map: [None] is [undefined]. *)
Fixpoint lookup (A : Type) (key : string) (obj : list (string * A)) : option A :=
  match obj with
  | [] => None
  | (k, v) :: rest => if String.eqb k key then Some v else lookup key rest
  end.

(** [Object.keys(obj)]. *)
Definition keys (A : Type) (obj : list (string * A)) : list string :=
  List.map fst obj.

(** [String(v)]. *)
Definition toString (v : value) : string :=
  match v with
  | VNull => "null"
  | VBool b => if b then "true" else "false"
  | VNum x => numberToString x
  | VStr s => s
  end.

(** [v === w]. *)
Definition strictEq (v w : value) : bool :=
  match v, w with
  | VNull, VNull => true
  | VBool a, VBool b => Bool.eqb a b
  | VNum a, VNum b => JSNumber.eqb a b
  | VStr a, VStr b => String.eqb a b
  | _, _ => false
  end.

(** [s || d] on a string [s]; [d] is the string image of the default. *)
Definition orElse (s d : string) : string := if isEmpty s then d else s.

(** [s.length] as a number. *)
Definition len (s : string) : number := Int (Z.of_nat (String.length s)).

(** [new Date(v).getTime()], [None] for NaN: a string is parsed, anything
    else is converted to a number and clipped to the range of time values. *)
Definition timeClip (x : number) : option Z :=
  match x with
  | Int z => if Z.abs z <=? 8640000000000000 then Some z else None
  | Frac m e =>
      let t := Z.quot m (2 ^ Zpos e) in
      if Z.abs t <=? 8640000000000000 then Some t else None
  | _ => None
  end.

Definition newDate (H : Host) (v : value) : option Z :=
  match v with
  | VStr s => Date_parse H s
  | VNum x => timeClip x
  | VBool b => Some (if b then 1 else 0)
  | VNull => Some 0
  end.

(* ================================================================== *)
(** * The program *)

Definition TABLE_NAME : string := "Ring".

Definition schema : Schema :=
  [ ("name", {| type := TText; limit := "20"; scale := ""; required := true;
                unique := false; allowNegative := true; fileConfig := None |});
    ("phone", {| type := TPhone; limit := "10"; scale := ""; required := true;
                 unique := false; allowNegative := false; fileConfig := None |});
    ("email", {| type := TEmail; limit := ""; scale := ""; required := false;
                 unique := false; allowNegative := false; fileConfig := None |});
    ("ring_size", {| type := TAmount; limit := "10"; scale := "2";
                     required := true; unique := false; allowNegative := true;
                     fileConfig := None |});
    ("ss", {| type := TPhoto; limit := ""; scale := ""; required := true;
              unique := false; allowNegative := false;
              fileConfig := Some {| maxSize := 10; extensions := ExtAll |} |});
    ("caret", {| type := TNumber; limit := "2"; scale := ""; required := true;
                 unique := false; allowNegative := true; fileConfig := None |});
    ("aadhar", {| type := TPhoto; limit := ""; scale := ""; required := true;
                  unique := false; allowNegative := false;
                  fileConfig := Some {| maxSize := 10; extensions := ExtAll |} |}) ].

Definition AUTO_CREATED_AT : bool := true.

(** ** Type mapping for SQL *)

Definition typeMap (field : FieldSpec) : string :=
  match type field with
  | TText => "VARCHAR(" ++ orElse (limit field) "50" ++ ")"
  | TDescription => "VARCHAR(" ++ orElse (limit field) "500" ++ ")"
  | TNumber =>
      let digits := orDefault (parseInt (limit field) (Some 10)) (Int 10) in
      if leb digits (Int 9) then "INTEGER"
      else if leb digits (Int 18) then "BIGINT"
      else "NUMERIC(" ++ numberToString digits ++ ")"
  | TAmount =>
      "DECIMAL(" ++ orElse (limit field) "10" ++ ", " ++
      orElse (scale field) "2" ++ ")"
  | TYesno => "BOOLEAN"
  | TDatetime => "TIMESTAMP"
  | TDate => "DATE"
  | TEmail => "VARCHAR(255)"
  | TPhone => "VARCHAR(" ++ orElse (limit field) "15" ++ ")"
  | TUrl => "VARCHAR(500)"
  | TPhoto => "BYTEA"
  | TFile => "BYTEA"
  end.

(** ** Create table SQL *)

(** One turn of the loop over [Object.entries(schema)]. *)
Definition appendColumn (columns : string) (entry : string * FieldSpec) : string :=
  let (name, field) := entry in
  let columns := columns ++ dq ++ name ++ dq ++ " " ++ typeMap field in
  let columns := if required field then columns ++ " NOT NULL" else columns in
  let columns := if unique field then columns ++ " UNIQUE" else columns in
  columns ++ "," ++ nl.

Definition createTableSQL (schema : Schema) : string :=
  let columns :=
    dq ++ "id" ++ dq ++ " BIGINT GENERATED ALWAYS AS IDENTITY PRIMARY KEY," ++ nl in
  let columns := List.fold_left appendColumn schema columns in
  let columns :=
    if AUTO_CREATED_AT
    then columns ++ dq ++ "created_at" ++ dq ++
         " TIMESTAMP NOT NULL DEFAULT CURRENT_TIMESTAMP," ++ nl
    else columns in
  "CREATE TABLE IF NOT EXISTS " ++ dq ++ TABLE_NAME ++ dq ++ " (" ++ nl ++
  sliceEnd columns 2 ++ nl ++ ");".

(** ** File validation *)

(** [validateFile(file, fieldConfig)]: the message, or [None] for [null]. *)
Definition validateFile (file : option UploadedFile) (fieldConfig : FieldSpec)
  : option string :=
  match file with
  | None => None
  | Some file =>
      let maxSize :=
        mul (mul (toNumber (orElse (limit fieldConfig) "10")) (Int 1024))
            (Int 1024) in
      if gtb (Int (size file)) maxSize
      then Some ("File size exceeds " ++ orElse (limit fieldConfig) "10" ++
                 "MB limit")
      else
        match fileConfig fieldConfig with
        | Some {| extensions := ExtList exts |} =>
            let fileName := toLowerCase (originalname file) in
            let isValid :=
              List.existsb (fun ext => endsWith fileName (toLowerCase ext))
                           exts in
            if negb isValid
            then
              let allowed :=
                join ", " (List.map (fun e => replace e "." "") exts) in
              Some ("File type not allowed. Allowed types: " ++ allowed)
            else None
        | _ => None
        end
  end.

(** ** Field validation *)

Import Regex.

(** [/^[^\s@]+@[^\s@]+\.[^\s@]+$/] *)
Definition notSpaceAt (c : ascii) : bool :=
  negb (isWhiteSpace c) && negb (Ascii.eqb c "@").

Definition emailRegex : regex :=
  Cat (Plus (Cls notSpaceAt))
      (Cat (Chr "@")
           (Cat (Plus (Cls notSpaceAt))
                (Cat (Chr ".") (Plus (Cls notSpaceAt))))).

(** [/^[+]?[\d\s\-\(\)]{10,15}$/] *)
Definition phoneChar (c : ascii) : bool :=
  isDigit c || isWhiteSpace c || Ascii.eqb c "-" || Ascii.eqb c "(" ||
  Ascii.eqb c ")".

Definition phoneRegex : regex :=
  Cat (Opt (Chr "+")) (Rep 10 15 phoneChar).

(** [/^-?\d+(\.\d+)?$/] *)
Definition numberRegex : regex :=
  Cat (Opt (Chr "-"))
      (Cat (Plus (Cls isDigit))
           (Opt (Cat (Chr ".") (Plus (Cls isDigit))))).

Definition err (message name : string) : option ValidationError :=
  Some {| error := message; field := name |}.

(** Sequencing of checks: the first [return] wins. *)
Notation "c1 ;; c2" :=
  (match c1 with Some e => Some e | None => c2 end)
  (at level 61, right associativity).

(** [if (cond) return e]. *)
Definition when (cond : bool) (e : option ValidationError)
  : option ValidationError :=
  if cond then e else None.

(** [value === undefined || value === null || String(value).trim() === ""] *)
Definition isBlank (v : option value) : bool :=
  match v with
  | None => true
  | Some VNull => true
  | Some v => isEmpty (trim (toString v))
  end.

(** [String(value).trim()] for a value that is not blank. *)
Definition strValueOf (v : option value) : string :=
  match v with
  | None => "undefined"
  | Some v => trim (toString v)
  end.

Definition isFileType (t : FieldType) : bool :=
  match t with TPhoto | TFile => true | _ => false end.

Definition isType (t u : FieldType) : bool :=
  match t, u with
  | TText, TText | TDescription, TDescription | TNumber, TNumber
  | TAmount, TAmount | TYesno, TYesno | TDatetime, TDatetime | TDate, TDate
  | TEmail, TEmail | TPhone, TPhone | TUrl, TUrl | TPhoto, TPhoto
  | TFile, TFile => true
  | _, _ => false
  end.

(** The checks of the number range block. *)
Definition validateNumberRange (name : string) (field : FieldSpec)
           (strValue : string) : option ValidationError :=
  let numValue := abs (parseInt strValue None) in
  let maxDigits := orDefault (parseInt (limit field) None) (Int 10) in
  when (gtb (len (numberToString numValue)) maxDigits)
       (err (name ++ " exceeds " ++ numberToString maxDigits ++ " digits") name) ;;
  when (leb maxDigits (Int 9) && gtb numValue (Int 2147483647))
       (err (name ++ " exceeds INTEGER maximum value") name) ;;
  when (leb maxDigits (Int 18) &&
        gtb numValue (round_int 9223372036854775807))
       (err (name ++ " exceeds BIGINT maximum value") name).

(** The checks of the amount precision block. *)
Definition validateAmountPrecision (name : string) (field : FieldSpec)
           (strValue : string) : option ValidationError :=
  let parts := split "." (replace strValue "-" "") in
  let integerPart := List.nth 0 parts "" in
  let decimalPart := List.nth 1 parts "" in
  let maxInteger :=
    sub (parseInt (orElse (limit field) "10") (Some 10))
        (parseInt (orElse (scale field) "2") (Some 10)) in
  let maxDecimal := parseInt (orElse (scale field) "2") (Some 10) in
  when (gtb (len integerPart) maxInteger)
       (err (name ++ " integer part exceeds " ++ numberToString maxInteger ++
             " digits") name) ;;
  when (gtb (len decimalPart) maxDecimal)
       (err (name ++ " decimal part exceeds " ++ numberToString maxDecimal ++
             " places") name) ;;
  when (negb (allowNegative field) && startsWith strValue "-")
       (err (name ++ " must be a positive amount") name).

(** The rules for a scalar field whose value is present and not blank. *)
Definition validateScalar (H : Host) (name : string) (field : FieldSpec)
           (strValue : string) : option ValidationError :=
  let t := type field in
  (* Email validation *)
  when (isType t TEmail && negb (test emailRegex strValue))
       (err (name ++ " must be a valid email address") name) ;;
  (* URL validation *)
  when (isType t TUrl && negb (URL_parses H strValue))
       (err (name ++ " must be a valid URL") name) ;;
  (* Phone validation *)
  when (isType t TPhone)
       (when (negb (test phoneRegex (filter (fun c => negb (isWhiteSpace c))
                                            strValue)))
             (err (name ++ " must be a valid phone number") name) ;;
        let maxLength := orDefault (parseInt (limit field) None) (Int 15) in
        when (gtb (len (filter isDigit strValue)) maxLength)
             (err (name ++ " exceeds " ++ numberToString maxLength ++
                   " digits") name)) ;;
  (* Text length validation *)
  when ((isType t TText || isType t TDescription) &&
        negb (isEmpty (limit field)))
       (let maxLength := parseInt (limit field) None in
        when (gtb (len strValue) maxLength)
             (err (name ++ " exceeds " ++ numberToString maxLength ++
                   " characters") name)) ;;
  (* Numeric validation *)
  when ((isType t TNumber || isType t TAmount) && negb (isEmpty strValue))
       (when (negb (test numberRegex strValue))
             (err (name ++ " must be a valid number") name) ;;
        when (isType t TNumber && includes strValue ".")
             (err (name ++ " must be an integer (no decimals)") name) ;;
        when (negb (allowNegative field) && startsWith strValue "-")
             (err (name ++ " must be a positive number") name) ;;
        when (isType t TNumber) (validateNumberRange name field strValue) ;;
        when (isType t TAmount) (validateAmountPrecision name field strValue)) ;;
  (* Date validation *)
  when ((isType t TDatetime || isType t TDate) && negb (isEmpty strValue))
       (match Date_parse H strValue with
        | None => err (name ++ " must be a valid date") name
        | Some _ => None
        end).

(** The body of the loop over [Object.entries(schema)]: what one field
    contributes, [None] when the loop goes on to the next field. *)
Definition validateField (H : Host) (name : string) (field : FieldSpec)
           (body : Body) (files : Files) : option ValidationError :=
  if isFileType (type field) then
    when (required field &&
          match lookup name files with None => true | Some _ => false end)
         (err (name ++ " is required") name) ;;
    match lookup name files with
    | Some f =>
        match validateFile (Some f) field with
        | Some fileError => err fileError name
        | None => None
        end
    | None => None
    end
  else
    let value := lookup name body in
    when (required field && isBlank value) (err (name ++ " is required") name) ;;
    (* Skip validation if value is empty and not required *)
    if isBlank value then None
    else validateScalar H name field (strValueOf value).

Fixpoint validateFields (H : Host) (entries : Schema) (body : Body)
         (files : Files) : option ValidationError :=
  match entries with
  | [] => None
  | (name, field) :: rest =>
      validateField H name field body files ;;
      validateFields H rest body files
  end.

(** The names of the properties that an object literal inherits from
    [Object.prototype].  Their values are functions, and the prototype
    itself for [__proto__]: all of them are truthy. *)
Definition objectPrototype : list string :=
  ["constructor"; "__defineGetter__"; "__defineSetter__"; "hasOwnProperty";
   "__lookupGetter__"; "__lookupSetter__"; "isPrototypeOf";
   "propertyIsEnumerable"; "toString"; "valueOf"; "__proto__";
   "toLocaleString"].

Definition inherited (key : string) : bool :=
  List.existsb (String.eqb key) objectPrototype.

(** Extra field validation: the loop over [Object.keys(body)].  The test
    [!schema[key]] reads [schema], an object literal, through its prototype
    chain: it is false for a declared field and for an inherited property. *)
Fixpoint extraField (schema : Schema) (ks : list string)
  : option ValidationError :=
  match ks with
  | [] => None
  | key :: rest =>
      match lookup key schema with
      | None =>
          if inherited key then extraField schema rest
          else err ("Extra field not allowed: " ++ key) key
      | Some _ => extraField schema rest
      end
  end.

(** Extra file validation: the loop over [Object.keys(files)].  For a key
    that [schema] only inherits, [schema[key].type] is [undefined], which is
    neither ["photo"] nor ["file"]: the key is refused like one that is not
    a property at all. *)
Fixpoint extraFile (schema : Schema) (ks : list string)
  : option ValidationError :=
  match ks with
  | [] => None
  | key :: rest =>
      match lookup key schema with
      | None => err ("Extra file not allowed: " ++ key) key
      | Some f =>
          if negb (isType (type f) TPhoto) && negb (isType (type f) TFile)
          then err ("Extra file not allowed: " ++ key) key
          else extraFile schema rest
      end
  end.

(** [validate(body, files)]; [None] is [null]. *)
Definition validate (H : Host) (schema : Schema) (body : Body) (files : Files)
  : option ValidationError :=
  validateFields H schema body files ;;
  extraField schema (keys body) ;;
  extraFile schema (keys files).

(** ** Build insert query *)

(** What one turn of the loop over the schema does: throw, go on without a
    column, or push a column and its value. *)
Inductive Step : Type :=
| StepThrow (e : ValidationError)
| StepSkip
| StepPush (column : string) (v : BoundValue).

Definition throw (message name : string) : Step :=
  StepThrow {| error := message; field := name |}.

(** The yes/no coercion. *)
Definition coerceYesno (v : value) : bool :=
  String.eqb (toLowerCase (toString v)) "true" ||
  strictEq v (VStr "1") ||
  strictEq v (VNum (Int 1)) ||
  strictEq v (VStr "yes") ||
  strictEq v (VStr "on").

Definition buildField (H : Host) (name : string) (field : FieldSpec)
           (body : Body) (files : Files) : Step :=
  if isFileType (type field) then
    match lookup name files with
    | Some f => StepPush (dq ++ name ++ dq) (BBuffer (buffer f))
    | None =>
        if required field then throw (name ++ " is required") name
        else StepSkip
    end
  else
    match lookup name body with
    | None =>
        if required field then throw (name ++ " is required") name
        else StepSkip
    | Some v =>
        let column := dq ++ name ++ dq in
        match type field with
        | TNumber =>
            (* Ensure it's an integer *)
            let num := parseFloat (toString v) in
            if negb (isInteger num)
            then throw (name ++ " must be an integer") name
            else StepPush column (BNumber (floor num))
        | TAmount => StepPush column (BNumber (parseFloat (toString v)))
        | TYesno => StepPush column (BBool (coerceYesno v))
        | TText | TDescription | TEmail | TPhone | TUrl =>
            StepPush column (BString (trim (toString v)))
        | TDatetime | TDate =>
            match newDate H v with
            | None => throw (name ++ " must be a valid date") name
            | Some t => StepPush column (BString (toISOString H t))
            end
        | TPhoto | TFile => StepSkip
        end
    end.

(** The loop, with the arrays [columns] and [values] it extends. *)
Fixpoint buildFields (H : Host) (entries : Schema) (body : Body) (files : Files)
         (columns : list string) (values : list BoundValue)
  : ValidationError + (list string * list BoundValue) :=
  match entries with
  | [] => inr (columns, values)
  | (name, field) :: rest =>
      match buildField H name field body files with
      | StepThrow e => inl e
      | StepSkip => buildFields H rest body files columns values
      | StepPush c v =>
          buildFields H rest body files (columns ++ [c]) (values ++ [v])
      end
  end.

(** [values.map((_, i) => `$${i + 1}`)] *)
Definition placeholdersOf (values : list BoundValue) : list string :=
  List.map (fun i => "$" ++ numberToString (Int (Z.of_nat i + 1)))
           (List.seq 0 (List.length values)).

Definition buildInsertQuery (H : Host) (schema : Schema) (body : Body)
           (files : Files) : Outcome :=
  match buildFields H schema body files [] [] with
  | inl e => Throws e
  | inr (columns, values) =>
      Returns
        {| text := "INSERT INTO " ++ dq ++ TABLE_NAME ++ dq ++ " (" ++
                   join "," columns ++ ") VALUES (" ++
                   join "," (placeholdersOf values) ++
                   ") RETURNING id, created_at";
           values := values |}
  end.

(** A host that parses no URL and no date, for requests to schemas without
    url, date or datetime fields. *)
Definition plainHost : Host :=
  {| URL_parses := fun _ => false;
     Date_parse := fun _ => None;
     toISOString := fun _ => "" |}.

(* ================================================================== *)
(** * Notions used to state the properties *)

(** The first violation of a sequence of checks. *)
Definition firstViolation (checks : list (option ValidationError))
  : option ValidationError :=
  List.fold_right (fun c k => c ;; k) None checks.

(** The check of one declared field, of one key of the body and of one key
    of the file map. *)
Definition checkDeclared (H : Host) (body : Body) (files : Files)
           (entry : string * FieldSpec) : option ValidationError :=
  validateField H (fst entry) (snd entry) body files.

Definition checkBodyKey (schema : Schema) (key : string)
  : option ValidationError :=
  match lookup key schema with
  | Some _ => None
  | None => err ("Extra field not allowed: " ++ key) key
  end.

Definition checkFileKey (schema : Schema) (key : string)
  : option ValidationError :=
  match lookup key schema with
  | Some f =>
      if isFileType (type f) then None
      else err ("Extra file not allowed: " ++ key) key
  | None => err ("Extra file not allowed: " ++ key) key
  end.

(** The file name ends, case-insensitively, with one of the extensions the
    field allows; a field without a list of extensions allows every name. *)
Definition extensionAllowed (f : FieldSpec) (u : UploadedFile) : bool :=
  match fileConfig f with
  | None => true
  | Some fc =>
      match extensions fc with
      | ExtAll => true
      | ExtList exts =>
          List.existsb
            (fun ext => endsWith (toLowerCase (originalname u)) (toLowerCase ext))
            exts
      end
  end.

(** A field or a key is absent from the body, or its value is the empty
    string or white space only. *)
Definition absentOrBlank (name : string) (body : Body) : Prop :=
  lookup name body = None \/
  exists s, lookup name body = Some (VStr s) /\ forallb isWhiteSpace s = true.

(** The number of decimal digits of a natural number. *)
Definition digitCount (z : Z) : Z := Z.of_nat (String.length (decimal z)).

(** A string of decimal digits, at least one. *)
Definition isDigits (s : string) : bool := negb (isEmpty s) && forallb isDigit s.

(** The numeral with sign [neg], integer digits [ip] and fraction digits
    [dp] (no decimal point when [dp] is empty). *)
Definition numeral (neg : bool) (ip dp : string) : string :=
  (if neg then "-" else "") ++ ip ++ (if isEmpty dp then "" else "." ++ dp).

(** The shape the phone pattern accepts: an optional leading plus sign, then
    10 to 15 code units among digits, white space, hyphen and parentheses. *)
Definition phoneShape (s : string) : Prop :=
  exists plus rest,
    s = plus ++ rest /\ (plus = "" \/ plus = "+") /\
    (10 <= String.length rest <= 15)%nat /\ forallb phoneChar rest = true.

(** The types whose value is bound as a trimmed string. *)
Definition isTextual (t : FieldType) : bool :=
  match t with
  | TText | TDescription | TEmail | TPhone | TUrl => true
  | _ => false
  end.

(** The DDL as a list of column lines. *)
Definition columnLine (entry : string * FieldSpec) : string :=
  let (name, f) := entry in
  dq ++ name ++ dq ++ " " ++ typeMap f ++
  (if required f then " NOT NULL" else "") ++
  (if unique f then " UNIQUE" else "").

Definition idColumn : string :=
  dq ++ "id" ++ dq ++ " BIGINT GENERATED ALWAYS AS IDENTITY PRIMARY KEY".

Definition createdAtColumn : string :=
  dq ++ "created_at" ++ dq ++ " TIMESTAMP NOT NULL DEFAULT CURRENT_TIMESTAMP".

(** A limit or scale of the schema that is empty or a decimal numeral below
    [2^53]. *)
Definition plainNumeral (s : string) : Prop :=
  s = "" \/ (isDigits s = true /\ valueOf 10 s 0 < two53).

(** The number a plain numeral [s] stands for in [parseInt(s) || dflt]: its
    value, or the default when [s] is empty or zero. *)
Definition limitOr (dflt : Z) (s : string) : Z :=
  if isEmpty s || (valueOf 10 s 0 =? 0) then dflt else valueOf 10 s 0.

(** The number a plain numeral [s] stands for in [parseInt(s || dflt)] and
    in [(s || dflt) * 1]: its value, or the default when [s] is empty. *)
Definition numeralOr (dflt : Z) (s : string) : Z :=
  if isEmpty s then dflt else valueOf 10 s 0.

(** A value the query builder coerces without raising, for a field it
    coerces by parsing.  A number field holds a value that is not blank, and
    either its digit limit is at most 18 or the value is at most 300 code
    units long; a date or datetime field holds a string that is not empty
    and has no white space around it. *)
Definition coercible (f : FieldSpec) (v : value) : Prop :=
  match type f with
  | TNumber =>
      isBlank (Some v) = false /\
      ((plainNumeral (limit f) /\ limitOr 10 (limit f) <= 18) \/
       (String.length (trim (toString v)) <= 300)%nat)
  | TDatetime | TDate => exists s, v = VStr s /\ trim s = s /\ s <> ""
  | _ => True
  end.

(** The native numeric type for a limit of [digits] digits. *)
Definition nativeNumber (digits : Z) : string :=
  if digits <=? 9 then "INTEGER"
  else if digits <=? 18 then "BIGINT"
  else "NUMERIC(" ++ decimal digits ++ ")".

(** The native type of a field of type [t] with the given limit and
    scale. *)
Definition nativeType (t : FieldType) (limit scale : string) : string :=
  match t with
  | TText => "VARCHAR(" ++ (if isEmpty limit then "50" else limit) ++ ")"
  | TDescription => "VARCHAR(" ++ (if isEmpty limit then "500" else limit) ++ ")"
  | TNumber => nativeNumber (limitOr 10 limit)
  | TAmount =>
      "DECIMAL(" ++ (if isEmpty limit then "10" else limit) ++ ", " ++
      (if isEmpty scale then "2" else scale) ++ ")"
  | TYesno => "BOOLEAN"
  | TDatetime => "TIMESTAMP"
  | TDate => "DATE"
  | TEmail => "VARCHAR(255)"
  | TUrl => "VARCHAR(500)"
  | TPhone => "VARCHAR(" ++ (if isEmpty limit then "15" else limit) ++ ")"
  | TPhoto | TFile => "BYTEA"
  end.

Definition tableStatement (lines : list string) : string :=
  "CREATE TABLE IF NOT EXISTS " ++ dq ++ "Ring" ++ dq ++ " (" ++ nl ++
  join ("," ++ nl) lines ++ nl ++ ");".

(* ================================================================== *)
(** * Sample requests against the shipped schema *)

Definition image : UploadedFile :=
  {| size := 2048; originalname := "ring.png"; buffer := "PNG" |}.

Definition filesA : Files := [("ss", image); ("aadhar", image)].

(** Scenario A of the specification. *)
Definition bodyA : Body :=
  [("name", VStr "Alice"); ("phone", VStr "9876543210");
   ("ring_size", VStr "120.50"); ("caret", VStr "2")].

(** Scenario B: [ring_size] omitted. *)
Definition bodyB : Body :=
  [("name", VStr "Alice"); ("phone", VStr "9876543210"); ("caret", VStr "2")].

(** Scenario C: a decimal in [caret]. *)
Definition bodyC : Body :=
  [("name", VStr "Alice"); ("phone", VStr "9876543210");
   ("ring_size", VStr "120.50"); ("caret", VStr "2.5")].

(** The entries of the shipped schema by name. *)
Definition entry (name : string) : FieldSpec :=
  match lookup name schema with
  | Some f => f
  | None => {| type := TText; limit := ""; scale := ""; required := false;
               unique := false; allowNegative := false; fileConfig := None |}
  end.

Definition phoneField : FieldSpec := Eval cbv in entry "phone".
Definition emailField : FieldSpec := Eval cbv in entry "email".
Definition ringSizeField : FieldSpec := Eval cbv in entry "ring_size".
Definition ssField : FieldSpec := Eval cbv in entry "ss".
Definition caretField : FieldSpec := Eval cbv in entry "caret".

(** A file of 10 MB and one byte. *)
Definition oversized : UploadedFile :=
  {| size := 10 * 1048576 + 1; originalname := "ring.png"; buffer := "PNG" |}.

(** The same files and one more under a key the schema does not declare. *)
Definition filesFoo : Files := (filesA ++ [("foo", image)])%list.

(** A schema with one optional number field, and one with one optional
    amount field. *)
Definition optional (t : FieldType) (l : string) : FieldSpec :=
  {| type := t; limit := l; scale := ""; required := false; unique := false;
     allowNegative := true; fileConfig := None |}.

(** A file field limited to 5 MB by its [fileConfig] only. *)
Definition documentField : FieldSpec :=
  {| type := TFile; limit := ""; scale := ""; required := true;
     unique := false; allowNegative := false;
     fileConfig := Some {| maxSize := 5; extensions := ExtAll |} |}.

Definition sixMegabytes : UploadedFile :=
  {| size := 6 * 1048576; originalname := "scan.pdf"; buffer := "PDF" |}.

(* ================================================================== *)
(** * The upload fields and the save endpoint *)

(** ** Multer with file size limits *)

Record Limits : Type := {
  fileSize : Z
}.

(** [multer({ limits: { fileSize: 10 * 1024 * 1024 } })] *)
Definition upload : Limits := {| fileSize := 10 * 1024 * 1024 |}.

(** ** Multer fields configuration *)

Record UploadField : Type := {
  name : string;
  maxCount : Z
}.

(** [Object.entries(schema).filter(...).map(...)] *)
Definition uploadFields (schema : Schema) : list UploadField :=
  List.map (fun entry => {| name := fst entry; maxCount := 1 |})
    (List.filter
       (fun entry =>
          isType (type (snd entry)) TPhoto || isType (type (snd entry)) TFile)
       schema).

(** ** Objects that are thrown, returned by the database and sent *)

(** The values of the properties the handler reads and writes; [JOther]
    stands for any other object (a date, an array), by its JSON text. *)
Inductive Json : Type :=
| JUndefined
| JNull
| JBool (b : bool)
| JNum (x : number)
| JStr (s : string)
| JOther (json : string).

(** An object by its properties. *)
Definition Object : Type := list (string * Json).

(** [obj[key]] *)
Definition get (obj : Object) (key : string) : Json :=
  match lookup key obj with
  | Some v => v
  | None => JUndefined
  end.

(** Truthiness of a value. *)
Definition truthyJson (v : Json) : bool :=
  match v with
  | JUndefined | JNull => false
  | JBool b => b
  | JNum x => truthy x
  | JStr s => negb (isEmpty s)
  | JOther _ => true
  end.

(** [v === s] for a string [s]. *)
Definition isStr (v : Json) (s : string) : bool :=
  match v with
  | JStr v => String.eqb v s
  | _ => false
  end.

(** The object [{ error, field }] of a validation error. *)
Definition errorObject (e : ValidationError) : Object :=
  [("error", JStr (error e)); ("field", JStr (field e))].

(** ** The database client *)

(** The outcome of [await client.query(...)]: the rows of the result, or the
    error the promise is rejected with. *)
Inductive Reply : Type :=
| Rows (rows : list Object)
| Rejects (reason : Object).

(** What a request does, in order: the queries with their outcome, the
    response sent (the status and the object given to [json]), the release
    of the client. *)
Inductive Event : Type :=
| EQuery (q : Query) (r : Reply)
| ERespond (status : Z) (body : Object)
| ERelease.

(** A query without values: [client.query("BEGIN")] and the like. *)
Definition statement (text : string) : Query :=
  {| text := text; values := [] |}.

(** ** The body as the handler receives it *)

(** A value of [req.body]: one that [String] converts, or an object that it
    cannot convert (an object without prototype, as the upload middleware
    makes of a field named [a[b]], or one whose [toString] is no function);
    converting such an object throws, a TypeError. *)
Inductive Received : Type :=
| Converts (v : value)
| Unconvertible (thrown : Object).

Definition RequestBody : Type := list (string * Received).

(** A body of values that convert, as received. *)
Definition received (body : Body) : RequestBody :=
  List.map (fun entry => (fst entry, Converts (snd entry))) body.

(** The properties of a body whose values convert. *)
Definition convertible (body : RequestBody) : Body :=
  List.flat_map
    (fun entry =>
       match snd entry with
       | Converts v => [(fst entry, v)]
       | Unconvertible _ => []
       end) body.

(** The loop of [validate] over [Object.entries(schema)] on a body as
    received: [inl] is what the loop throws.  For a field that is no photo
    or file, the required check or, when the field is not required, the
    check that skips a blank value evaluates [String(value)] unless
    [value] is [undefined] or [null]: an object that does not convert
    throws there, before anything is returned for the field. *)
Fixpoint validateFieldsReceived (H : Host) (entries : Schema)
         (body : RequestBody) (files : Files)
  : Object + option ValidationError :=
  match entries with
  | [] => inr None
  | (name, field) :: rest =>
      match (if isFileType (type field) then None else lookup name body) with
      | Some (Unconvertible thrown) => inl thrown
      | _ =>
          match validateField H name field (convertible body) files with
          | Some e => inr (Some e)
          | None => validateFieldsReceived H rest body files
          end
      end
  end.

(** [validate(req.body, files)] on a body as received; the two loops over
    the keys read no value. *)
Definition validateReceived (H : Host) (schema : Schema) (body : RequestBody)
           (files : Files) : Object + option ValidationError :=
  match validateFieldsReceived H schema body files with
  | inr None =>
      inr (extraField schema (keys body) ;; extraFile schema (keys files))
  | thrownOrError => thrownOrError
  end.

Section SaveEndpoint.

(** The database: its states, and how it answers a query in a state. *)
Variable S : Type.
Variable exec : S -> Query -> S * Reply.

(** A computation of the handler: from a state and the events so far, the
    new state and events, and the value returned ([inr]) or the object
    thrown ([inl]). *)
Definition Run (A : Type) : Type :=
  S -> list Event -> (S * list Event) * (Object + A).

Definition throwing (A : Type) (thrown : Object) : Run A :=
  fun s t => ((s, t), inl thrown).

Definition bind (A B : Type) (m : Run A) (k : A -> Run B) : Run B :=
  fun s t =>
    match m s t with
    | ((s', t'), inr a) => k a s' t'
    | ((s', t'), inl thrown) => ((s', t'), inl thrown)
    end.

(** [try { m } catch (error) { h }] *)
Definition tryCatch (A : Type) (m : Run A) (h : Object -> Run A) : Run A :=
  fun s t =>
    match m s t with
    | ((s', t'), inl thrown) => h thrown s' t'
    | done => done
    end.

(** [try { m } finally { f }] *)
Definition tryFinally (A : Type) (m : Run A) (f : Run unit) : Run A :=
  fun s t =>
    match m s t with
    | ((s', t'), r) =>
        match f s' t' with
        | ((s'', t''), inl thrown) => ((s'', t''), inl thrown)
        | ((s'', t''), inr _) => ((s'', t''), r)
        end
    end.

(** [await client.query(text, values)] *)
Definition query (q : Query) : Run (list Object) :=
  fun s t =>
    match exec s q with
    | (s', Rows rows) => ((s', t ++ [EQuery q (Rows rows)])%list, inr rows)
    | (s', Rejects reason) =>
        ((s', t ++ [EQuery q (Rejects reason)])%list, inl reason)
    end.

(** [res.status(status).json(body)] *)
Definition respond (status : Z) (body : Object) : Run unit :=
  fun s t => ((s, t ++ [ERespond status body])%list, inr tt).

(** [client.release()] *)
Definition release : Run unit :=
  fun s t => ((s, t ++ [ERelease])%list, inr tt).

(** ** Main save endpoint *)

(** [rows[0]?.key] *)
Definition firstRow (rows : list Object) (key : string) : Json :=
  match rows with
  | row :: _ => get row key
  | [] => JUndefined
  end.

(** The object sent after the COMMIT. *)
Definition savedObject (rows : list Object) : Object :=
  [("success", JBool true);
   ("id", firstRow rows "id");
   ("created_at", firstRow rows "created_at");
   ("message", JStr "Record saved successfully");
   ("table", JStr TABLE_NAME)].

(** The chain of tests of the [catch] block, after its ROLLBACK. *)
Definition respondToError (thrown : Object) : Run unit :=
  if isStr (get thrown "code") "23505" then
    (* Unique violation *)
    respond 409
      [("error", JStr "Duplicate entry - this record already exists");
       ("code", JStr "DUPLICATE_ENTRY");
       ("details", get thrown "detail")]
  else if isStr (get thrown "code") "23502" then
    (* Not null violation *)
    respond 400
      [("error", JStr "Missing required field");
       ("code", JStr "MISSING_REQUIRED");
       ("field", get thrown "column")]
  else if isStr (get thrown "code") "22P02" then
    (* Invalid input syntax *)
    respond 400
      [("error", JStr "Invalid data format");
       ("code", JStr "INVALID_FORMAT");
       ("details", get thrown "message")]
  else if truthyJson (get thrown "error") then
    (* Our custom validation errors *)
    respond 400 thrown
  else if isStr (get thrown "code") "22001" then
    (* String data right truncation *)
    respond 400
      [("error", JStr "Data too long for field");
       ("code", JStr "DATA_TOO_LONG")]
  else if isStr (get thrown "code") "22003" then
    (* Numeric value out of range *)
    respond 400
      [("error", JStr "Numeric value out of range");
       ("code", JStr "NUMERIC_OUT_OF_RANGE")]
  else
    (* Generic error *)
    respond 500
      [("error", JStr "Internal server error");
       ("code", JStr "INTERNAL_ERROR");
       ("message", get thrown "message")].

(** [req.files || {}] *)
Definition filesOf (files : option Files) : Files :=
  match files with
  | Some fs => fs
  | None => []
  end.

(** [await pool.connect()]: [connect] gives the reason when the pool
    rejects, and [None] when it hands over a client. *)
Definition connecting (connect : S -> S * option Object) : Run unit :=
  fun s t =>
    match connect s with
    | (s', None) => ((s', t), inr tt)
    | (s', Some reason) => ((s', t), inl reason)
    end.

(** The handler of [POST /api/save]; [files] is [req.files], [None] when
    the request has none.  Output on the console is left out.  The builder
    is called only after [validate] went through every field without
    throwing, so that the values it reads convert: it is given the
    properties that do. *)
Definition saveHandler (connect : S -> S * option Object) (H : Host)
           (schema : Schema) (body : RequestBody) (files : option Files)
  : Run unit :=
  bind (connecting connect) (fun _ =>
  tryFinally
    (tryCatch
       (bind (query (statement "BEGIN")) (fun _ =>
        let files := filesOf files in
        match validateReceived H schema body files with
        | inl thrown => throwing unit thrown
        | inr (Some validationError) =>
            bind (query (statement "ROLLBACK")) (fun _ =>
            respond 400 (errorObject validationError))
        | inr None =>
            match buildInsertQuery H schema (convertible body) files with
            | Throws e => throwing unit (errorObject e)
            | Returns q =>
                bind (query q) (fun rows =>
                bind (query (statement "COMMIT")) (fun _ =>
                respond 200 (savedObject rows)))
            end
        end))
       (fun thrown =>
          bind (query (statement "ROLLBACK")) (fun _ =>
          respondToError thrown)))
    release).

(** The events of a run, and the object that escapes it, if one does. *)
Definition trace (run : (S * list Event) * (Object + unit)) : list Event :=
  snd (fst run).

Definition escaping (run : (S * list Event) * (Object + unit))
  : option Object :=
  match snd run with
  | inl thrown => Some thrown
  | inr _ => None
  end.

(** A pool that hands over a client. *)
Definition connected (s : S) : S * option Object := (s, None).

(** The events of one request on a connected client, for a body of values
    that convert, from a state of the database. *)
Definition eventsOf (H : Host) (schema : Schema) (body : Body)
           (files : option Files) (s : S) : list Event :=
  trace (saveHandler connected H schema (received body) files s []).

(** The object that escapes the handler then, if one does. *)
Definition escapes (H : Host) (schema : Schema) (body : Body)
           (files : option Files) (s : S) : option Object :=
  escaping (saveHandler connected H schema (received body) files s []).

End SaveEndpoint.

(** ** Notions used to state the properties of the endpoint *)

Definition isResponse (e : Event) : bool :=
  match e with ERespond _ _ => true | _ => false end.

Definition isRelease (e : Event) : bool :=
  match e with ERelease => true | _ => false end.

(** The responses of a run, in order. *)
Definition responses (events : list Event) : list (Z * Object) :=
  List.flat_map
    (fun e => match e with ERespond st b => [(st, b)] | _ => [] end) events.

(** The error codes of the database that the handler tells apart. *)
Definition handledCodes : list string :=
  ["23505"; "23502"; "22P02"; "22001"; "22003"].

Definition hasCode (thrown : Object) (code : string) : bool :=
  isStr (get thrown "code") code.

(** The queries of a run, in order. *)
Definition queries (events : list Event) : list Query :=
  List.flat_map (fun e => match e with EQuery q _ => [q] | _ => [] end) events.

(** ** Sample databases *)

(** A database that answers the queries of a request from a script, and
    with no rows once the script is used up. *)
Definition scripted (script : list Reply) (q : Query) : list Reply * Reply :=
  match script with
  | r :: rest => (rest, r)
  | [] => ([], Rows [])
  end.

Definition insertedRow : Object :=
  [("id", JNum (Int 7)); ("created_at", JOther "2024-05-01T10:00:00.000Z")].

(** The error of a unique violation. *)
Definition duplicateKey : Object :=
  [("code", JStr "23505");
   ("detail", JStr "Key (phone)=(9876543210) already exists.");
   ("message", JStr "duplicate key value violates unique constraint")].

(** The error that converting an object without prototype throws, and a
    body where the upload middleware made such an object of a field named
    [name[first]]. *)
Definition typeError : Object :=
  [("message", JStr "Cannot convert object to primitive value")].

Definition bodyNested : RequestBody :=
  [("name", Unconvertible typeError); ("phone", Converts (VStr "9876543210"))].

(** An error without a code, as a lost connection gives. *)
Definition connectionLost : Object :=
  [("message", JStr "Connection terminated unexpectedly")].

(** The query the builder makes of scenario A. *)
Definition insertA : Query :=
  Eval vm_compute in
    match buildInsertQuery plainHost schema bodyA filesA with
    | Returns q => q
    | Throws _ => statement ""
    end.

(** Scenario D: a phone number of five digits. *)
Definition bodyD : Body :=
  [("name", VStr "Alice"); ("phone", VStr "12345");
   ("ring_size", VStr "120.50"); ("caret", VStr "2")].

(* ================================================================== *)
(** * Notions used to state properties across functions *)

(** Keys that are pairwise different, as the keys of an object are. *)
Fixpoint distinct (ks : list string) : bool :=
  match ks with
  | [] => true
  | k :: rest => negb (List.existsb (String.eqb k) rest) && distinct rest
  end.

(** The shape the email pattern accepts: three parts that are not empty and
    hold neither white space nor an at sign, the first two separated by an at
    sign and the last two by a dot. *)
Definition emailShape (s : string) : Prop :=
  exists user domain tld,
    s = user ++ "@" ++ domain ++ "." ++ tld /\
    isEmpty user = false /\ isEmpty domain = false /\ isEmpty tld = false /\
    forallb notSpaceAt user = true /\ forallb notSpaceAt domain = true /\
    forallb notSpaceAt tld = true.

(** A declared field the request supplies: a file under its name for a
    photo or file field, a property of the body under its name otherwise. *)
Definition supplied (body : Body) (files : Files)
           (entry : string * FieldSpec) : bool :=
  if isFileType (type (snd entry))
  then match lookup (fst entry) files with Some _ => true | None => false end
  else match lookup (fst entry) body with Some _ => true | None => false end.

(** A verdict that, when it is an error, names [n] and has a message. *)
Definition names (n : string) (o : option ValidationError) : Prop :=
  match o with
  | Some e => field e = n /\ isEmpty (error e) = false
  | None => True
  end.

(** The name of a field as a quoted identifier. *)
Definition quoted (entry : string * FieldSpec) : string :=
  dq ++ fst entry ++ dq.

(** The extensions a file field lists, as the message of [validateFile]
    names them. *)
Definition allowedTypes (f : FieldSpec) : string :=
  match fileConfig f with
  | Some {| extensions := ExtList exts |} =>
      join ", " (List.map (fun e => replace e "." "") exts)
  | _ => ""
  end.

(** The largest values of the native integer types. *)
Definition INTEGER_MAX : Z := 2147483647.
Definition BIGINT_MAX : Z := 9223372036854775807.

(** A nullable text field of at most five characters, and a request that
    fills it with surrounding white space. *)
Definition nickField : FieldSpec := optional TText "5".
Definition bodyNick : Body := [("nick", VStr "  Ali  ")].

(** A file field that lists its extensions, and a file of another type. *)
Definition scanField : FieldSpec :=
  {| type := TFile; limit := "20"; scale := ""; required := true;
     unique := false; allowNegative := false;
     fileConfig := Some {| maxSize := 20;
                           extensions := ExtList [".pdf"; ".PNG"] |} |}.

Definition textFile : UploadedFile :=
  {| size := 512; originalname := "notes.txt"; buffer := "hello" |}.

Unset Implicit Arguments.

(* ================================================================== *)
(** * Properties *)

(** * Strings *)

Lemma append_nil_r (s : string) : s ++ "" = s.
Proof. induction s; simpl; congruence. Qed.

Lemma append_assoc (s1 s2 s3 : string) : (s1 ++ s2) ++ s3 = s1 ++ (s2 ++ s3).
Proof. induction s1; simpl; congruence. Qed.

Lemma length_append (s1 s2 : string) :
  String.length (s1 ++ s2) = (String.length s1 + String.length s2)%nat.
Proof. induction s1; simpl; congruence. Qed.

Lemma isEmpty_true (s : string) : isEmpty s = true <-> s = "".
Proof. destruct s; simpl; split; congruence. Qed.

Lemma isEmpty_false (s : string) : isEmpty s = false <-> s <> "".
Proof. destruct s; simpl; split; congruence. Qed.

Lemma forallb_append p (s1 s2 : string) :
  forallb p (s1 ++ s2) = forallb p s1 && forallb p s2.
Proof. induction s1; simpl; [reflexivity|]. rewrite IHs1, andb_assoc. reflexivity. Qed.

Lemma trimStart_blank (s : string) :
  forallb isWhiteSpace s = true -> trimStart s = "".
Proof.
  induction s as [|c s IH]; simpl; [reflexivity|].
  intros Hc. apply andb_true_iff in Hc as [Hc Hs]. rewrite Hc. auto.
Qed.

Lemma trim_blank (s : string) : forallb isWhiteSpace s = true -> trim s = "".
Proof. intros Hs. unfold trim. rewrite trimStart_blank by assumption. reflexivity. Qed.

Lemma trimEnd_head (c : ascii) (s : string) :
  isWhiteSpace c = false -> trimEnd (String c s) = String c (trimEnd s).
Proof. intros Hc. simpl. rewrite Hc. reflexivity. Qed.

(** A string that starts with something other than white space keeps its
    first code unit under [trim]. *)
Lemma trim_head (c : ascii) (s : string) :
  isWhiteSpace c = false -> trim (String c s) = String c (trimEnd s).
Proof. intros Hc. unfold trim. simpl. rewrite Hc. simpl. rewrite Hc. reflexivity. Qed.

Lemma trimEnd_split (s : string) :
  exists w, s = trimEnd s ++ w /\ forallb isWhiteSpace w = true.
Proof.
  induction s as [|c s [w [Hs Hw]]]; simpl.
  - exists "". auto.
  - destruct (isWhiteSpace c && isEmpty (trimEnd s)) eqn:E.
    + apply andb_true_iff in E as [Hc He]. apply isEmpty_true in He.
      rewrite He in Hs. simpl in Hs. exists (String c s). simpl. rewrite Hc.
      split; [reflexivity|]. rewrite Hs. assumption.
    + exists w. simpl. split; [congruence | assumption].
Qed.

Lemma trimStart_split (s : string) :
  exists w, s = w ++ trimStart s /\ forallb isWhiteSpace w = true.
Proof.
  induction s as [|c s [w [Hs Hw]]]; simpl.
  - exists "". auto.
  - destruct (isWhiteSpace c) eqn:E.
    + exists (String c w). simpl. rewrite E. split; [congruence | assumption].
    + exists "". auto.
Qed.

Lemma trimStart_head (s : string) :
  match trimStart s with
  | "" => True
  | String c _ => isWhiteSpace c = false
  end.
Proof.
  induction s as [|c s IH]; simpl; [exact I|].
  destruct (isWhiteSpace c) eqn:E; [exact IH | exact E].
Qed.

Lemma trimEnd_head_ws (s : string) :
  match s with
  | "" => True
  | String c _ => isWhiteSpace c = false
  end ->
  match trimEnd s with
  | "" => s = ""
  | String c _ => isWhiteSpace c = false
  end.
Proof.
  destruct s as [|c s]; simpl; [reflexivity|].
  intros Hc. rewrite Hc. simpl. exact Hc.
Qed.

(** The first code unit of a trimmed string is no white space. *)
Lemma trim_head_ws (s : string) :
  match trim s with
  | "" => True
  | String c _ => isWhiteSpace c = false
  end.
Proof.
  unfold trim. pose proof (trimStart_head s) as Hh.
  pose proof (trimEnd_head_ws (trimStart s) Hh) as He.
  destruct (trimEnd (trimStart s)); [exact I | exact He].
Qed.

Lemma trim_fixed (s : string) (c : ascii) (r : string) :
  trim s = String c r -> trimStart (String c r) = String c r.
Proof.
  intros Ht. pose proof (trim_head_ws s) as Hh. rewrite Ht in Hh.
  simpl. rewrite Hh. reflexivity.
Qed.

Lemma isPrefix_append (p s : string) : isPrefix p (p ++ s) = true.
Proof.
  induction p as [|c p IH]; simpl; [reflexivity|].
  rewrite Ascii.eqb_refl. exact IH.
Qed.

Lemma substring_append_all (s t : string) :
  String.substring 0 (String.length s) (s ++ t) = s.
Proof.
  induction s as [|c s IH]; simpl.
  - destruct t; reflexivity.
  - rewrite IH. reflexivity.
Qed.

Lemma sliceEnd_append (s t : string) (n : nat) :
  String.length t = n -> sliceEnd (s ++ t) n = s.
Proof.
  intros Ht. unfold sliceEnd. rewrite length_append, Ht.
  replace (String.length s + n - n)%nat with (String.length s) by lia.
  apply substring_append_all.
Qed.

(** * Regular expressions *)

Lemma test_Void (s : string) : test Void s = false.
Proof. induction s; simpl; auto. Qed.

Lemma test_Eps (s : string) : test Eps s = isEmpty s.
Proof. destruct s; simpl; [reflexivity | apply test_Void]. Qed.

Lemma test_Alt (r1 r2 : regex) (s : string) :
  test (Alt r1 r2) s = test r1 s || test r2 s.
Proof. revert r1 r2. induction s as [|c s IH]; intros; simpl; auto. Qed.

Lemma test_Cls (p : ascii -> bool) (s : string) :
  test (Cls p) s = match s with String c "" => p c | _ => false end.
Proof.
  destruct s as [|c s]; simpl; [reflexivity|].
  destruct (p c); [rewrite test_Eps; destruct s; reflexivity|].
  rewrite test_Void. destruct s; reflexivity.
Qed.

Lemma test_Cat (r1 r2 : regex) (s : string) :
  test (Cat r1 r2) s = true <->
  exists s1 s2, s = s1 ++ s2 /\ test r1 s1 = true /\ test r2 s2 = true.
Proof.
  revert r1. induction s as [|c s IH]; intros r1; simpl.
  - rewrite andb_true_iff. split.
    + intros [H1 H2]. exists "", "". auto.
    + intros (s1 & s2 & Hs & H1 & H2).
      destruct s1; [|discriminate]. destruct s2; [|discriminate]. auto.
  - rewrite test_Alt, orb_true_iff, IH. split.
    + intros [(s1 & s2 & Hs & H1 & H2) | Hn].
      * exists (String c s1), s2. simpl. subst s. auto.
      * destruct (nullable r1) eqn:E; [|rewrite test_Void in Hn; discriminate].
        exists "", (String c s). simpl. auto.
    + intros (s1 & s2 & Hs & H1 & H2). destruct s1 as [|c1 s1]; simpl in *.
      * right. rewrite H1. subst s2. exact H2.
      * left. injection Hs as -> ->. exists s1, s2. auto.
Qed.

Lemma test_Cat_Eps (r : regex) (s : string) : test (Cat Eps r) s = test r s.
Proof.
  destruct (test r s) eqn:E.
  - apply test_Cat. exists "", s. auto.
  - destruct (test (Cat Eps r) s) eqn:F; [|reflexivity].
    apply test_Cat in F as (s1 & s2 & Hs & H1 & H2).
    rewrite test_Eps in H1. apply isEmpty_true in H1. subst s1. simpl in Hs.
    congruence.
Qed.

Lemma test_Cat_Void (r : regex) (s : string) : test (Cat Void r) s = false.
Proof.
  destruct (test (Cat Void r) s) eqn:F; [|reflexivity].
  apply test_Cat in F as (s1 & s2 & Hs & H1 & H2).
  rewrite test_Void in H1. discriminate.
Qed.

Lemma test_Star_Cls (p : ascii -> bool) (s : string) :
  test (Star (Cls p)) s = forallb p s.
Proof.
  induction s as [|c s IH]; simpl; [reflexivity|].
  destruct (p c); simpl.
  - rewrite test_Cat_Eps. exact IH.
  - apply test_Cat_Void.
Qed.

Lemma test_Plus_Cls (p : ascii -> bool) (s : string) :
  test (Plus (Cls p)) s = negb (isEmpty s) && forallb p s.
Proof.
  destruct s as [|c s]; simpl; [reflexivity|].
  rewrite test_Alt, test_Void, orb_false_r.
  destruct (p c); simpl.
  - rewrite test_Cat_Eps. apply test_Star_Cls.
  - apply test_Cat_Void.
Qed.

Lemma test_Rep (lo hi : nat) (p : ascii -> bool) (s : string) :
  test (Rep lo hi p) s =
  (lo <=? String.length s)%nat && (String.length s <=? hi)%nat && forallb p s.
Proof.
  revert lo hi. induction s as [|c s IH]; intros lo hi; simpl.
  - destruct lo; reflexivity.
  - destruct hi as [|hi].
    + rewrite test_Void. simpl. rewrite andb_false_r. reflexivity.
    + destruct (p c); simpl.
      * rewrite IH. destruct lo; simpl; reflexivity.
      * rewrite test_Void, andb_false_r. reflexivity.
Qed.

Lemma test_Chr (a : ascii) (s : string) :
  test (Chr a) s = true <-> s = String a "".
Proof.
  unfold Chr. rewrite test_Cls. destruct s as [|c [|]]; try (split; discriminate).
  rewrite Ascii.eqb_eq. split; congruence.
Qed.

Lemma test_Opt (r : regex) (s : string) :
  test (Opt r) s = isEmpty s || test r s.
Proof. unfold Opt. rewrite test_Alt, test_Eps. reflexivity. Qed.

(** What the phone pattern accepts. *)
Lemma phoneRegex_spec (s : string) :
  test phoneRegex s = true <-> phoneShape s.
Proof.
  unfold phoneRegex, phoneShape. rewrite test_Cat. split.
  - intros (s1 & s2 & Hs & H1 & H2). exists s1, s2.
    rewrite test_Opt in H1. rewrite test_Rep in H2.
    apply andb_true_iff in H2 as [H2 Hp]. apply andb_true_iff in H2 as [Hlo Hhi].
    apply Nat.leb_le in Hlo, Hhi.
    repeat split; try assumption.
    apply orb_true_iff in H1 as [H1|H1].
    + left. apply isEmpty_true. exact H1.
    + right. apply test_Chr. exact H1.
  - intros (s1 & s2 & Hs & H1 & [Hlo Hhi] & Hp). exists s1, s2.
    repeat split; try assumption.
    + rewrite test_Opt. destruct H1 as [-> | ->]; [reflexivity|].
      apply orb_true_iff. right. apply test_Chr. reflexivity.
    + rewrite test_Rep, Hp. apply Nat.leb_le in Hlo, Hhi. rewrite Hlo, Hhi.
      reflexivity.
Qed.

(** What the number pattern accepts. *)
Lemma numberRegex_spec (s : string) :
  test numberRegex s = true <->
  exists neg ip dp,
    s = numeral neg ip dp /\ isDigits ip = true /\
    (dp = "" \/ isDigits dp = true).
Proof.
  unfold numberRegex. rewrite test_Cat. split.
  - intros (s1 & s2 & Hs & H1 & H2).
    apply test_Cat in H2 as (ip & s3 & Hs2 & Hip & H3).
    rewrite test_Plus_Cls in Hip. rewrite test_Opt in H3, H1.
    assert (exists neg, s1 = if neg : bool then "-" else "") as [neg Hneg].
    { apply orb_true_iff in H1 as [H1|H1].
      - exists false. apply isEmpty_true. exact H1.
      - exists true. apply test_Chr. exact H1. }
    apply orb_true_iff in H3 as [H3|H3].
    + apply isEmpty_true in H3. exists neg, ip, "". unfold numeral. simpl.
      subst. auto.
    + apply test_Cat in H3 as (d & dp & Hs3 & Hd & Hdp).
      apply test_Chr in Hd. rewrite test_Plus_Cls in Hdp.
      exists neg, ip, dp. unfold numeral, isDigits.
      destruct dp as [|c dp]; [discriminate|]. simpl isEmpty. cbv iota.
      subst. auto.
  - intros (neg & ip & dp & Hs & Hip & Hdp).
    exists (if neg then "-" else ""), (ip ++ (if isEmpty dp then "" else "." ++ dp)).
    split; [exact Hs|]. split.
    + rewrite test_Opt. destruct neg; [|reflexivity].
      apply orb_true_iff. right. apply test_Chr. reflexivity.
    + apply test_Cat. exists ip, (if isEmpty dp then "" else "." ++ dp).
      split; [reflexivity|]. split; [rewrite test_Plus_Cls; exact Hip|].
      rewrite test_Opt. destruct Hdp as [-> | Hdp]; [reflexivity|].
      destruct dp as [|c dp]; [discriminate|]. simpl isEmpty. cbv iota.
      apply test_Cat. exists ".", (String c dp). split; [reflexivity|].
      split; [apply test_Chr; reflexivity|]. rewrite test_Plus_Cls. exact Hdp.
Qed.

(** * Numbers *)

Lemma round_int_small (z : Z) : Z.abs z < two53 -> round_int z = Int z.
Proof.
  intros Hz. unfold round_int. apply Z.ltb_lt in Hz. rewrite Hz. reflexivity.
Qed.

Lemma gtb_Int (a b : Z) : gtb (Int a) (Int b) = (b <? a).
Proof. unfold gtb, ltb. simpl. rewrite !Z.mul_1_r. reflexivity. Qed.

Lemma leb_Int (a b : Z) : leb (Int a) (Int b) = (a <=? b).
Proof.
  unfold leb, ltb. simpl. rewrite !Z.mul_1_r. rewrite Z.leb_antisym. reflexivity.
Qed.

Lemma gtb_Inf_Int (b : Z) : gtb (Inf false) (Int b) = true.
Proof. reflexivity. Qed.

Lemma floor_log2_int (z : Z) : 0 < z -> floor_log2 z 1 = Z.log2 z.
Proof.
  intros Hz. unfold floor_log2. change (Z.log2 1) with 0. rewrite Z.sub_0_r.
  pose proof (Z.log2_nonneg z) as Hl. pose proof (Z.log2_spec z Hz) as [Hlo _].
  destruct (0 <=? Z.log2 z) eqn:E; [|apply Z.leb_gt in E; lia].
  rewrite Z.mul_1_l. apply Z.leb_le in Hlo. rewrite Hlo. reflexivity.
Qed.

(** Rounding an integer of 54 bits or more: the result is a multiple of the
    unit in the last place, between the enclosing powers of two. *)
Lemma round_pos_int (z : Z) :
  two53 <= z ->
  exists q, 2 ^ 52 <= q <= 2 ^ 53 /\ z / 2 ^ (Z.log2 z - 52) <= q /\
    round_pos z 1 =
      if 2 ^ 1024 <=? q * 2 ^ (Z.log2 z - 52) then Inf false
      else Int (q * 2 ^ (Z.log2 z - 52)).
Proof.
  intros Hz. unfold two53 in Hz.
  assert (0 < z) as Hpos by (pose proof (Z.pow_pos_nonneg 2 53); lia).
  assert (53 <= Z.log2 z) as Hl.
  { apply Z.log2_le_pow2; assumption. }
  pose proof (Z.log2_spec z Hpos) as [Hlo Hhi].
  unfold round_pos. rewrite floor_log2_int by assumption.
  set (l := Z.log2 z) in *.
  rewrite Z.max_l by lia.
  set (u := l - 52).
  assert (0 <= u) as Hu by lia.
  destruct (0 <=? u) eqn:E; [|apply Z.leb_gt in E; lia].
  rewrite Z.mul_1_l.
  set (d := 2 ^ u).
  assert (0 < d) as Hd by (apply Z.pow_pos_nonneg; lia).
  assert (2 ^ l = 2 ^ 52 * d) as Hpow.
  { unfold d, u. rewrite <- Z.pow_add_r by lia. f_equal. lia. }
  assert (2 ^ Z.succ l = 2 ^ 53 * d) as Hpow'.
  { unfold d, u. rewrite <- Z.pow_add_r by lia. f_equal. lia. }
  assert (2 ^ 52 <= z / d) as Hq1.
  { apply Z.div_le_lower_bound; lia. }
  assert (z / d < 2 ^ 53) as Hq2.
  { apply Z.div_lt_upper_bound; lia. }
  set (q := z / d) in *. set (r := z mod d).
  exists (if 2 * r <? d then q else if d <? 2 * r then q + 1
          else if Z.even q then q else q + 1).
  split; [|split; [|reflexivity]].
  - destruct (2 * r <? d); [lia|]. destruct (d <? 2 * r); [lia|].
    destruct (Z.even q); lia.
  - fold u. fold d. fold q.
    destruct (2 * r <? d); [lia|]. destruct (d <? 2 * r); [lia|].
    destruct (Z.even q); lia.
Qed.

Lemma round_int_big (z : Z) :
  two53 <= z ->
  round_int z = Inf false \/
  exists w, round_int z = Int w /\ 2 ^ Z.log2 z <= w.
Proof.
  intros Hz. pose proof Hz as Hz'. unfold two53 in Hz'.
  assert (0 < z) as Hpos by (pose proof (Z.pow_pos_nonneg 2 53); lia).
  assert (53 <= Z.log2 z) as Hl by (apply Z.log2_le_pow2; assumption).
  unfold round_int. rewrite Z.abs_eq by lia.
  destruct (z <? two53) eqn:E; [apply Z.ltb_lt in E; lia|].
  unfold round_rat. destruct (z =? 0) eqn:E0; [apply Z.eqb_eq in E0; lia|].
  destruct (z <? 0) eqn:E1; [apply Z.ltb_lt in E1; lia|].
  destruct (round_pos_int z Hz) as (q & [Hq1 Hq2] & _ & ->).
  destruct (2 ^ 1024 <=? q * 2 ^ (Z.log2 z - 52)); [left; reflexivity|].
  right. eexists. split; [reflexivity|].
  replace (2 ^ Z.log2 z) with (2 ^ 52 * 2 ^ (Z.log2 z - 52)).
  - apply Z.mul_le_mono_nonneg_r; [apply Z.pow_nonneg; lia | lia].
  - rewrite <- Z.pow_add_r by lia. f_equal. lia.
Qed.

(** Integers below [2^1023] do not overflow. *)
Lemma round_int_finite (z : Z) :
  0 <= z < 2 ^ 1023 -> exists w, round_int z = Int w /\ 0 <= w.
Proof.
  intros [Hz0 Hz]. destruct (Z.lt_ge_cases z two53) as [Hs|Hb].
  - exists z. split; [apply round_int_small; lia | lia].
  - pose proof Hb as Hb'. unfold two53 in Hb'.
    assert (0 < z) as Hpos by (pose proof (Z.pow_pos_nonneg 2 53); lia).
    assert (53 <= Z.log2 z) as Hl by (apply Z.log2_le_pow2; assumption).
    assert (Z.log2 z < 1023) as Hl'.
    { apply Z.log2_lt_pow2; assumption. }
    unfold round_int. rewrite Z.abs_eq by lia.
    destruct (z <? two53) eqn:E; [apply Z.ltb_lt in E; lia|].
    unfold round_rat. destruct (z =? 0) eqn:E0; [apply Z.eqb_eq in E0; lia|].
    destruct (z <? 0) eqn:E1; [apply Z.ltb_lt in E1; lia|].
    destruct (round_pos_int z Hb) as (q & [Hq1 Hq2] & _ & ->).
    assert (0 < 2 ^ (Z.log2 z - 52)) as Hp by (apply Z.pow_pos_nonneg; lia).
    assert (q * 2 ^ (Z.log2 z - 52) <= 2 ^ 1023) as Hle.
    { replace (2 ^ 1023) with (2 ^ 53 * 2 ^ 970) by (rewrite <- Z.pow_add_r by lia; reflexivity).
      apply Z.mul_le_mono_nonneg; try lia.
      apply Z.pow_le_mono_r; lia. }
    assert (2 ^ 1023 < 2 ^ 1024) as Hlt by (apply Z.pow_lt_mono_r; lia).
    destruct (2 ^ 1024 <=? q * 2 ^ (Z.log2 z - 52)) eqn:E2;
      [apply Z.leb_le in E2; lia|].
    eexists. split; [reflexivity|]. nia.
Qed.

(** The rounding of a natural number is a natural number or +Infinity. *)
Lemma round_int_nonneg (z : Z) :
  0 <= z ->
  round_int z = Inf false \/ exists w, round_int z = Int w /\ 0 <= w.
Proof.
  intros Hz. destruct (Z.lt_ge_cases z two53) as [Hs|Hb].
  - right. exists z. split; [apply round_int_small; lia | lia].
  - destruct (round_int_big z Hb) as [Hi | (w & Hw & Hle)]; [left; exact Hi|].
    right. exists w. split; [exact Hw|].
    assert (0 <= 2 ^ Z.log2 z) by (apply Z.pow_nonneg; lia). lia.
Qed.

Lemma abs_signed_round (neg : bool) (z : Z) :
  0 <= z -> abs (signed neg (round_int z)) = round_int z.
Proof.
  intros Hz. destruct (round_int_nonneg z Hz) as [-> | (w & -> & Hw)].
  - destruct neg; reflexivity.
  - destruct neg; simpl; f_equal; lia.
Qed.

(** Rounding an integer between [2^53] and [2^63] does not fall below a
    power of ten that the integer reaches. *)
Lemma round_int_mid (z j : Z) :
  two53 <= z < 2 ^ 63 -> 15 <= j -> 10 ^ j <= z ->
  exists w, round_int z = Int w /\ 10 ^ j <= w <= 2 ^ 63.
Proof.
  intros [Hlo Hhi] Hj Hz. pose proof Hlo as Hlo'. unfold two53 in Hlo'.
  assert (0 < z) as Hpos by (pose proof (Z.pow_pos_nonneg 2 53); lia).
  assert (53 <= Z.log2 z) as Hl by (apply Z.log2_le_pow2; assumption).
  assert (Z.log2 z < 63) as Hl' by (apply Z.log2_lt_pow2; assumption).
  unfold round_int. rewrite Z.abs_eq by lia.
  destruct (z <? two53) eqn:E; [apply Z.ltb_lt in E; lia|].
  unfold round_rat. destruct (z =? 0) eqn:E0; [apply Z.eqb_eq in E0; lia|].
  destruct (z <? 0) eqn:E1; [apply Z.ltb_lt in E1; lia|].
  destruct (round_pos_int z Hlo) as (q & [Hq1 Hq2] & Hq & ->).
  set (u := Z.log2 z - 52) in *.
  assert (0 < 2 ^ u) as Hp by (apply Z.pow_pos_nonneg; lia).
  assert (2 ^ u <= 2 ^ 10) as Hu by (apply Z.pow_le_mono_r; lia).
  assert (q * 2 ^ u <= 2 ^ 63) as Hle.
  { replace (2 ^ 63) with (2 ^ 53 * 2 ^ 10)
      by (rewrite <- Z.pow_add_r by lia; reflexivity).
    apply Z.mul_le_mono_nonneg; lia. }
  assert (2 ^ 63 < 2 ^ 1024) as Hlt by (apply Z.pow_lt_mono_r; lia).
  destruct (2 ^ 1024 <=? q * 2 ^ u) eqn:E2; [apply Z.leb_le in E2; lia|].
  eexists. split; [reflexivity|]. split; [|exact Hle].
  assert (10 ^ j = (2 ^ (j - u) * 5 ^ j) * 2 ^ u) as E10.
  { change 10 with (2 * 5). rewrite Z.pow_mul_l.
    replace j with ((j - u) + u) at 1 by lia.
    rewrite Z.pow_add_r by lia. ring. }
  assert (2 ^ (j - u) * 5 ^ j <= z / 2 ^ u) as Hdiv.
  { apply Z.div_le_lower_bound; [exact Hp|]. rewrite Z.mul_comm. lia. }
  rewrite E10. apply Z.mul_le_mono_nonneg_r; lia.
Qed.

(** * Digits and numerals *)

Ltac each_ascii c :=
  destruct c as [[] [] [] [] [] [] [] []]; vm_compute;
  try discriminate; try tauto; repeat split; try discriminate; try reflexivity.

Lemma isDigit_not_space (c : ascii) : isDigit c = true -> isWhiteSpace c = false.
Proof. each_ascii c. Qed.

Lemma isDigit_lower (c : ascii) : isDigit c = true -> lowerChar c <> "t"%char.
Proof. each_ascii c. Qed.

Lemma isDigit_digitValue (c : ascii) :
  isDigit c = true -> 0 <= digitValue c < 10.
Proof. each_ascii c. Qed.

Lemma isDigit_radix (c : ascii) : isDigit c = true -> isRadixDigit 10 c = true.
Proof. each_ascii c. Qed.

Lemma isDigit_not_minus (c : ascii) : isDigit c = true -> c <> "-"%char.
Proof. each_ascii c. Qed.

Lemma isDigit_not_plus (c : ascii) : isDigit c = true -> c <> "+"%char.
Proof. each_ascii c. Qed.

Lemma isDigit_not_dot (c : ascii) : isDigit c = true -> c <> "."%char.
Proof. each_ascii c. Qed.

Lemma isDigit_not_x (c : ascii) :
  isDigit c = true -> c <> "x"%char /\ c <> "X"%char /\ c <> "I"%char.
Proof. each_ascii c. Qed.

Lemma space_not_digit (c : ascii) : isWhiteSpace c = true -> isDigit c = false.
Proof. each_ascii c. Qed.

Lemma space_not_exp (c : ascii) :
  isWhiteSpace c = true -> isExpChar c = false /\ c <> "."%char.
Proof. each_ascii c. Qed.

Lemma digitChar_isDigit (d : Z) : 0 <= d < 10 -> isDigit (digitChar d) = true.
Proof.
  intros Hd.
  assert (d = 0 \/ d = 1 \/ d = 2 \/ d = 3 \/ d = 4 \/ d = 5 \/ d = 6 \/
          d = 7 \/ d = 8 \/ d = 9) as Hc by lia.
  repeat (destruct Hc as [-> | Hc]; [reflexivity|]). subst d. reflexivity.
Qed.

Lemma digitsFuel_head (fuel : nat) (z : Z) (acc : string) :
  (0 < fuel)%nat ->
  exists c r, digitsFuel fuel z acc = String c r /\ isDigit c = true.
Proof.
  revert z acc. induction fuel as [|f IH]; intros z acc Hf; [lia|].
  simpl. pose proof (Z.mod_pos_bound z 10 ltac:(lia)) as Hm.
  destruct (z <? 10).
  - eexists _, _. split; [reflexivity | apply digitChar_isDigit; lia].
  - destruct f as [|f'].
    + simpl. eexists _, _. split; [reflexivity | apply digitChar_isDigit; lia].
    + apply IH. lia.
Qed.

Lemma decimal_head (z : Z) :
  exists c r, decimal z = String c r /\ isDigit c = true.
Proof. unfold decimal. apply digitsFuel_head. lia. Qed.

Lemma digitsFuel_length (fuel : nat) (z : Z) (acc : string) :
  0 < z < 2 ^ Z.of_nat fuel ->
  exists k, 1 <= k /\
    Z.of_nat (String.length (digitsFuel fuel z acc)) =
      k + Z.of_nat (String.length acc) /\
    10 ^ (k - 1) <= z < 10 ^ k.
Proof.
  revert z acc. induction fuel as [|f IH]; intros z acc Hz.
  - simpl in Hz. lia.
  - simpl digitsFuel. destruct (z <? 10) eqn:E.
    + apply Z.ltb_lt in E. exists 1. simpl String.length. split; [lia|].
      split; [lia|]. simpl. lia.
    + apply Z.ltb_ge in E.
      assert (0 < z / 10 < 2 ^ Z.of_nat f) as Hq.
      { split.
        - apply Z.div_str_pos. lia.
        - apply Z.div_lt_upper_bound; [lia|].
          rewrite Nat2Z.inj_succ, Z.pow_succ_r in Hz by lia.
          assert (0 < 2 ^ Z.of_nat f) by (apply Z.pow_pos_nonneg; lia). lia. }
      destruct (IH (z / 10) (String (digitChar (z mod 10)) acc) Hq)
        as (k & Hk & Hlen & Hlo & Hhi).
      exists (k + 1). split; [lia|]. split.
      * rewrite Hlen. simpl String.length. lia.
      * replace (k + 1 - 1) with k by lia.
        replace (10 ^ (k + 1)) with (10 * 10 ^ k)
          by (rewrite Z.pow_add_r by lia; lia).
        assert (10 ^ k = 10 * 10 ^ (k - 1)) as Hk10.
        { replace k with (Z.succ (k - 1)) at 1 by lia.
          rewrite Z.pow_succ_r by lia. reflexivity. }
        pose proof (Z.div_mod z 10 ltac:(lia)) as Hdm.
        pose proof (Z.mod_pos_bound z 10 ltac:(lia)) as Hm. lia.
Qed.

(** [digitCount z] is the number of decimal digits of [z]. *)
Lemma digitCount_spec (z : Z) :
  0 < z -> 10 ^ (digitCount z - 1) <= z < 10 ^ digitCount z.
Proof.
  intros Hz. unfold digitCount, decimal.
  assert (0 < z < 2 ^ Z.of_nat (S (Z.to_nat (Z.log2 z)))) as Hb.
  { split; [assumption|]. rewrite Nat2Z.inj_succ, Z2Nat.id by apply Z.log2_nonneg.
    apply Z.log2_spec. assumption. }
  destruct (digitsFuel_length _ z "" Hb) as (k & Hk & Hlen & Hlo & Hhi).
  rewrite Hlen. simpl String.length. rewrite Z.add_0_r. split; assumption.
Qed.

Lemma valueOf_app (R : Z) (s1 s2 : string) (acc : Z) :
  valueOf R (s1 ++ s2) acc = valueOf R s2 (valueOf R s1 acc).
Proof. revert acc. induction s1; intros; simpl; auto. Qed.

Lemma valueOf_bound (ds : string) (acc : Z) :
  forallb isDigit ds = true -> 0 <= acc ->
  acc * 10 ^ Z.of_nat (String.length ds) <= valueOf 10 ds acc
    < (acc + 1) * 10 ^ Z.of_nat (String.length ds).
Proof.
  revert acc. induction ds as [|c ds IH]; intros acc Hd Hacc.
  - simpl. lia.
  - simpl in Hd. apply andb_true_iff in Hd as [Hc Hd].
    pose proof (isDigit_digitValue c Hc) as Hv.
    simpl valueOf. simpl String.length. rewrite Nat2Z.inj_succ, Z.pow_succ_r by lia.
    assert (0 <= acc * 10 + digitValue c) as Hacc' by lia.
    pose proof (IH _ Hd Hacc') as [Hlo Hhi].
    assert (0 < 10 ^ Z.of_nat (String.length ds)) as Hp
      by (apply Z.pow_pos_nonneg; lia).
    split; nia.
Qed.

Lemma valueOf_digits (ds : string) :
  forallb isDigit ds = true ->
  0 <= valueOf 10 ds 0 < 10 ^ Z.of_nat (String.length ds).
Proof.
  intros Hd. pose proof (valueOf_bound ds 0 Hd (Z.le_refl 0)) as Hb. lia.
Qed.

Lemma takeWhile_all (p : ascii -> bool) (s t : string) :
  forallb p s = true ->
  match t with "" => True | String c _ => p c = false end ->
  takeWhile p (s ++ t) = s /\ dropWhile p (s ++ t) = t.
Proof.
  intros Hs Ht. induction s as [|c s IH]; simpl.
  - destruct t as [|c t]; simpl; [auto|]. rewrite Ht. auto.
  - simpl in Hs. apply andb_true_iff in Hs as [Hc Hs]. rewrite Hc.
    destruct (IH Hs) as [-> ->]. auto.
Qed.

Lemma takeWhile_all_nil (p : ascii -> bool) (s : string) :
  forallb p s = true -> takeWhile p s = s /\ dropWhile p s = "".
Proof.
  intros Hs. pose proof (takeWhile_all p s "" Hs I) as Ht.
  rewrite append_nil_r in Ht. exact Ht.
Qed.

Lemma forallb_impl (p q : ascii -> bool) (s : string) :
  (forall c, p c = true -> q c = true) ->
  forallb p s = true -> forallb q s = true.
Proof.
  intros Hpq. induction s as [|c s IH]; simpl; [auto|].
  intros Hs. apply andb_true_iff in Hs as [Hc Hs].
  rewrite (Hpq _ Hc), IH by assumption. reflexivity.
Qed.

Lemma isDigits_inv (ds : string) :
  isDigits ds = true ->
  exists c r, ds = String c r /\ isDigit c = true /\ forallb isDigit r = true.
Proof.
  unfold isDigits. destruct ds as [|c r]; simpl; [discriminate|].
  intros Hd. apply andb_true_iff in Hd as [Hc Hr]. eauto.
Qed.

Lemma isDigits_forallb (ds : string) :
  isDigits ds = true -> forallb isDigit ds = true.
Proof. unfold isDigits. intros Hd. apply andb_true_iff in Hd. tauto. Qed.

Lemma digits_no_hex (ds : string) :
  forallb isDigit ds = true ->
  isPrefix "0x" ds = false /\ isPrefix "0X" ds = false.
Proof.
  destruct ds as [|c [|c2 r]]; cbn [isPrefix forallb]; intros Hd.
  - split; reflexivity.
  - rewrite !andb_false_r. split; reflexivity.
  - apply andb_true_iff in Hd as [_ Hd]. apply andb_true_iff in Hd as [Hc2 _].
    destruct (isDigit_not_x c2 Hc2) as (H1 & H2 & _).
    assert (Ascii.eqb "x" c2 = false) as -> by (apply Ascii.eqb_neq; congruence).
    assert (Ascii.eqb "X" c2 = false) as -> by (apply Ascii.eqb_neq; congruence).
    rewrite !andb_false_r. split; reflexivity.
Qed.

Lemma parseIntBody_digits (neg : bool) (ds : string) (radix : option Z) :
  isDigits ds = true -> radix = None \/ radix = Some 10 ->
  parseIntBody neg ds radix = signed neg (round_int (valueOf 10 ds 0)).
Proof.
  intros Hd Hr. pose proof (isDigits_forallb _ Hd) as Hall.
  destruct (digits_no_hex _ Hall) as [Hx HX].
  assert (takeWhile (isRadixDigit 10) ds = ds) as Htw.
  { apply takeWhile_all_nil. eapply forallb_impl; [apply isDigit_radix | exact Hall]. }
  assert (isEmpty ds = false) as He.
  { unfold isDigits in Hd. destruct (isEmpty ds); [discriminate | reflexivity]. }
  unfold parseIntBody, startsWith. rewrite Hx, HX.
  destruct Hr as [-> | ->]; cbn -[takeWhile valueOf round_int];
    rewrite Htw, He; reflexivity.
Qed.

(** [parseInt] on a signed run of decimal digits, with or without radix 10. *)
Lemma parseInt_numeral (neg : bool) (ds : string) (radix : option Z) :
  isDigits ds = true -> radix = None \/ radix = Some 10 ->
  parseInt ((if neg then "-" else "") ++ ds) radix =
  signed neg (round_int (valueOf 10 ds 0)).
Proof.
  intros Hd Hr. rewrite <- (parseIntBody_digits neg _ radix Hd Hr).
  destruct (isDigits_inv _ Hd) as (c & r & -> & Hc & Hr').
  pose proof (isDigit_not_space c Hc) as Hws.
  pose proof (isDigit_not_minus c Hc) as Hm.
  pose proof (isDigit_not_plus c Hc) as Hp.
  unfold parseInt, startsWith. destruct neg.
  - reflexivity.
  - cbn [append trimStart]. rewrite Hws. cbn [isPrefix].
    assert (Ascii.eqb "-" c = false) as -> by (apply Ascii.eqb_neq; congruence).
    assert (Ascii.eqb "+" c = false) as -> by (apply Ascii.eqb_neq; congruence).
    reflexivity.
Qed.

(** * The validator returns the first violation *)

Lemma firstViolation_app (l1 l2 : list (option ValidationError)) :
  firstViolation (l1 ++ l2) = (firstViolation l1 ;; firstViolation l2).
Proof.
  induction l1 as [|c l1 IH]; simpl; [reflexivity|].
  destruct c; [reflexivity | exact IH].
Qed.

Lemma validateFields_first (H : Host) (entries : Schema) (body : Body)
      (files : Files) :
  validateFields H entries body files =
  firstViolation (List.map (checkDeclared H body files) entries).
Proof.
  induction entries as [|[name f] rest IH]; simpl; [reflexivity|].
  unfold checkDeclared at 1. simpl. rewrite IH. reflexivity.
Qed.

Lemma extraField_first (schema : Schema) (ks : list string) :
  List.forallb (fun k => negb (inherited k)) ks = true ->
  extraField schema ks = firstViolation (List.map (checkBodyKey schema) ks).
Proof.
  induction ks as [|k ks IH]; simpl; [reflexivity|]. intros Hk.
  apply andb_true_iff in Hk as [Hk Hks]. apply negb_true_iff in Hk.
  unfold checkBodyKey at 1. rewrite Hk.
  destruct (lookup k schema); simpl; [exact (IH Hks) | reflexivity].
Qed.

Lemma isFileType_isType (t : FieldType) :
  negb (isType t TPhoto) && negb (isType t TFile) = negb (isFileType t).
Proof. destruct t; reflexivity. Qed.

Lemma extraFile_first (schema : Schema) (ks : list string) :
  extraFile schema ks = firstViolation (List.map (checkFileKey schema) ks).
Proof.
  induction ks as [|k ks IH]; simpl; [reflexivity|].
  unfold checkFileKey at 1. destruct (lookup k schema) as [f|]; simpl; [|reflexivity].
  rewrite isFileType_isType. destruct (isFileType (type f)); simpl;
    [exact IH | reflexivity].
Qed.

(** C1, as amended.  For a body none of whose keys is the name of a property
    that objects inherit, [validate] returns the first violation of the
    sequence made of the checks of the declared fields in schema declaration
    order, then the checks of the keys of the body in the order of
    [Object.keys], then the checks of the keys of the file map in that
    order.  A key of the body that the schema does not declare is the
    violation "Extra field not allowed: <key>"; a key of the file map that
    the schema does not declare, or declares with a type other than photo
    and file, is the violation "Extra file not allowed: <key>". *)
Theorem validate_first_violation (H : Host) (schema : Schema) (body : Body)
        (files : Files) :
  List.forallb (fun k => negb (inherited k)) (keys body) = true ->
  validate H schema body files =
  firstViolation
    (List.map (checkDeclared H body files) schema ++
     List.map (checkBodyKey schema) (keys body) ++
     List.map (checkFileKey schema) (keys files)).
Proof.
  intros Hk. unfold validate.
  rewrite !firstViolation_app, validateFields_first,
    (extraField_first schema (keys body) Hk), extraFile_first.
  reflexivity.
Qed.

(** C1, as stated, fails: an undeclared key of the file map is reported as
    "Extra file not allowed: foo", not as "Extra field not allowed: foo". *)
Lemma extra_file_message_differs :
  validate plainHost schema bodyA filesFoo =
    Some {| error := "Extra file not allowed: foo"; field := "foo" |} /\
  validate plainHost schema bodyA filesFoo <>
    Some {| error := "Extra field not allowed: foo"; field := "foo" |}.
Proof.
  assert (validate plainHost schema bodyA filesFoo =
          Some {| error := "Extra file not allowed: foo"; field := "foo" |}) as E
    by (vm_compute; reflexivity).
  split; [exact E|]. rewrite E. discriminate.
Qed.

(** * The DDL *)

Lemma appendColumn_line (columns : string) (entry : string * FieldSpec) :
  appendColumn columns entry = columns ++ columnLine entry ++ "," ++ nl.
Proof.
  destruct entry as [name f]. unfold appendColumn, columnLine.
  destruct (required f), (unique f); rewrite ?append_assoc; simpl;
    rewrite ?append_assoc; rewrite ?append_nil_r; reflexivity.
Qed.

Lemma join_snoc (sep : string) (l : list string) (z : string) :
  List.fold_left (fun acc e => acc ++ e ++ sep) l "" ++ z =
  join sep (l ++ [z]).
Proof.
  assert (forall acc,
            List.fold_left (fun acc e => acc ++ e ++ sep) l acc ++ z =
            acc ++ join sep (l ++ [z])) as Hg.
  { induction l as [|a l IH]; intros acc; simpl; [reflexivity|].
    rewrite IH. unfold join. simpl.
    destruct (l ++ [z])%list eqn:E.
    - destruct l; discriminate.
    - rewrite !append_assoc. reflexivity. }
  apply (Hg "").
Qed.

Lemma fold_lines_shift (sep : string) (l : list string) (acc : string) :
  List.fold_left (fun acc e => acc ++ e ++ sep) l acc =
  acc ++ List.fold_left (fun acc e => acc ++ e ++ sep) l "".
Proof.
  revert acc. induction l as [|e l IH]; intros acc; simpl.
  - rewrite append_nil_r. reflexivity.
  - rewrite IH. rewrite (IH (e ++ sep)). rewrite !append_assoc. reflexivity.
Qed.

Lemma fold_appendColumn (schema : Schema) (columns : string) :
  List.fold_left appendColumn schema columns =
  columns ++
  List.fold_left (fun acc e => acc ++ e ++ "," ++ nl)
                 (List.map columnLine schema) "".
Proof.
  revert columns. induction schema as [|e rest IH]; intros columns; simpl.
  - rewrite append_nil_r. reflexivity.
  - rewrite IH, appendColumn_line.
    rewrite (fold_lines_shift _ _ (columnLine e ++ "," ++ nl)).
    rewrite !append_assoc. reflexivity.
Qed.

(** [parseInt(s, radix) || dflt] on a plain numeral. *)
Lemma parseInt_limitOr (s : string) (radix : option Z) (dflt : Z) :
  plainNumeral s -> radix = None \/ radix = Some 10 -> dflt <> 0 ->
  orDefault (parseInt s radix) (Int dflt) = Int (limitOr dflt s).
Proof.
  intros Hs Hr Hd. unfold limitOr. destruct Hs as [-> | [Hds Hb]].
  - destruct Hr as [-> | ->]; reflexivity.
  - assert (isEmpty s = false) as He.
    { unfold isDigits in Hds. destruct (isEmpty s); [discriminate | reflexivity]. }
    pose proof (parseInt_numeral false s radix Hds Hr) as Hp.
    simpl append in Hp. rewrite Hp, He. simpl signed. simpl orb.
    pose proof (valueOf_digits _ (isDigits_forallb _ Hds)) as [H0 _].
    set (d := valueOf 10 s 0) in *.
    rewrite round_int_small by (rewrite Z.abs_eq; lia).
    unfold orDefault. destruct (d =? 0) eqn:E0.
    + apply Z.eqb_eq in E0. rewrite E0. reflexivity.
    + apply Z.eqb_neq in E0.
      assert (truthy (Int d) = true) as ->
          by (destruct d; [lia | reflexivity | reflexivity]).
      reflexivity.
Qed.

Lemma limitOr_bounds (s : string) (dflt : Z) :
  plainNumeral s -> 0 < dflt < two53 -> 0 < limitOr dflt s < two53.
Proof.
  intros Hs Hd. unfold limitOr. destruct Hs as [-> | [Hds Hb]]; [exact Hd|].
  pose proof (valueOf_digits _ (isDigits_forallb _ Hds)) as [H0 _].
  destruct (isEmpty s); [exact Hd|]. simpl.
  destruct (valueOf 10 s 0 =? 0) eqn:E; [exact Hd|].
  apply Z.eqb_neq in E. lia.
Qed.

Lemma numberToString_small (d : Z) :
  0 < d < two53 -> numberToString (Int d) = decimal d.
Proof.
  intros [H0 Hb]. unfold numberToString.
  rewrite (proj2 (Z.eqb_neq d 0)) by lia.
  rewrite Z.abs_eq by lia. rewrite (proj2 (Z.ltb_lt d two53) Hb).
  rewrite (proj2 (Z.ltb_ge d 0)) by lia. reflexivity.
Qed.

Lemma typeMap_number_digits (f : FieldSpec) :
  type f = TNumber -> plainNumeral (limit f) ->
  typeMap f = nativeType TNumber (limit f) (scale f).
Proof.
  intros Ht Hl. unfold typeMap, nativeType. rewrite Ht.
  rewrite (parseInt_limitOr _ (Some 10) 10 Hl (or_intror eq_refl)) by discriminate.
  assert (0 < limitOr 10 (limit f) < two53) as Hd
      by (apply limitOr_bounds; [assumption | unfold two53; lia]).
  unfold nativeNumber. rewrite !leb_Int.
  rewrite numberToString_small by assumption. reflexivity.
Qed.

(** C8.  [createTableSQL] yields one CREATE TABLE IF NOT EXISTS statement
    whose column lines are: the identity primary key, then one line per
    schema entry in declaration order -- the quoted name, the native type of
    the type mapper, NOT NULL exactly when the field is required, UNIQUE
    exactly when it is unique -- and last the creation timestamp with its
    CURRENT_TIMESTAMP default.  For a field whose limit is empty or a
    decimal numeral, the type mapper yields: VARCHAR of the limit, default
    50 (text), 500 (description) and 15 (phone); INTEGER for a number of at
    most 9 digits, BIGINT for at most 18 (default 10), NUMERIC(digits)
    beyond; DECIMAL(limit, scale), default (10, 2); BOOLEAN, TIMESTAMP,
    DATE; VARCHAR(255) for email, VARCHAR(500) for url; BYTEA for photo and
    file. *)
Theorem createTableSQL_columns (schema : Schema) :
  createTableSQL schema =
    tableStatement (idColumn :: List.map columnLine schema ++ [createdAtColumn])
  /\ (forall f, plainNumeral (limit f) ->
                typeMap f = nativeType (type f) (limit f) (scale f)).
Proof.
  split.
  - unfold createTableSQL, tableStatement, TABLE_NAME, AUTO_CREATED_AT.
    do 6 f_equal.
    rewrite fold_appendColumn.
    change (dq ++ "id" ++ dq ++
            " BIGINT GENERATED ALWAYS AS IDENTITY PRIMARY KEY," ++ nl)
      with (idColumn ++ "," ++ nl).
    change (dq ++ "created_at" ++ dq ++
            " TIMESTAMP NOT NULL DEFAULT CURRENT_TIMESTAMP," ++ nl)
      with (createdAtColumn ++ "," ++ nl).
    f_equal.
    rewrite <- (append_assoc _ createdAtColumn ("," ++ nl)).
    rewrite sliceEnd_append by reflexivity.
    change (idColumn :: List.map columnLine schema ++ [createdAtColumn])%list
      with ((idColumn :: List.map columnLine schema) ++ [createdAtColumn])%list.
    rewrite <- join_snoc. simpl List.fold_left.
    rewrite (fold_lines_shift _ _ (idColumn ++ "," ++ nl)).
    reflexivity.
  - intros f Hl. destruct (type f) eqn:Ht;
      try (unfold typeMap, nativeType, orElse; rewrite Ht; reflexivity).
    apply typeMap_number_digits; assumption.
Qed.

(** * The string of a number starts with a digit, a sign or a letter *)

Lemma layout_head (d : string) (k n : Z) :
  (exists c r, d = String c r /\ isDigit c = true) ->
  exists c r, layout d k n = String c r /\ isDigit c = true.
Proof.
  intros (c & r & -> & Hc). unfold layout.
  destruct ((k <=? n) && (n <=? 21)).
  { simpl. eauto. }
  destruct ((0 <? n) && (n <=? 21)) eqn:E.
  { apply andb_true_iff in E as [E _]. apply Z.ltb_lt in E.
    destruct (Z.to_nat n) as [|m] eqn:En; [lia|]. simpl. eauto. }
  destruct ((-6 <? n) && (n <=? 0)).
  { simpl. eexists _, _. split; reflexivity. }
  destruct r; eauto.
Qed.

Lemma positiveToString_head (x : number) (a b : Z) :
  exists c r, positiveToString x a b = String c r /\ isDigit c = true.
Proof.
  unfold positiveToString. destruct (shortest 17 x a b (position a b) 1) as [[c k]|];
    apply layout_head; apply decimal_head.
Qed.

Lemma numberToString_head (x : number) :
  exists c r, numberToString x = String c r /\
              isWhiteSpace c = false /\ lowerChar c <> "t"%char.
Proof.
  assert (forall sign s,
             (sign = "" \/ sign = "-") ->
             (exists c r, s = String c r /\ isDigit c = true) ->
             exists c r, sign ++ s = String c r /\
                         isWhiteSpace c = false /\ lowerChar c <> "t"%char) as Hs.
  { intros sign s [-> | ->] (c & r & -> & Hc); simpl.
    - exists c, r. split; [reflexivity|].
      split; [apply isDigit_not_space | apply isDigit_lower]; assumption.
    - eexists _, _. split; [reflexivity|]. split; [reflexivity | discriminate]. }
  destruct x as [|neg|z|m e]; simpl.
  - eexists _, _. split; [reflexivity|]. split; [reflexivity | discriminate].
  - destruct neg; eexists _, _; (split; [reflexivity|]);
      (split; [reflexivity | discriminate]).
  - destruct (z =? 0).
    + eexists _, _. split; [reflexivity|]. split; [reflexivity | discriminate].
    + destruct (Z.abs z <? two53); apply Hs;
        try (destruct (z <? 0); auto);
        first [apply decimal_head | apply positiveToString_head].
  - apply Hs; [destruct (m <? 0); auto | apply positiveToString_head].
Qed.

Lemma trim_nonblank (s : string) :
  (exists c r, s = String c r /\ isWhiteSpace c = false) ->
  isEmpty (trim s) = false.
Proof. intros (c & r & -> & Hc). rewrite trim_head by assumption. reflexivity. Qed.

(** Numbers and booleans are never blank. *)
Lemma isBlank_VNum (x : number) : isBlank (Some (VNum x)) = false.
Proof.
  simpl. apply trim_nonblank.
  destruct (numberToString_head x) as (c & r & E & Hc & _). eauto.
Qed.

Lemma isBlank_VBool (b : bool) : isBlank (Some (VBool b)) = false.
Proof. destruct b; reflexivity. Qed.

Lemma isBlank_VStr_blank (s : string) :
  forallb isWhiteSpace s = true -> isBlank (Some (VStr s)) = true.
Proof. intros Hs. simpl. rewrite trim_blank by assumption. reflexivity. Qed.

Lemma absentOrBlank_isBlank (name : string) (body : Body) :
  absentOrBlank name body -> isBlank (lookup name body) = true.
Proof.
  intros [-> | (s & -> & Hs)]; [reflexivity | apply isBlank_VStr_blank; assumption].
Qed.

(** * The yes/no coercion *)

Lemma toLowerCase_number (x : number) :
  String.eqb (toLowerCase (numberToString x)) "true" = false.
Proof.
  destruct (numberToString_head x) as (c & r & -> & _ & Hc).
  apply String.eqb_neq. unfold toLowerCase. cbn [map].
  intros Heq. injection Heq as Hc' _. exact (Hc Hc').
Qed.

Lemma eqb_Int_1 (x : number) : JSNumber.eqb x (Int 1) = true <-> x = Int 1.
Proof.
  destruct x; simpl; try (split; discriminate).
  rewrite Z.eqb_eq. split; congruence.
Qed.

(** C3, as amended.  The value bound for a present yes/no field is the
    boolean [coerceYesno v], which is true exactly when: the value is a
    string that lower-cases to "true", or is one of the strings "1", "yes",
    "on" as written (lower case only); or the value is the number 1; or the
    value is the boolean true. *)
Theorem yesno_coercion (H : Host) (name : string) (f : FieldSpec) (body : Body)
        (files : Files) (v : value) :
  type f = TYesno -> lookup name body = Some v ->
  buildField H name f body files =
    StepPush (dq ++ name ++ dq) (BBool (coerceYesno v)) /\
  (coerceYesno v = true <->
   match v with
   | VStr s => toLowerCase s = "true" \/ s = "1" \/ s = "yes" \/ s = "on"
   | VNum x => x = Int 1
   | VBool b => b = true
   | VNull => False
   end).
Proof.
  intros Ht Hv. split.
  - unfold buildField. rewrite Ht, Hv. reflexivity.
  - unfold coerceYesno. destruct v as [|b|x|s]; simpl.
    + split; [discriminate | tauto].
    + destruct b; simpl; split; congruence.
    + rewrite toLowerCase_number. simpl. rewrite !orb_false_r. apply eqb_Int_1.
    + rewrite orb_false_r, !orb_true_iff, !String.eqb_eq. tauto.
Qed.

(** C3, as stated, fails: "Yes" and "ON" coerce to false. *)
Lemma yesno_is_case_sensitive :
  coerceYesno (VStr "Yes") = false /\ coerceYesno (VStr "ON") = false /\
  coerceYesno (VStr "TRUE") = true.
Proof. repeat split. Qed.

(** * Presence *)

Lemma validateFields_app (H : Host) (pre post : Schema) (body : Body)
      (files : Files) :
  validateFields H (pre ++ post)%list body files =
  (validateFields H pre body files ;; validateFields H post body files).
Proof.
  induction pre as [|[n f] pre IH]; simpl; [reflexivity|].
  destruct (validateField H n f body files); [reflexivity | exact IH].
Qed.

(** The violation of a declared field is what [validate] returns when the
    fields declared before it raise none. *)
Lemma validate_at (H : Host) (pre post : Schema) (name : string)
      (f : FieldSpec) (body : Body) (files : Files) (e : ValidationError) :
  validateFields H pre body files = None ->
  validateField H name f body files = Some e ->
  validate H (pre ++ (name, f) :: post)%list body files = Some e.
Proof.
  intros Hpre Hf. unfold validate. rewrite validateFields_app, Hpre. simpl.
  rewrite Hf. reflexivity.
Qed.

(** C4.  Let a field be missing from the request: for a photo or file field
    no file arrives under its name; for any other field its key is absent
    from the body or holds the empty string or white space only.  If the
    field is required, its check yields the error "<name> is required" naming
    the field, and this is what [validate] returns when the fields declared
    before it raise no violation.  If it is not required, its check raises
    nothing: the field is skipped and none of the other rules is run. *)
Theorem required_or_skipped (H : Host) (pre post : Schema) (name : string)
        (f : FieldSpec) (body : Body) (files : Files) :
  validateFields H pre body files = None ->
  (if isFileType (type f) then lookup name files = None
   else absentOrBlank name body) ->
  if required f
  then validateField H name f body files =
         Some {| error := name ++ " is required"; field := name |} /\
       validate H (pre ++ (name, f) :: post)%list body files =
         Some {| error := name ++ " is required"; field := name |}
  else validateField H name f body files = None.
Proof.
  intros Hpre Hmiss.
  assert (validateField H name f body files =
          if required f
          then Some {| error := name ++ " is required"; field := name |}
          else None) as Hf.
  { unfold validateField. destruct (isFileType (type f)).
    - rewrite Hmiss. destruct (required f); reflexivity.
    - rewrite (absentOrBlank_isBlank _ _ Hmiss). destruct (required f); reflexivity. }
  destruct (required f); [|exact Hf].
  split; [exact Hf | apply validate_at; assumption].
Qed.

(** * The rules of a present scalar field *)

Lemma validateField_present (H : Host) (name : string) (f : FieldSpec)
      (body : Body) (files : Files) (v : value) :
  isFileType (type f) = false -> lookup name body = Some v ->
  isBlank (Some v) = false ->
  validateField H name f body files =
  validateScalar H name f (trim (toString v)).
Proof.
  intros Ht Hv Hb. unfold validateField. rewrite Ht, Hv, Hb.
  rewrite andb_false_r. reflexivity.
Qed.

Lemma validateScalar_phone (H : Host) (name : string) (f : FieldSpec)
      (str : string) :
  type f = TPhone ->
  validateScalar H name f str =
  (when (negb (test phoneRegex (filter (fun c => negb (isWhiteSpace c)) str)))
        (err (name ++ " must be a valid phone number") name) ;;
   when (gtb (len (filter isDigit str))
             (orDefault (parseInt (limit f) None) (Int 15)))
        (err (name ++ " exceeds " ++
              numberToString (orDefault (parseInt (limit f) None) (Int 15)) ++
              " digits") name)).
Proof.
  intros Ht. unfold validateScalar. rewrite Ht. cbn [isType andb orb when].
  destruct (when _ _); [reflexivity|].
  destruct (when _ _); reflexivity.
Qed.

(** C7, as amended.  For a present phone value, with [str] the trimmed
    value and [compact] what is left of it once white space is removed: when
    [compact] does not consist of an optional leading plus sign, which is
    not counted, followed by 10 to 15 code units among digits, white space,
    hyphen and parentheses, the check yields "<name> must be a valid phone
    number"; when it does, the check yields "<name> exceeds <limit> digits"
    if [str] holds more digits than the limit of the field (default 15), and
    nothing otherwise. *)
Theorem phone_rules (H : Host) (name : string) (f : FieldSpec) (body : Body)
        (files : Files) (v : value) :
  type f = TPhone -> plainNumeral (limit f) ->
  lookup name body = Some v -> isBlank (Some v) = false ->
  let str := trim (toString v) in
  let compact := filter (fun c => negb (isWhiteSpace c)) str in
  let digits := Z.of_nat (String.length (filter isDigit str)) in
  let M := limitOr 15 (limit f) in
  (~ phoneShape compact ->
   validateField H name f body files =
     Some {| error := name ++ " must be a valid phone number";
             field := name |}) /\
  (phoneShape compact -> M < digits ->
   validateField H name f body files =
     Some {| error := name ++ " exceeds " ++ decimal M ++ " digits";
             field := name |}) /\
  (phoneShape compact -> digits <= M ->
   validateField H name f body files = None).
Proof.
  intros Ht Hl Hv Hb str compact digits M.
  rewrite (validateField_present H name f body files v) by
      (try assumption; rewrite Ht; reflexivity).
  rewrite validateScalar_phone by assumption.
  rewrite (parseInt_limitOr _ None 15 Hl (or_introl eq_refl)) by discriminate.
  fold str. fold compact. fold M.
  assert (0 < M < two53) as HM
      by (apply limitOr_bounds; [assumption | unfold two53; lia]).
  rewrite numberToString_small by assumption.
  unfold len. fold digits. rewrite gtb_Int.
  destruct (test phoneRegex compact) eqn:E.
  - apply phoneRegex_spec in E. simpl. repeat split.
    + intros Hn. contradiction.
    + intros _ Hlt. apply Z.ltb_lt in Hlt. rewrite Hlt. reflexivity.
    + intros _ Hle. apply Z.ltb_ge in Hle. rewrite Hle. reflexivity.
  - assert (~ phoneShape compact) as Hn.
    { intros Hs. apply phoneRegex_spec in Hs. congruence. }
    simpl. repeat split; intros; try contradiction; reflexivity.
Qed.

(** * Numerals: sign, split and replace *)

Lemma numeral_head (neg : bool) (ip dp : string) :
  isDigits ip = true ->
  exists c r, numeral neg ip dp = String c r /\
              (if neg then c = "-"%char else isDigit c = true).
Proof.
  intros Hip. destruct (isDigits_inv _ Hip) as (c & r & -> & Hc & _).
  unfold numeral. destruct neg; simpl; eauto.
Qed.

Lemma numeral_startsWith_minus (neg : bool) (ip dp : string) :
  isDigits ip = true -> startsWith (numeral neg ip dp) "-" = neg.
Proof.
  intros Hip. destruct (isDigits_inv _ Hip) as (c & r & -> & Hc & _).
  unfold numeral, startsWith. destruct neg; [reflexivity|].
  cbn [append isPrefix]. rewrite andb_true_r.
  apply Ascii.eqb_neq. intros E. apply (isDigit_not_minus c Hc). congruence.
Qed.

Lemma replace_absent (s r : string) (a : ascii) :
  forallb (fun c => negb (Ascii.eqb a c)) s = true ->
  replace s (String a "") r = s.
Proof.
  induction s as [|c s IH]; intros Hs.
  - reflexivity.
  - cbn [forallb] in Hs. apply andb_true_iff in Hs as [Hc Hs].
    apply negb_true_iff in Hc. cbn [replace isPrefix]. rewrite Hc.
    cbn [andb]. rewrite IH by assumption. reflexivity.
Qed.

Lemma digits_no_char (a : ascii) (s : string) :
  isDigit a = false -> forallb isDigit s = true ->
  forallb (fun c => negb (Ascii.eqb a c)) s = true.
Proof.
  intros Ha. apply forallb_impl. intros c Hc. apply negb_true_iff.
  apply Ascii.eqb_neq. congruence.
Qed.

Lemma numeral_unsigned_chars (ip dp : string) :
  forallb isDigit ip = true -> forallb isDigit dp = true ->
  forallb (fun c => negb (Ascii.eqb "-" c)) (numeral false ip dp) = true.
Proof.
  intros Hip Hdp. unfold numeral. cbn [append].
  rewrite forallb_append. rewrite (digits_no_char "-" ip) by (try reflexivity; assumption).
  destruct (isEmpty dp); [reflexivity|]. cbn [append forallb andb].
  rewrite (digits_no_char "-" dp) by (try reflexivity; assumption). reflexivity.
Qed.

Lemma numeral_replace_minus (neg : bool) (ip dp : string) :
  forallb isDigit ip = true -> forallb isDigit dp = true ->
  replace (numeral neg ip dp) "-" "" = numeral false ip dp.
Proof.
  intros Hip Hdp. destruct neg.
  - unfold numeral at 1. cbn [append]. cbn [replace isPrefix].
    rewrite Ascii.eqb_refl. reflexivity.
  - apply replace_absent. apply numeral_unsigned_chars; assumption.
Qed.

Lemma split_absent (a : ascii) (s : string) :
  forallb (fun c => negb (Ascii.eqb a c)) s = true -> split a s = [s].
Proof.
  induction s as [|c s IH]; intros Hs; [reflexivity|].
  cbn [forallb] in Hs. apply andb_true_iff in Hs as [Hc Hs].
  apply negb_true_iff in Hc. cbn [split]. rewrite Ascii.eqb_sym, Hc.
  rewrite IH by assumption. reflexivity.
Qed.

Lemma split_at (a : ascii) (s t : string) :
  forallb (fun c => negb (Ascii.eqb a c)) s = true ->
  split a (s ++ String a t) = s :: split a t.
Proof.
  induction s as [|c s IH]; intros Hs.
  - cbn [append split]. rewrite Ascii.eqb_refl. reflexivity.
  - cbn [forallb] in Hs. apply andb_true_iff in Hs as [Hc Hs].
    apply negb_true_iff in Hc. cbn [append split]. rewrite Ascii.eqb_sym, Hc.
    rewrite IH by assumption. reflexivity.
Qed.

(** The integer and decimal parts that the amount block reads. *)
Lemma numeral_parts (ip dp : string) :
  forallb isDigit ip = true -> forallb isDigit dp = true ->
  let parts := split "." (numeral false ip dp) in
  List.nth 0 parts "" = ip /\ List.nth 1 parts "" = dp.
Proof.
  intros Hip Hdp. unfold numeral. cbn [append].
  destruct dp as [|c dp]; cbn [isEmpty].
  - rewrite append_nil_r, split_absent by (apply digits_no_char; [reflexivity | assumption]).
    split; reflexivity.
  - change ("." ++ String c dp) with (String "." (String c dp)).
    rewrite split_at by (apply digits_no_char; [reflexivity | assumption]).
    rewrite split_absent by (apply digits_no_char; [reflexivity | assumption]).
    split; reflexivity.
Qed.

Lemma numeral_includes_dot (neg : bool) (ip : string) :
  forallb isDigit ip = true -> includes (numeral neg ip "") "." = false.
Proof.
  intros Hip. unfold numeral. cbn [isEmpty]. rewrite append_nil_r.
  assert (includes ip "." = false) as Hi.
  { induction ip as [|c ip IH]; [reflexivity|].
    cbn [forallb] in Hip. apply andb_true_iff in Hip as [Hc Hip].
    cbn [includes isPrefix]. rewrite IH by assumption.
    rewrite andb_true_r, orb_false_r. apply Ascii.eqb_neq.
    intros E. apply (isDigit_not_dot c Hc). congruence. }
  destruct neg; [|exact Hi]. cbn [append includes isPrefix]. rewrite Hi. reflexivity.
Qed.

(** [parseInt(s || dflt, 10)] on a plain numeral. *)
Lemma parseInt_numeralOr (s d : string) :
  plainNumeral s -> isDigits d = true ->
  valueOf 10 d 0 < two53 ->
  parseInt (orElse s d) (Some 10) = Int (numeralOr (valueOf 10 d 0) s).
Proof.
  intros Hs Hd Hdb. unfold orElse, numeralOr.
  assert (forall t, isDigits t = true -> valueOf 10 t 0 < two53 ->
                    parseInt t (Some 10) = Int (valueOf 10 t 0)) as Hp.
  { intros t Ht Hb.
    pose proof (parseInt_numeral false t (Some 10) Ht (or_intror eq_refl)) as E.
    cbn [append] in E. rewrite E. cbn [signed].
    pose proof (valueOf_digits _ (isDigits_forallb _ Ht)) as [H0 _].
    apply round_int_small. rewrite Z.abs_eq; lia. }
  destruct Hs as [-> | [Hds Hb]]; [apply Hp; assumption|].
  assert (isEmpty s = false) as ->.
  { unfold isDigits in Hds. destruct (isEmpty s); [discriminate | reflexivity]. }
  apply Hp; assumption.
Qed.

Lemma numeralOr_bounds (s : string) (dflt : Z) :
  plainNumeral s -> 0 <= dflt < two53 -> 0 <= numeralOr dflt s < two53.
Proof.
  intros Hs Hd. unfold numeralOr. destruct Hs as [-> | [Hds Hb]]; [exact Hd|].
  pose proof (valueOf_digits _ (isDigits_forallb _ Hds)) as [H0 _].
  destruct (isEmpty s); [exact Hd | lia].
Qed.

Lemma validateScalar_numeric (H : Host) (name : string) (f : FieldSpec)
      (str : string) :
  type f = TNumber \/ type f = TAmount -> isEmpty str = false ->
  validateScalar H name f str =
  (when (negb (test numberRegex str))
        (err (name ++ " must be a valid number") name) ;;
   when (isType (type f) TNumber && includes str ".")
        (err (name ++ " must be an integer (no decimals)") name) ;;
   when (negb (allowNegative f) && startsWith str "-")
        (err (name ++ " must be a positive number") name) ;;
   when (isType (type f) TNumber) (validateNumberRange name f str) ;;
   when (isType (type f) TAmount) (validateAmountPrecision name f str)).
Proof.
  intros Ht He. unfold validateScalar. rewrite He.
  destruct Ht as [Ht | Ht]; rewrite Ht; cbn [isType andb orb negb when];
    repeat (destruct (when _ _); [reflexivity|]);
    repeat match goal with
           | |- context [match ?x with Some _ => _ | None => _ end] =>
               destruct x; try reflexivity
           end.
Qed.

(** C6.  For a present amount value whose trimmed text is the numeral with
    sign [neg], integer digits [ip] and fraction digits [dp] -- the values
    the numeric pattern accepts -- the check yields, in this order: "must
    be a positive number" for a leading minus unless [allowNegative]; "integer
    part exceeds <limit - scale> digits" when [ip] has more than limit -
    scale digits; "decimal part exceeds <scale> places" when [dp] has more
    than scale digits; and nothing otherwise.  Limit and scale default to 10
    and 2. *)
Theorem amount_rules (H : Host) (name : string) (f : FieldSpec) (body : Body)
        (files : Files) (v : value) (neg : bool) (ip dp : string) :
  type f = TAmount -> plainNumeral (limit f) -> plainNumeral (scale f) ->
  lookup name body = Some v ->
  trim (toString v) = numeral neg ip dp ->
  isDigits ip = true -> (dp = "" \/ isDigits dp = true) ->
  let L := numeralOr 10 (limit f) in
  let S := numeralOr 2 (scale f) in
  validateField H name f body files =
    if neg && negb (allowNegative f)
    then Some {| error := name ++ " must be a positive number"; field := name |}
    else if L - S <? Z.of_nat (String.length ip)
    then Some {| error := name ++ " integer part exceeds " ++
                          numberToString (Int (L - S)) ++ " digits";
                 field := name |}
    else if S <? Z.of_nat (String.length dp)
    then Some {| error := name ++ " decimal part exceeds " ++
                          numberToString (Int S) ++ " places";
                 field := name |}
    else None.
Proof.
  intros Ht Hl Hs Hv Hstr Hip Hdp L S.
  assert (forallb isDigit ip = true) as Hip' by (apply isDigits_forallb; assumption).
  assert (forallb isDigit dp = true) as Hdp'.
  { destruct Hdp as [-> | Hdp]; [reflexivity | apply isDigits_forallb; assumption]. }
  destruct (numeral_head neg ip dp Hip) as (c & r & Hnum & Hc).
  assert (isEmpty (trim (toString v)) = false) as He by (rewrite Hstr, Hnum; reflexivity).
  assert (isBlank (Some v) = false) as Hb.
  { destruct v; try exact He. exfalso. rewrite Hnum in Hstr.
    injection Hstr as <- _. destruct neg; discriminate. }
  rewrite (validateField_present H name f body files v) by
      (try assumption; rewrite Ht; reflexivity).
  rewrite validateScalar_numeric by (try assumption; right; assumption).
  rewrite Hstr, Ht. cbn [isType andb when].
  assert (test numberRegex (numeral neg ip dp) = true) as ->.
  { apply numberRegex_spec. exists neg, ip, dp. auto. }
  cbn [negb when]. rewrite numeral_startsWith_minus by assumption.
  rewrite (andb_comm (negb (allowNegative f)) neg).
  destruct (neg && negb (allowNegative f)) eqn:Eneg; [reflexivity|].
  cbn [when]. unfold validateAmountPrecision.
  rewrite numeral_replace_minus by assumption.
  destruct (numeral_parts ip dp Hip' Hdp') as [-> ->].
  rewrite (parseInt_numeralOr (limit f) "10") by
      (try assumption; try reflexivity; unfold two53; simpl; lia).
  rewrite (parseInt_numeralOr (scale f) "2") by
      (try assumption; try reflexivity; unfold two53; simpl; lia).
  change (valueOf 10 "10" 0) with 10. change (valueOf 10 "2" 0) with 2.
  fold L. fold S.
  assert (0 <= L < two53) as HL
      by (apply numeralOr_bounds; [assumption | unfold two53; lia]).
  assert (0 <= S < two53) as HS
      by (apply numeralOr_bounds; [assumption | unfold two53; lia]).
  unfold sub. rewrite round_int_small by lia.
  unfold len. rewrite !gtb_Int.
  rewrite numeral_startsWith_minus by assumption.
  rewrite (andb_comm (negb (allowNegative f)) neg), Eneg.
  destruct (L - S <? Z.of_nat (String.length ip)); [reflexivity|].
  destruct (S <? Z.of_nat (String.length dp)); reflexivity.
Qed.

(** * Scanning a run of digits *)

Lemma isPrefix_head (a : ascii) (p s : string) (c : ascii) :
  a <> c -> isPrefix (String a p) (String c s) = false.
Proof.
  intros Hn. cbn [isPrefix]. apply Ascii.eqb_neq in Hn. rewrite Hn. reflexivity.
Qed.

Lemma scanUnsigned_digits (neg : bool) (ds w : string) :
  isDigits ds = true -> forallb isWhiteSpace w = true ->
  scanUnsigned neg (ds ++ w) = ScanDec neg (valueOf 10 ds 0) 0 w.
Proof.
  intros Hd Hw. pose proof (isDigits_forallb _ Hd) as Hall.
  assert (match w with "" => True | String c _ => isDigit c = false end) as Hw1.
  { destruct w as [|c w]; [exact I|]. cbn [forallb] in Hw.
    apply andb_true_iff in Hw as [Hc _]. apply space_not_digit. exact Hc. }
  destruct (takeWhile_all isDigit ds w Hall Hw1) as [Htw Hdw].
  assert (startsWith w "." = false) as Hdot.
  { destruct w as [|c w]; [reflexivity|]. cbn [forallb] in Hw.
    apply andb_true_iff in Hw as [Hc _]. apply isPrefix_head.
    destruct (space_not_exp c Hc) as [_ Hn]. congruence. }
  assert (isEmpty ds = false) as He.
  { unfold isDigits in Hd. destruct (isEmpty ds); [discriminate | reflexivity]. }
  assert (startsWith (ds ++ w) "Infinity" = false) as Hinf.
  { destruct (isDigits_inv _ Hd) as (c & r & -> & Hc & _).
    apply isPrefix_head. destruct (isDigit_not_x c Hc) as (_ & _ & Hn). congruence. }
  unfold scanUnsigned. rewrite Hinf. cbv zeta. rewrite Htw, Hdw, Hdot, He.
  cbn [andb String.length Z.of_nat Z.opp]. rewrite append_nil_r.
  destruct w as [|c w]; [reflexivity|].
  cbn [forallb] in Hw. apply andb_true_iff in Hw as [Hc _].
  destruct (space_not_exp c Hc) as [-> _]. reflexivity.
Qed.

(** [scanDecimal] on a signed run of digits followed by white space. *)
Lemma scanDecimal_numeral (neg : bool) (ds w : string) :
  isDigits ds = true -> forallb isWhiteSpace w = true ->
  scanDecimal ((if neg then "-" else "") ++ ds ++ w) =
  ScanDec neg (valueOf 10 ds 0) 0 w.
Proof.
  intros Hd Hw. rewrite <- (scanUnsigned_digits neg ds w Hd Hw).
  destruct (isDigits_inv _ Hd) as (c & r & -> & Hc & _).
  unfold scanDecimal, startsWith. destruct neg.
  - reflexivity.
  - cbn [append].
    rewrite (isPrefix_head "-" "" (r ++ w) c)
      by (intros E; apply (isDigit_not_minus c Hc); congruence).
    rewrite (isPrefix_head "+" "" (r ++ w) c)
      by (intros E; apply (isDigit_not_plus c Hc); congruence).
    reflexivity.
Qed.

Lemma of_decimal_int (m : Z) : of_decimal m 0 = round_int m.
Proof. unfold of_decimal. simpl. rewrite Z.mul_1_r. reflexivity. Qed.

(** [parseFloat] of a text whose trimmed form is a signed run of digits. *)
Lemma parseFloat_numeral (s : string) (neg : bool) (ds : string) :
  trim s = numeral neg ds "" -> isDigits ds = true ->
  parseFloat s = signed neg (round_int (valueOf 10 ds 0)).
Proof.
  intros Ht Hd. unfold parseFloat.
  destruct (trimEnd_split (trimStart s)) as (w & Hs & Hw).
  fold (trim s) in Hs. rewrite Ht in Hs. unfold numeral in Hs.
  cbn [isEmpty] in Hs. rewrite append_nil_r in Hs.
  rewrite Hs, append_assoc, scanDecimal_numeral by assumption.
  rewrite of_decimal_int. reflexivity.
Qed.

Lemma trimEnd_digits (s : string) :
  forallb isDigit s = true -> trimEnd s = s.
Proof.
  induction s as [|c s IH]; intros Hs; [reflexivity|].
  cbn [forallb] in Hs. apply andb_true_iff in Hs as [Hc Hs].
  cbn [trimEnd]. rewrite (isDigit_not_space c Hc), IH by assumption. reflexivity.
Qed.

Lemma trim_digits (s : string) : forallb isDigit s = true -> trim s = s.
Proof.
  intros Hs. unfold trim. destruct s as [|c s]; [reflexivity|].
  pose proof Hs as Hs'. cbn [forallb] in Hs'. apply andb_true_iff in Hs' as [Hc _].
  cbn [trimStart]. rewrite (isDigit_not_space c Hc). apply trimEnd_digits. exact Hs.
Qed.

Lemma digits_no_radix_prefix (a : ascii) (ds : string) :
  isDigit a = false -> forallb isDigit ds = true ->
  isPrefix (String "0" (String a "")) ds = false.
Proof.
  intros Ha Hd. destruct ds as [|c [|c2 r]]; cbn [isPrefix]; try reflexivity.
  - rewrite andb_false_r. reflexivity.
  - cbn [forallb] in Hd. apply andb_true_iff in Hd as [_ Hd].
    apply andb_true_iff in Hd as [Hc2 _].
    assert (Ascii.eqb a c2 = false) as -> by (apply Ascii.eqb_neq; congruence).
    rewrite andb_false_r. reflexivity.
Qed.

(** [Number(s)] on a run of digits. *)
Lemma toNumber_digits (ds : string) :
  isDigits ds = true -> toNumber ds = round_int (valueOf 10 ds 0).
Proof.
  intros Hd. pose proof (isDigits_forallb _ Hd) as Hall.
  assert (isEmpty ds = false) as He.
  { unfold isDigits in Hd. destruct (isEmpty ds); [discriminate | reflexivity]. }
  unfold toNumber, startsWith. rewrite (trim_digits ds Hall), He.
  rewrite !digits_no_radix_prefix by (try reflexivity; assumption).
  cbn [orb].
  pose proof (scanDecimal_numeral false ds "" Hd eq_refl) as Hs.
  cbn [append] in Hs. rewrite append_nil_r in Hs. rewrite Hs.
  cbn [signed]. apply of_decimal_int.
Qed.

(** [Number(s || dflt)] on a plain numeral. *)
Lemma toNumber_numeralOr (s d : string) :
  plainNumeral s -> isDigits d = true -> valueOf 10 d 0 < two53 ->
  toNumber (orElse s d) = Int (numeralOr (valueOf 10 d 0) s).
Proof.
  intros Hs Hd Hdb. unfold orElse, numeralOr.
  assert (forall t, isDigits t = true -> valueOf 10 t 0 < two53 ->
                    toNumber t = Int (valueOf 10 t 0)) as Hp.
  { intros t Ht Hb. rewrite toNumber_digits by assumption.
    pose proof (valueOf_digits _ (isDigits_forallb _ Ht)) as [H0 _].
    apply round_int_small. rewrite Z.abs_eq; lia. }
  destruct Hs as [-> | [Hds Hb]]; [apply Hp; assumption|].
  assert (isEmpty s = false) as ->.
  { unfold isDigits in Hds. destruct (isEmpty s); [discriminate | reflexivity]. }
  apply Hp; assumption.
Qed.

(** * File rules *)

Lemma validateField_file (H : Host) (name : string) (f : FieldSpec)
      (body : Body) (files : Files) (u : UploadedFile) :
  isFileType (type f) = true -> lookup name files = Some u ->
  validateField H name f body files =
  match validateFile (Some u) f with
  | Some fileError => err fileError name
  | None => None
  end.
Proof.
  intros Ht Hu. unfold validateField. rewrite Ht, Hu, andb_false_r. reflexivity.
Qed.

Lemma validateFields_In (H : Host) (schema : Schema) (name : string)
      (f : FieldSpec) (body : Body) (files : Files) :
  In (name, f) schema -> validateField H name f body files <> None ->
  validateFields H schema body files <> None.
Proof.
  intros Hin Hf. induction schema as [|[n g] rest IH]; [contradiction|].
  cbn [validateFields]. destruct Hin as [E | Hin].
  - injection E as -> ->. destruct (validateField H name f body files);
      [discriminate | contradiction].
  - destruct (validateField H n g body files); [discriminate | auto].
Qed.

Lemma validate_In (H : Host) (schema : Schema) (name : string)
      (f : FieldSpec) (body : Body) (files : Files) :
  In (name, f) schema -> validateField H name f body files <> None ->
  validate H schema body files <> None.
Proof.
  intros Hin Hf. unfold validate.
  pose proof (validateFields_In H schema name f body files Hin Hf) as Hv.
  destruct (validateFields H schema body files); [discriminate | contradiction].
Qed.

(** The size limit in bytes that [validateFile] computes. *)
Lemma maxSize_bytes (f : FieldSpec) :
  plainNumeral (limit f) -> numeralOr 10 (limit f) < 2 ^ 33 ->
  mul (mul (toNumber (orElse (limit f) "10")) (Int 1024)) (Int 1024) =
  Int (numeralOr 10 (limit f) * 1048576).
Proof.
  intros Hl Hb.
  rewrite (toNumber_numeralOr (limit f) "10") by
      (try assumption; try reflexivity; unfold two53; simpl; lia).
  change (valueOf 10 "10" 0) with 10.
  pose proof (numeralOr_bounds (limit f) 10 Hl ltac:(unfold two53; lia)) as [H0 _].
  set (L := numeralOr 10 (limit f)) in *.
  assert (2 ^ 33 = 8589934592) as E33 by reflexivity.
  assert (two53 = 9007199254740992) as E53 by reflexivity.
  unfold mul. rewrite round_int_small by (rewrite Z.abs_eq; lia).
  rewrite round_int_small by (rewrite Z.abs_eq; lia).
  f_equal. lia.
Qed.

(** C2, as amended.  For a photo or file field with an uploaded file, the
    size limit is [limit] megabytes, where [limit] is the limit attribute of
    the field and 10 when that attribute is empty; [fileConfig.maxSize] is
    not consulted.  The file is rejected with "File size exceeds <limit>MB
    limit" exactly when its size in bytes exceeds [limit * 1048576]; then
    [validate] returns an error whatever the other fields hold.  A file
    within the limit whose name ends with an allowed extension, or whose
    field allows all extensions, passes. *)
Theorem file_size_rule (H : Host) (name : string) (f : FieldSpec) (body : Body)
        (files : Files) (u : UploadedFile) :
  isFileType (type f) = true -> plainNumeral (limit f) ->
  numeralOr 10 (limit f) < 2 ^ 33 -> lookup name files = Some u ->
  let L := numeralOr 10 (limit f) in
  let tooLarge := "File size exceeds " ++ orElse (limit f) "10" ++ "MB limit" in
  (L * 1048576 < size u <-> validateFile (Some u) f = Some tooLarge) /\
  (L * 1048576 < size u ->
   validateField H name f body files =
     Some {| error := tooLarge; field := name |} /\
   forall schema, In (name, f) schema ->
                  validate H schema body files <> None) /\
  (size u <= L * 1048576 -> extensionAllowed f u = true ->
   validateFile (Some u) f = None /\
   validateField H name f body files = None).
Proof.
  intros Ht Hl Hb Hu L tooLarge.
  assert (validateFile (Some u) f =
          if L * 1048576 <? size u then Some tooLarge
          else match fileConfig f with
               | Some {| extensions := ExtList exts |} =>
                   if extensionAllowed f u then None
                   else Some ("File type not allowed. Allowed types: " ++
                              join ", " (List.map (fun e => replace e "." "") exts))
               | _ => None
               end) as Hvf.
  { unfold validateFile. rewrite maxSize_bytes by assumption. rewrite gtb_Int.
    fold L. fold tooLarge. destruct (L * 1048576 <? size u); [reflexivity|].
    unfold extensionAllowed.
    destruct (fileConfig f) as [[ms [|exts]]|]; try reflexivity.
    cbn [extensions].
    destruct (existsb _ exts); reflexivity. }
  assert (L * 1048576 < size u -> validateFile (Some u) f = Some tooLarge) as Hbig.
  { intros Hlt. rewrite Hvf. apply Z.ltb_lt in Hlt. rewrite Hlt. reflexivity. }
  assert (size u <= L * 1048576 -> extensionAllowed f u = true ->
          validateFile (Some u) f = None) as Hsmall.
  { intros Hle Hext. rewrite Hvf. apply Z.ltb_ge in Hle. rewrite Hle.
    destruct (fileConfig f) as [[ms [|exts]]|]; try reflexivity.
    rewrite Hext. reflexivity. }
  split; [|split].
  - split; [exact Hbig|]. intros Hs.
    destruct (Z.lt_ge_cases (L * 1048576) (size u)) as [Hlt|Hle]; [exact Hlt|].
    exfalso. rewrite Hvf in Hs. apply Z.ltb_ge in Hle. rewrite Hle in Hs.
    destruct (fileConfig f) as [[ms [|exts]]|]; try discriminate.
    destruct (extensionAllowed _ u); [discriminate|].
    unfold tooLarge in Hs. cbn [append] in Hs. discriminate.
  - intros Hlt.
    assert (validateField H name f body files =
            Some {| error := tooLarge; field := name |}) as Hf.
    { rewrite (validateField_file H name f body files u) by assumption.
      rewrite Hbig by assumption. reflexivity. }
    split; [exact Hf|]. intros schema Hin.
    apply (validate_In H schema name f); [assumption|]. rewrite Hf. discriminate.
  - intros Hle Hext. split; [auto|].
    rewrite (validateField_file H name f body files u) by assumption.
    rewrite Hsmall by assumption. reflexivity.
Qed.

(** * The printed form of integers of 16 to 19 digits *)

Lemma pow10_digits (s k j : Z) :
  0 <= j -> 1 <= k ->
  10 ^ (k - 1) <= s < 10 ^ k -> 10 ^ (j - 1) <= s < 10 ^ j -> j = k.
Proof.
  intros Hj Hk [Hlo Hhi] [Hlo' Hhi'].
  destruct (Z.lt_trichotomy j k) as [Hlt | [Heq | Hgt]]; [|exact Heq|].
  - assert (10 ^ j <= 10 ^ (k - 1)) by (apply Z.pow_le_mono_r; lia). lia.
  - assert (10 ^ k <= 10 ^ (j - 1)) by (apply Z.pow_le_mono_r; lia). lia.
Qed.

Lemma digitCount_pos (z : Z) : 1 <= digitCount z.
Proof.
  unfold digitCount. destruct (decimal_head z) as (c & r & -> & _).
  simpl String.length. lia.
Qed.

Lemma digitCount_unique (s k : Z) :
  1 <= k -> 10 ^ (k - 1) <= s < 10 ^ k -> digitCount s = k.
Proof.
  intros Hk Hs.
  assert (0 < s).
  { assert (0 < 10 ^ (k - 1)) by (apply Z.pow_pos_nonneg; lia). lia. }
  apply (pow10_digits s k (digitCount s)); try assumption.
  - pose proof (digitCount_pos s). lia.
  - apply digitCount_spec. assumption.
Qed.

Lemma digitCount_mono (a b : Z) :
  0 < a -> a <= b -> digitCount a <= digitCount b.
Proof.
  intros Ha Hab. pose proof (digitCount_spec a Ha) as [Hlo _].
  pose proof (digitCount_spec b ltac:(lia)) as [_ Hhi].
  pose proof (digitCount_pos a). pose proof (digitCount_pos b).
  destruct (Z.le_gt_cases (digitCount a) (digitCount b)) as [Hle | Hgt]; [exact Hle|].
  assert (10 ^ digitCount b <= 10 ^ (digitCount a - 1))
    by (apply Z.pow_le_mono_r; lia).
  lia.
Qed.

Lemma best_In (cs : list candidate) (c : candidate) :
  best cs = Some c -> In c cs.
Proof.
  unfold best.
  assert (forall acc,
             fold_left
               (fun acc c1 =>
                  match acc with
                  | None => Some c1
                  | Some c0 => if closer c0 c1 then Some c0 else Some c1
                  end) cs acc = Some c ->
             acc = Some c \/ In c cs) as Hg.
  { induction cs as [|x cs IH]; intros acc Hf; cbn in Hf; [left; exact Hf|].
    destruct (IH _ Hf) as [Ha | Hin]; [|right; right; exact Hin].
    destruct acc as [c0|].
    - destruct (closer c0 x); injection Ha as <-; [left; reflexivity|].
      right. left. reflexivity.
    - injection Ha as <-. right. left. reflexivity. }
  intros Hb. destruct (Hg None Hb) as [Hn | Hin]; [discriminate | exact Hin].
Qed.

Lemma candidatesAt_In (x : number) (a b n k : Z) (c : candidate) :
  In c (candidatesAt x a b n k) ->
  cand_n c = n /\ 10 ^ (k - 1) <= cand_s c < 10 ^ k.
Proof.
  unfold candidatesAt. intros Hin. apply in_map_iff in Hin as (s & <- & Hs).
  apply filter_In in Hs as [_ Hf].
  apply andb_true_iff in Hf as [Hf _]. apply andb_true_iff in Hf as [Hlo Hhi].
  apply Z.leb_le in Hlo. apply Z.ltb_lt in Hhi.
  unfold mkCandidate. destruct (0 <=? n - k); cbn; auto.
Qed.

Lemma shortest_Some (fuel : nat) (x : number) (a b n0 k0 : Z)
      (c : candidate) (k : Z) :
  shortest fuel x a b n0 k0 = Some (c, k) ->
  k0 <= k < k0 + Z.of_nat fuel /\
  (cand_n c = n0 \/ cand_n c = n0 + 1) /\
  10 ^ (k - 1) <= cand_s c < 10 ^ k.
Proof.
  revert k0. induction fuel as [|f IH]; intros k0 Hs; [discriminate|].
  cbn [shortest] in Hs.
  destruct (best (candidatesAt x a b n0 k0 ++ candidatesAt x a b (n0 + 1) k0))
    as [c1|] eqn:Hb.
  - injection Hs as -> ->. apply best_In in Hb. apply in_app_or in Hb.
    split; [lia|].
    destruct Hb as [Hin | Hin]; apply candidatesAt_In in Hin as [Hn Hr]; auto.
  - apply IH in Hs as (Hk & Hn & Hr). split; [lia | auto].
Qed.

Lemma length_zeros (n : nat) : String.length (zeros n) = n.
Proof. induction n; simpl; congruence. Qed.

Lemma length_substring_0 (n : nat) (s : string) :
  (n <= String.length s)%nat -> String.length (String.substring 0 n s) = n.
Proof.
  revert s. induction n as [|n IH]; intros s Hn.
  - destruct s; reflexivity.
  - destruct s as [|c s]; [simpl in Hn; lia|]. simpl. rewrite IH; [reflexivity|].
    simpl in Hn. lia.
Qed.

(** Laid out at a position between 16 and 21, [k] digits fill at least that
    many code units. *)
Lemma layout_length (d : string) (k n : Z) :
  Z.of_nat (String.length d) = k -> 16 <= n <= 21 ->
  n <= Z.of_nat (String.length (layout d k n)).
Proof.
  intros Hd Hn. unfold layout.
  destruct ((k <=? n) && (n <=? 21)) eqn:E1.
  - apply andb_true_iff in E1 as [E1 _]. apply Z.leb_le in E1.
    rewrite length_append, length_zeros. lia.
  - assert (n < k) as Hk.
    { apply andb_false_iff in E1 as [E1 | E1];
        [apply Z.leb_gt in E1; lia | apply Z.leb_gt in E1; lia]. }
    assert ((0 <? n) && (n <=? 21) = true) as ->.
    { apply andb_true_iff. split; [apply Z.ltb_lt | apply Z.leb_le]; lia. }
    rewrite length_append, length_substring_0 by lia. lia.
Qed.

(** An integer double between [2^53] and [10^19] prints with at least as many
    code units as it has digits. *)
Lemma large_int_length (w : Z) :
  two53 <= w < 10 ^ 19 ->
  digitCount w <= Z.of_nat (String.length (numberToString (Int w))).
Proof.
  intros [Hlo Hhi].
  assert (two53 = 9007199254740992) as E53 by reflexivity.
  assert (10 ^ 15 <= w) as H15 by (change (10 ^ 15) with 1000000000000000; lia).
  assert (16 <= digitCount w <= 19) as Hn.
  { pose proof (digitCount_pos w). pose proof (digitCount_spec w ltac:(lia)) as [Hs1 Hs2].
    split.
    - destruct (Z.le_gt_cases 16 (digitCount w)) as [Hle|Hgt]; [exact Hle|].
      assert (10 ^ digitCount w <= 10 ^ 15) by (apply Z.pow_le_mono_r; lia). lia.
    - destruct (Z.le_gt_cases (digitCount w) 19) as [Hle|Hgt]; [exact Hle|].
      assert (10 ^ 19 <= 10 ^ (digitCount w - 1)) by (apply Z.pow_le_mono_r; lia).
      lia. }
  unfold numberToString.
  rewrite (proj2 (Z.eqb_neq w 0)) by lia. rewrite Z.abs_eq by lia.
  rewrite (proj2 (Z.ltb_ge w two53)) by lia.
  rewrite (proj2 (Z.ltb_ge w 0)) by lia. cbn [append].
  unfold positiveToString.
  assert (position w 1 = digitCount w) as Hpos.
  { unfold position. rewrite (proj2 (Z.leb_le 1 w)) by lia.
    rewrite Z.div_1_r. reflexivity. }
  rewrite Hpos.
  destruct (shortest 17 (abs (Int w)) w 1 (digitCount w) 1) as [[c k]|] eqn:Hs.
  - apply shortest_Some in Hs as (Hk & Hcn & Hr).
    pose proof (layout_length (decimal (cand_s c)) k (cand_n c)) as Hl.
    assert (Z.of_nat (String.length (decimal (cand_s c))) = k) as Hd
        by (apply (digitCount_unique (cand_s c) k); [lia | exact Hr]).
    specialize (Hl Hd). destruct Hcn as [Hcn | Hcn]; rewrite Hcn in *; lia.
  - rewrite Z.mul_1_l, Z.div_1_r.
    pose proof (digitCount_spec w ltac:(lia)) as [Hs1 Hs2].
    set (n := digitCount w) in *.
    apply layout_length; [|lia].
    apply (digitCount_unique _ 17); [lia|].
    destruct (n <=? 17) eqn:E.
    + apply Z.leb_le in E.
      assert (10 ^ 16 = 10 ^ (n - 1) * 10 ^ (17 - n)) as E16
          by (rewrite <- Z.pow_add_r by lia; f_equal; lia).
      assert (10 ^ 17 = 10 ^ n * 10 ^ (17 - n)) as E17
          by (rewrite <- Z.pow_add_r by lia; f_equal; lia).
      assert (0 < 10 ^ (17 - n)) by (apply Z.pow_pos_nonneg; lia).
      change (17 - 1) with 16. nia.
    + apply Z.leb_gt in E.
      assert (10 ^ (n - 1) = 10 ^ 16 * 10 ^ (n - 17)) as E16
          by (rewrite <- Z.pow_add_r by lia; f_equal; lia).
      assert (10 ^ n = 10 ^ 17 * 10 ^ (n - 17)) as E17
          by (rewrite <- Z.pow_add_r by lia; f_equal; lia).
      assert (0 < 10 ^ (n - 17)) as Hp by (apply Z.pow_pos_nonneg; lia).
      change (17 - 1) with 16. split.
      * apply Z.div_le_lower_bound; lia.
      * apply Z.div_lt_upper_bound; lia.
Qed.

(** * Number rules *)

Lemma numeral_int (neg : bool) (ds : string) :
  numeral neg ds "" = (if neg then "-" else "") ++ ds.
Proof. unfold numeral. cbn [isEmpty]. rewrite append_nil_r. reflexivity. Qed.

(** The range block on a signed run of digits of value [z]. *)
Lemma validateNumberRange_numeral (name : string) (f : FieldSpec) (neg : bool)
      (ds : string) :
  isDigits ds = true -> plainNumeral (limit f) ->
  let num := round_int (valueOf 10 ds 0) in
  let M := limitOr 10 (limit f) in
  validateNumberRange name f (numeral neg ds "") =
  (when (gtb (len (numberToString num)) (Int M))
        (err (name ++ " exceeds " ++ numberToString (Int M) ++ " digits") name) ;;
   when ((M <=? 9) && gtb num (Int 2147483647))
        (err (name ++ " exceeds INTEGER maximum value") name) ;;
   when ((M <=? 18) && gtb num (Int 9223372036854775808))
        (err (name ++ " exceeds BIGINT maximum value") name)).
Proof.
  intros Hd Hl num M. unfold validateNumberRange.
  rewrite numeral_int, parseInt_numeral by (auto).
  pose proof (valueOf_digits _ (isDigits_forallb _ Hd)) as [H0 _].
  rewrite abs_signed_round by assumption.
  rewrite (parseInt_limitOr _ None 10 Hl (or_introl eq_refl)) by discriminate.
  rewrite !leb_Int. reflexivity.
Qed.

Lemma when_some (c : bool) (e : ValidationError) (k : option ValidationError) :
  c = true -> (when c (Some e) ;; k) = Some e.
Proof. intros ->. reflexivity. Qed.

Lemma seq_not_none (c k : option ValidationError) :
  k <> None -> (c ;; k) <> None.
Proof. intros Hk. destruct c; [discriminate | exact Hk]. Qed.

(** More digits than the limit, below [2^53]. *)
Lemma range_rejects_digits (name : string) (f : FieldSpec) (neg : bool)
      (ds : string) :
  isDigits ds = true -> plainNumeral (limit f) ->
  valueOf 10 ds 0 < two53 ->
  limitOr 10 (limit f) < digitCount (valueOf 10 ds 0) ->
  validateNumberRange name f (numeral neg ds "") =
  Some {| error := name ++ " exceeds " ++ decimal (limitOr 10 (limit f)) ++
                   " digits";
          field := name |}.
Proof.
  intros Hd Hl Hb Hc. rewrite validateNumberRange_numeral by assumption.
  pose proof (valueOf_digits _ (isDigits_forallb _ Hd)) as [H0 _].
  set (z := valueOf 10 ds 0) in *. cbv zeta.
  rewrite round_int_small by (rewrite Z.abs_eq; lia).
  assert (numberToString (Int z) = decimal z) as ->.
  { destruct (Z.eq_dec z 0) as [-> | Hz]; [reflexivity|].
    apply numberToString_small. lia. }
  unfold len. fold (digitCount z). rewrite gtb_Int.
  apply Z.ltb_lt in Hc. rewrite Hc.
  rewrite numberToString_small
    by (apply limitOr_bounds; [assumption | unfold two53; lia]).
  reflexivity.
Qed.

(** Rounding keeps a value above a bound that is a power-of-two multiple. *)
Lemma round_int_above (z b : Z) :
  0 <= b < two53 -> b < z ->
  round_int z = Inf false \/ exists w, round_int z = Int w /\ b < w.
Proof.
  intros Hb Hz. destruct (Z.lt_ge_cases z two53) as [Hs|Hbig].
  - right. exists z. split; [apply round_int_small; rewrite Z.abs_eq; lia | lia].
  - destruct (round_int_big z Hbig) as [Hi | (w & Hw & Hle)]; [left; exact Hi|].
    right. exists w. split; [exact Hw|].
    assert (two53 <= 2 ^ Z.log2 z) as Hp.
    { unfold two53 in *. apply Z.pow_le_mono_r; [lia|].
      apply Z.log2_le_pow2; lia. }
    lia.
Qed.

(** Above the 32-bit maximum with a limit of at most 9 digits. *)
Lemma range_rejects_integer (name : string) (f : FieldSpec) (neg : bool)
      (ds : string) :
  isDigits ds = true -> plainNumeral (limit f) ->
  limitOr 10 (limit f) <= 9 -> 2147483647 < valueOf 10 ds 0 ->
  validateNumberRange name f (numeral neg ds "") <> None.
Proof.
  intros Hd Hl HM Hz. rewrite validateNumberRange_numeral by assumption.
  cbv zeta. apply seq_not_none.
  apply Z.leb_le in HM. rewrite HM. cbn [andb].
  destruct (round_int_above (valueOf 10 ds 0) 2147483647
              ltac:(unfold two53; simpl; lia) Hz) as [-> | (w & -> & Hw)].
  - discriminate.
  - rewrite gtb_Int. apply Z.ltb_lt in Hw. rewrite Hw. discriminate.
Qed.

(** Above the 64-bit maximum with a limit of at most 18 digits. *)
Lemma range_rejects_bigint (name : string) (f : FieldSpec) (neg : bool)
      (ds : string) :
  isDigits ds = true -> plainNumeral (limit f) ->
  limitOr 10 (limit f) <= 18 -> 9223372036854775807 < valueOf 10 ds 0 ->
  validateNumberRange name f (numeral neg ds "") <> None.
Proof.
  intros Hd Hl HM Hz. rewrite validateNumberRange_numeral by assumption.
  cbv zeta. set (z := valueOf 10 ds 0) in *. set (M := limitOr 10 (limit f)) in *.
  assert (two53 <= z) as Hbig by (unfold two53; simpl; lia).
  assert (2 ^ 63 <= 2 ^ Z.log2 z) as Hp.
  { apply Z.pow_le_mono_r; [lia|]. apply Z.log2_le_pow2; simpl; lia. }
  assert (2 ^ 63 = 9223372036854775808) as E63 by reflexivity.
  destruct (round_int_big z Hbig) as [-> | (w & -> & Hle)].
  - (* +Infinity: one of the three checks fires *)
    destruct (when (gtb (len (numberToString (Inf false))) (Int M)) _);
      [discriminate|].
    apply seq_not_none. apply Z.leb_le in HM. rewrite HM. discriminate.
  - destruct (Z.eq_dec w 9223372036854775808) as [-> | Hne].
    + (* exactly 2^63: it prints with 19 digits *)
      change (len (numberToString (Int 9223372036854775808))) with (Int 19).
      rewrite gtb_Int. assert ((M <? 19) = true) as -> by (apply Z.ltb_lt; lia).
      discriminate.
    + destruct (when (gtb (len (numberToString (Int w))) (Int M)) _);
        [discriminate|].
      apply seq_not_none. apply Z.leb_le in HM. rewrite HM. cbn [andb].
      rewrite gtb_Int.
      assert ((9223372036854775808 <? w) = true) as -> by (apply Z.ltb_lt; lia).
      discriminate.
Qed.

(** More digits than a limit of at most 18, between [2^53] and the 64-bit
    maximum. *)
Lemma range_rejects_long (name : string) (f : FieldSpec) (neg : bool)
      (ds : string) :
  isDigits ds = true -> plainNumeral (limit f) ->
  two53 <= valueOf 10 ds 0 <= 9223372036854775807 ->
  limitOr 10 (limit f) < digitCount (valueOf 10 ds 0) ->
  validateNumberRange name f (numeral neg ds "") <> None.
Proof.
  intros Hd Hl [Hlo Hhi] Hc. rewrite validateNumberRange_numeral by assumption.
  cbv zeta. set (z := valueOf 10 ds 0) in *. set (M := limitOr 10 (limit f)) in *.
  assert (two53 = 9007199254740992) as E53 by reflexivity.
  assert (2 ^ 63 = 9223372036854775808) as E63 by reflexivity.
  assert (10 ^ 15 = 1000000000000000) as E15 by reflexivity.
  assert (10 ^ 19 = 10000000000000000000) as E19 by reflexivity.
  pose proof (digitCount_pos z) as Hdp.
  pose proof (digitCount_spec z ltac:(lia)) as [Hz1 Hz2].
  assert (15 <= digitCount z - 1) as Hj.
  { destruct (Z.le_gt_cases 15 (digitCount z - 1)) as [Hle|Hgt]; [exact Hle|].
    assert (10 ^ digitCount z <= 10 ^ 15) by (apply Z.pow_le_mono_r; lia). lia. }
  destruct (round_int_mid z (digitCount z - 1) ltac:(lia) Hj Hz1)
    as (w & Hw & Hw1 & Hw2).
  destruct (round_int_big z Hlo) as [Hinf | (w' & Hw' & Hle)]; [congruence|].
  assert (w' = w) as -> by congruence.
  assert (two53 <= w).
  { assert (2 ^ 53 <= 2 ^ Z.log2 z)
      by (apply Z.pow_le_mono_r; [lia | apply Z.log2_le_pow2; lia]).
    unfold two53. lia. }
  assert (digitCount z <= digitCount w) as Hdc.
  { pose proof (digitCount_pos w). pose proof (digitCount_spec w ltac:(lia)) as [_ Hs2].
    destruct (Z.le_gt_cases (digitCount z) (digitCount w)) as [Hle'|Hgt]; [exact Hle'|].
    assert (10 ^ digitCount w <= 10 ^ (digitCount z - 1))
      by (apply Z.pow_le_mono_r; lia).
    lia. }
  pose proof (large_int_length w ltac:(lia)) as Hlen.
  rewrite Hw. unfold len. rewrite gtb_Int.
  assert ((M <? Z.of_nat (String.length (numberToString (Int w)))) = true) as ->
      by (apply Z.ltb_lt; lia).
  discriminate.
Qed.

(** The rules that the code enforces on a present value of a number field,
    with [str] its trimmed text and [M] the digit limit of the field
    (default 10):
    - a [str] that contains a decimal point is rejected, with "<name> must
      be an integer (no decimals)" when it has the numeric shape;
    - a [str] with a leading minus is rejected unless [allowNegative];
    and when [str] is a signed run of digits of value [z]:
    - a leading minus without [allowNegative] yields "<name> must be a
      positive number";
    - it is rejected when it has more than [M] digits and [z] is below
      [2^53] or [M <= 18];
    - it is rejected when [M <= 9] and [z] exceeds 2147483647;
    - it is rejected when [M <= 18] and [z] exceeds 9223372036854775807.
    The code computes the value in double precision and counts the
    characters of its printed form. *)
Theorem number_rules (H : Host) (name : string) (f : FieldSpec) (body : Body)
        (files : Files) (v : value) :
  type f = TNumber -> plainNumeral (limit f) ->
  lookup name body = Some v -> isBlank (Some v) = false ->
  let str := trim (toString v) in
  let M := limitOr 10 (limit f) in
  (includes str "." = true ->
   validateField H name f body files <> None /\
   (test numberRegex str = true ->
    validateField H name f body files =
      Some {| error := name ++ " must be an integer (no decimals)";
              field := name |})) /\
  (startsWith str "-" = true -> allowNegative f = false ->
   validateField H name f body files <> None) /\
  (forall neg ds,
      str = numeral neg ds "" -> isDigits ds = true ->
      let z := valueOf 10 ds 0 in
      (neg = true -> allowNegative f = false ->
       validateField H name f body files =
         Some {| error := name ++ " must be a positive number";
                 field := name |}) /\
      (z < two53 \/ M <= 18 -> M < digitCount z ->
       validateField H name f body files <> None) /\
      (M <= 9 -> 2147483647 < z ->
       validateField H name f body files <> None) /\
      (M <= 18 -> 9223372036854775807 < z ->
       validateField H name f body files <> None)).
Proof.
  intros Ht Hl Hv Hb str M.
  rewrite (validateField_present H name f body files v) by
      (try assumption; rewrite Ht; reflexivity).
  fold str.
  assert (isEmpty str = false) as He.
  { unfold str. destruct v; [discriminate | | |]; exact Hb. }
  rewrite validateScalar_numeric by (try assumption; left; assumption).
  rewrite Ht. cbn [isType andb].
  split; [|split].
  - intros Hdot. rewrite Hdot. destruct (test numberRegex str).
    + split; [discriminate | reflexivity].
    + split; [discriminate | intros; discriminate].
  - intros Hm Hneg. rewrite Hm, Hneg.
    destruct (test numberRegex str); [|discriminate].
    destruct (includes str "."); discriminate.
  - intros neg ds Hstr Hd.
    assert (test numberRegex str = true) as Hre.
    { apply numberRegex_spec. exists neg, ds, "". auto. }
    rewrite Hre, Hstr.
    rewrite numeral_includes_dot by (apply isDigits_forallb; assumption).
    rewrite numeral_startsWith_minus by assumption.
    cbn [negb when].
    split; [|split; [|split]].
    + intros -> ->. reflexivity.
    + intros Hz Hc. apply seq_not_none.
      destruct (Z.lt_ge_cases (valueOf 10 ds 0) two53) as [Hs | Hbig].
      * rewrite (range_rejects_digits name f neg ds) by assumption. discriminate.
      * destruct Hz as [Hz | HM]; [lia|].
        assert (validateNumberRange name f (numeral neg ds "") <> None) as Hr.
        { destruct (Z.le_gt_cases (valueOf 10 ds 0) 9223372036854775807)
            as [Hle | Hgt].
          - apply range_rejects_long; try assumption. split; assumption.
          - apply range_rejects_bigint; try assumption; lia. }
        destruct (validateNumberRange name f (numeral neg ds ""));
          [discriminate | contradiction].
    + intros HM Hz. apply seq_not_none.
      pose proof (range_rejects_integer name f neg ds Hd Hl HM Hz) as Hr.
      destruct (validateNumberRange name f (numeral neg ds ""));
        [discriminate | contradiction].
    + intros HM Hz. apply seq_not_none.
      pose proof (range_rejects_bigint name f neg ds Hd Hl HM Hz) as Hr.
      destruct (validateNumberRange name f (numeral neg ds ""));
        [discriminate | contradiction].
Qed.

(** * The query builder after validation *)

Lemma validateFields_None (H : Host) (schema : Schema) (body : Body)
      (files : Files) :
  validateFields H schema body files = None ->
  forall name f, In (name, f) schema ->
                 validateField H name f body files = None.
Proof.
  induction schema as [|[n g] rest IH]; intros Hv name f Hin; [contradiction|].
  cbn [validateFields] in Hv.
  destruct (validateField H n g body files) eqn:E; [discriminate|].
  destruct Hin as [Heq | Hin]; [injection Heq as <- <-; exact E | auto].
Qed.

Lemma validate_None_fields (H : Host) (schema : Schema) (body : Body)
      (files : Files) :
  validate H schema body files = None ->
  validateFields H schema body files = None.
Proof.
  unfold validate. destruct (validateFields H schema body files);
    [discriminate | reflexivity].
Qed.

Lemma validateScalar_date (H : Host) (name : string) (f : FieldSpec)
      (str : string) :
  type f = TDate \/ type f = TDatetime -> isEmpty str = false ->
  validateScalar H name f str =
  match Date_parse H str with
  | None => err (name ++ " must be a valid date") name
  | Some _ => None
  end.
Proof.
  intros Ht He. unfold validateScalar. rewrite He.
  destruct Ht as [Ht | Ht]; rewrite Ht; reflexivity.
Qed.

Lemma includes_append_r (s t p : string) :
  includes t p = true -> includes (s ++ t) p = true.
Proof.
  intros Ht. induction s as [|c s IH]; [exact Ht|].
  cbn [append includes]. rewrite IH. apply orb_true_r.
Qed.

Lemma numeral_with_fraction (neg : bool) (ip dp : string) :
  dp <> "" -> includes (numeral neg ip dp) "." = true.
Proof.
  intros Hdp. unfold numeral. destruct dp as [|c dp]; [contradiction|].
  cbn [isEmpty]. apply includes_append_r. apply includes_append_r. reflexivity.
Qed.

(** A number value that passed validation is a signed run of digits. *)
Lemma validated_number (H : Host) (name : string) (f : FieldSpec)
      (str : string) :
  type f = TNumber -> isEmpty str = false ->
  validateScalar H name f str = None ->
  exists neg ds, str = numeral neg ds "" /\ isDigits ds = true.
Proof.
  intros Ht He Hv.
  rewrite validateScalar_numeric in Hv by (try assumption; left; assumption).
  rewrite Ht in Hv. cbn [isType andb] in Hv.
  destruct (test numberRegex str) eqn:Hre; [|discriminate].
  cbn [negb when] in Hv.
  destruct (includes str ".") eqn:Hdot; [discriminate|].
  apply numberRegex_spec in Hre as (neg & ip & dp & Hs & Hip & Hdp).
  exists neg, ip. split; [|assumption].
  destruct dp as [|c dp]; [exact Hs|]. exfalso.
  rewrite Hs, numeral_with_fraction in Hdot by discriminate. discriminate.
Qed.

Lemma pow10_300 : 10 ^ 300 < 2 ^ 1023.
Proof. apply Z.ltb_lt. vm_compute. reflexivity. Qed.

(** With a digit limit of at most 18, a validated number is finite. *)
Lemma validated_number_finite (H : Host) (name : string) (f : FieldSpec)
      (neg : bool) (ds : string) :
  type f = TNumber -> plainNumeral (limit f) -> limitOr 10 (limit f) <= 18 ->
  isDigits ds = true ->
  validateScalar H name f (numeral neg ds "") = None ->
  exists w, round_int (valueOf 10 ds 0) = Int w.
Proof.
  intros Ht Hl HM Hd Hv.
  destruct (numeral_head neg ds "" Hd) as (c & r & Hnum & _).
  rewrite validateScalar_numeric in Hv
    by (try (left; assumption); rewrite Hnum; reflexivity).
  rewrite Ht in Hv. cbn [isType andb] in Hv.
  destruct (when (negb (test numberRegex (numeral neg ds ""))) _); [discriminate|].
  destruct (when (includes (numeral neg ds "") ".") _); [discriminate|].
  destruct (when (negb (allowNegative f) && startsWith (numeral neg ds "") "-") _);
    [discriminate|].
  cbn [when] in Hv.
  destruct (validateNumberRange name f (numeral neg ds "")) eqn:Hr; [discriminate|].
  rewrite validateNumberRange_numeral in Hr by assumption. cbv zeta in Hr.
  pose proof (valueOf_digits _ (isDigits_forallb _ Hd)) as [H0 _].
  destruct (round_int_nonneg (valueOf 10 ds 0) H0) as [Hinf | (w & Hw & _)];
    [|eauto].
  exfalso. rewrite Hinf in Hr.
  destruct (when (gtb (len (numberToString (Inf false))) _) _); [discriminate|].
  destruct (when ((limitOr 10 (limit f) <=? 9) && _) _); [discriminate|].
  apply Z.leb_le in HM. rewrite HM in Hr. discriminate.
Qed.

(** Its coercion does not raise. *)
Lemma number_coerces (v : value) (neg : bool) (ds : string) :
  trim (toString v) = numeral neg ds "" -> isDigits ds = true ->
  (exists w, round_int (valueOf 10 ds 0) = Int w) ->
  isInteger (parseFloat (toString v)) = true.
Proof.
  intros Hs Hd (w & Hw). rewrite (parseFloat_numeral _ neg ds Hs Hd), Hw.
  destruct neg; reflexivity.
Qed.

(** A run of at most 300 digits is finite. *)
Lemma short_number_finite (neg : bool) (ds : string) :
  isDigits ds = true ->
  (String.length (numeral neg ds "") <= 300)%nat ->
  exists w, round_int (valueOf 10 ds 0) = Int w.
Proof.
  intros Hd Hlen.
  pose proof (valueOf_digits _ (isDigits_forallb _ Hd)) as [H0 Hhi].
  assert (String.length ds <= 300)%nat as Hl.
  { rewrite numeral_int, length_append in Hlen. lia. }
  assert (10 ^ Z.of_nat (String.length ds) <= 10 ^ 300) as Hp
      by (apply Z.pow_le_mono_r; lia).
  pose proof pow10_300 as H300.
  destruct (round_int_finite (valueOf 10 ds 0) ltac:(lia)) as (w & Hw & _).
  eauto.
Qed.

(** After its check passed, the turn of a field does not throw. *)
Lemma buildField_after_check (H : Host) (name : string) (f : FieldSpec)
      (body : Body) (files : Files) :
  validateField H name f body files = None ->
  (forall v, lookup name body = Some v -> coercible f v) ->
  buildField H name f body files = StepSkip \/
  exists c b, buildField H name f body files = StepPush c b.
Proof.
  intros Hv Hco. unfold buildField. unfold validateField in Hv.
  destruct (isFileType (type f)) eqn:Hft.
  - destruct (lookup name files) as [u|]; [right; eauto|].
    destruct (required f); [discriminate | left; reflexivity].
  - destruct (lookup name body) as [v|] eqn:Hl.
    + specialize (Hco v eq_refl). unfold coercible in Hco.
      destruct (type f) eqn:Ht; try discriminate; try (right; eauto; fail).
      * (* number *)
        destruct Hco as [Hb Hfin]. rewrite Hb, andb_false_r in Hv.
        cbn [when] in Hv. cbn [strValueOf] in Hv.
        assert (isEmpty (trim (toString v)) = false) as He.
        { destruct v; [discriminate | | |]; exact Hb. }
        destruct (validated_number H name f _ Ht He Hv) as (neg & ds & Hs & Hd).
        assert (exists w, round_int (valueOf 10 ds 0) = Int w) as Hw.
        { destruct Hfin as [[Hpl HM] | Hlen].
          - rewrite Hs in Hv.
            apply (validated_number_finite H name f neg ds); assumption.
          - rewrite Hs in Hlen. apply (short_number_finite neg ds); assumption. }
        rewrite (number_coerces v neg ds Hs Hd Hw). cbn [negb].
        right. eexists _, _. reflexivity.
      * (* datetime *)
        destruct Hco as (s & -> & Hts & Hne).
        assert (isBlank (Some (VStr s)) = false) as Hb.
        { cbn [isBlank toString]. rewrite Hts.
          destruct s; [contradiction | reflexivity]. }
        rewrite Hb, andb_false_r in Hv. cbn [when strValueOf toString] in Hv.
        rewrite Hts in Hv.
        rewrite validateScalar_date in Hv
          by first [solve [auto] | destruct s; [contradiction | reflexivity]].
        cbn [newDate]. destruct (Date_parse H s); [|discriminate].
        right. eexists _, _. reflexivity.
      * (* date *)
        destruct Hco as (s & -> & Hts & Hne).
        assert (isBlank (Some (VStr s)) = false) as Hb.
        { cbn [isBlank toString]. rewrite Hts.
          destruct s; [contradiction | reflexivity]. }
        rewrite Hb, andb_false_r in Hv. cbn [when strValueOf toString] in Hv.
        rewrite Hts in Hv.
        rewrite validateScalar_date in Hv
          by first [solve [auto] | destruct s; [contradiction | reflexivity]].
        cbn [newDate]. destruct (Date_parse H s); [|discriminate].
        right. eexists _, _. reflexivity.
    + destruct (required f); [discriminate | left; reflexivity].
Qed.

Lemma buildFields_after_checks (H : Host) (schema : Schema) (body : Body)
      (files : Files) :
  (forall name f, In (name, f) schema ->
                  validateField H name f body files = None) ->
  (forall name f v, In (name, f) schema -> lookup name body = Some v ->
                    coercible f v) ->
  forall columns values,
  exists columns' values',
    buildFields H schema body files columns values = inr (columns', values').
Proof.
  induction schema as [|[n g] rest IH]; intros Hv Hco columns values.
  - cbn. eauto.
  - cbn [buildFields].
    assert (In (n, g) ((n, g) :: rest)) as Hin by (left; reflexivity).
    destruct (buildField_after_check H n g body files (Hv n g Hin)
                (fun v Hl => Hco n g v Hin Hl)) as [-> | (c & b & ->)];
      apply IH; intros; try (apply Hv; right; assumption);
      eapply Hco; try (right; eassumption); eassumption.
Qed.

(** C9, as amended.  When the validator returns no error, the query builder
    returns a query -- none of its raises is reached -- provided that each
    number field present in the body holds a value that is not blank and
    either has a digit limit of at most 18 or holds at most 300 code units,
    and each date or datetime field present in the body holds a string that
    is not empty and has no white space around it. *)
Theorem builder_after_validation (H : Host) (schema : Schema) (body : Body)
        (files : Files) :
  validate H schema body files = None ->
  (forall name f v, In (name, f) schema -> lookup name body = Some v ->
                    coercible f v) ->
  exists q, buildInsertQuery H schema body files = Returns q.
Proof.
  intros Hv Hco. unfold buildInsertQuery.
  pose proof (validateFields_None H schema body files
                (validate_None_fields H schema body files Hv)) as Hf.
  destruct (buildFields_after_checks H schema body files Hf Hco [] [])
    as (cols & vals & ->).
  eauto.
Qed.

(** On the shipped schema, whose only number field is required and limited
    to 2 digits and which has no date field, every validated request yields
    a query. *)
Lemma shipped_builder_after_validation (H : Host) (body : Body) (files : Files) :
  validate H schema body files = None ->
  exists q, buildInsertQuery H schema body files = Returns q.
Proof.
  intros Hv. unfold buildInsertQuery.
  pose proof (validateFields_None H schema body files
                (validate_None_fields H schema body files Hv)) as Hf.
  assert (forall name f v, In (name, f) schema -> lookup name body = Some v ->
                           coercible f v) as Hco.
  { intros name f v Hin Hl. pose proof (Hf name f Hin) as Hc.
    unfold schema in Hin. cbn [In] in Hin.
    repeat (destruct Hin as [Hin | Hin];
            [injection Hin as <- <-; first [exact I | idtac] |]);
      [|contradiction].
    unfold validateField in Hc. cbn [type isFileType required andb] in Hc.
    rewrite Hl in Hc. split.
    - destruct (isBlank (Some v)); [discriminate | reflexivity].
    - left. split; [right; split; reflexivity | apply Z.leb_le; reflexivity]. }
  destruct (buildFields_after_checks H schema body files Hf Hco [] [])
    as (cols & vals & ->).
  eauto.
Qed.

(** C9, as stated, fails: an optional number field left empty passes the
    validator, and the query builder raises on it. *)
Lemma builder_raises_after_validation :
  validate plainHost [("qty", optional TNumber "")] [("qty", VStr "")] [] = None /\
  buildInsertQuery plainHost [("qty", optional TNumber "")] [("qty", VStr "")] [] =
    Throws {| error := "qty must be an integer"; field := "qty" |}.
Proof. split; reflexivity. Qed.

(** * Columns and values of the query *)

Lemma combine_snoc (A B : Type) (l1 : list A) (l2 : list B) (a : A) (b : B) :
  List.length l1 = List.length l2 ->
  List.combine (l1 ++ [a]) (l2 ++ [b]) = (List.combine l1 l2 ++ [(a, b)])%list.
Proof.
  revert l2. induction l1 as [|x l1 IH]; intros [|y l2] Hlen;
    try discriminate; [reflexivity|].
  cbn. rewrite IH by (cbn in Hlen; lia). reflexivity.
Qed.

(** The loop keeps the pairs it holds and adds the pair of every field whose
    turn pushes one. *)
Lemma buildFields_pairs (H : Host) (schema : Schema) (body : Body)
      (files : Files) (c : string) (b : BoundValue) :
  forall columns values columns' values',
    List.length columns = List.length values ->
    buildFields H schema body files columns values = inr (columns', values') ->
    (In (c, b) (List.combine columns values) \/
     exists name f, In (name, f) schema /\
                    buildField H name f body files = StepPush c b) ->
    In (c, b) (List.combine columns' values').
Proof.
  induction schema as [|[n g] rest IH];
    intros columns values columns' values' Hlen Hb Hin.
  - cbn in Hb. injection Hb as <- <-.
    destruct Hin as [Hin | (name & f & [] & _)]. exact Hin.
  - cbn [buildFields] in Hb.
    destruct (buildField H n g body files) as [e| |c0 b0] eqn:E; [discriminate| |].
    + apply (IH columns values columns' values' Hlen Hb).
      destruct Hin as [Hin | (name & f & [Heq | Hin] & Hp)]; [left; exact Hin | |].
      * injection Heq as -> ->. congruence.
      * right. eauto.
    + apply (IH (columns ++ [c0])%list (values ++ [b0])%list columns' values');
        [rewrite !length_app; cbn; lia | exact Hb |].
      rewrite combine_snoc by assumption.
      destruct Hin as [Hin | (name & f & [Heq | Hin] & Hp)].
      * left. apply in_or_app. left. exact Hin.
      * injection Heq as -> ->. rewrite E in Hp. injection Hp as -> ->.
        left. apply in_or_app. right. left. reflexivity.
      * right. eauto.
Qed.

Lemma validateScalar_textual_blank (H : Host) (name : string) (f : FieldSpec)
      (body : Body) (files : Files) (s : string) :
  isFileType (type f) = false -> required f = false ->
  lookup name body = Some (VStr s) -> forallb isWhiteSpace s = true ->
  validateField H name f body files = None.
Proof.
  intros Ht Hr Hl Hs. unfold validateField.
  rewrite Ht, Hr, Hl, (isBlank_VStr_blank s Hs). reflexivity.
Qed.

(** C10, as amended.  For a field of type text, description, email, phone or
    url that is not required and whose key is present in the body with an
    empty or white-space-only string: the check of the field raises nothing;
    the turn of the query builder pushes the column of the field with the
    empty string as its bound value, so that the pair is among the columns
    and values of any query built for a schema declaring the field; whereas
    when the key is absent the turn pushes no column. *)
Theorem blank_optional_textual (H : Host) (name : string) (f : FieldSpec)
        (body : Body) (files : Files) (s : string) :
  isTextual (type f) = true -> required f = false ->
  lookup name body = Some (VStr s) -> forallb isWhiteSpace s = true ->
  validateField H name f body files = None /\
  buildField H name f body files = StepPush (dq ++ name ++ dq) (BString "") /\
  (forall schema columns values,
      In (name, f) schema ->
      buildFields H schema body files [] [] = inr (columns, values) ->
      In (dq ++ name ++ dq, BString "") (List.combine columns values)) /\
  (forall body', lookup name body' = None ->
                 buildField H name f body' files = StepSkip).
Proof.
  intros Ht Hr Hl Hs.
  assert (isFileType (type f) = false) as Hft by (destruct (type f); try reflexivity; discriminate).
  assert (buildField H name f body files =
          StepPush (dq ++ name ++ dq) (BString "")) as Hb.
  { unfold buildField. rewrite Hft, Hl. cbn [toString]. rewrite (trim_blank s Hs).
    destruct (type f); try discriminate; reflexivity. }
  split; [|split; [|split]].
  - apply (validateScalar_textual_blank H name f body files s); assumption.
  - exact Hb.
  - intros schema columns values Hin Hq.
    apply (buildFields_pairs H schema body files _ _ [] [] columns values eq_refl Hq).
    right. eauto.
  - intros body' Hl'. unfold buildField. rewrite Hft, Hl', Hr. reflexivity.
Qed.

(** C10, as stated, fails: for an optional amount field left empty the bound
    value is the number NaN, not the empty string. *)
Lemma blank_amount_binds_NaN :
  validateField plainHost "fee" (optional TAmount "") [("fee", VStr "")] [] = None /\
  buildField plainHost "fee" (optional TAmount "") [("fee", VStr "")] [] =
    StepPush (dq ++ "fee" ++ dq) (BNumber NaN) /\
  BNumber NaN <> BString "".
Proof. repeat split. discriminate. Qed.

(** C2, as stated, fails: a file field whose [fileConfig] allows 5 MB and
    whose limit attribute is empty accepts a file of 6 MB. *)
Lemma file_limit_ignores_maxSize :
  fileConfig documentField = Some {| maxSize := 5; extensions := ExtAll |} /\
  5 * 1048576 < size sixMegabytes /\
  validateFile (Some sixMegabytes) documentField = None /\
  validate plainHost [("doc", documentField)] [] [("doc", sixMegabytes)] = None.
Proof. repeat split. Qed.

(** C5: for a number field limited to 20 digits the code accepts the value
    10^21, which has 22 digits: the check of the digits measures the printed
    form of the double, "1e+21", which has five characters. *)
Lemma long_number_passes :
  digitCount (10 ^ 21) = 22 /\
  limitOr 10 "20" = 20 /\
  numberToString (parseInt "1000000000000000000000" None) = "1e+21" /\
  validate plainHost [("n", optional TNumber "20")]
           [("n", VStr "1000000000000000000000")] [] = None.
Proof. repeat split. Qed.

(** C7, as stated, fails: a plus sign followed by 15 digits has 16 characters
    and is accepted, and a plus sign followed by 9 digits has 10 characters
    and is rejected: the plus sign is not counted. *)
Lemma plus_sign_is_not_counted :
  String.length "+123456789012345" = 16%nat /\
  validate plainHost [("tel", optional TPhone "")]
           [("tel", VStr "+123456789012345")] [] = None /\
  String.length "+123456789" = 10%nat /\
  validate plainHost [("tel", optional TPhone "")]
           [("tel", VStr "+123456789")] [] =
  Some {| error := "tel must be a valid phone number"; field := "tel" |}.
Proof. repeat split. Qed.

(** A key of the body that the schema does not declare is let through when
    it is the name of a property that [schema] inherits. *)
Lemma inherited_key_is_not_refused :
  lookup "constructor" schema = None /\
  validate plainHost schema (bodyA ++ [("constructor", VStr "x")])%list filesA =
  None.
Proof. split; reflexivity. Qed.

(** * The shipped schema *)

(** On the shipped schema the limit attribute of every file field, 10 by
    default, is the [maxSize] of its [fileConfig]. *)
Lemma shipped_file_limits (name : string) (f : FieldSpec) (fc : FileConfig) :
  In (name, f) schema -> fileConfig f = Some fc ->
  numeralOr 10 (limit f) = maxSize fc.
Proof.
  intros Hin Hfc. unfold schema in Hin. cbn [In] in Hin.
  repeat (destruct Hin as [Hin | Hin];
          [injection Hin as <- <-; cbn in Hfc;
           first [discriminate | injection Hfc as <-; reflexivity] |]).
  contradiction.
Qed.

(** On the shipped schema every scalar field that is not required is bound
    as a trimmed string, and every number field has a limit of at most 18
    digits. *)
Lemma shipped_scalar_fields (name : string) (f : FieldSpec) :
  In (name, f) schema ->
  (isFileType (type f) = false -> required f = false ->
   isTextual (type f) = true) /\
  (type f = TNumber ->
   plainNumeral (limit f) /\ limitOr 10 (limit f) <= 18).
Proof.
  intros Hin. unfold schema in Hin. cbn [In] in Hin.
  repeat (destruct Hin as [Hin | Hin];
          [injection Hin as <- <-; cbn;
           split;
           [intros; first [discriminate | reflexivity]
           |intros Ht; first [discriminate
                             | split; [right; split; reflexivity
                                      | apply Z.leb_le; reflexivity]]] |]).
  contradiction.
Qed.

(** Scenarios A, D and E of the specification. *)
Example scenario_A :
  validate plainHost schema bodyA filesA = None /\
  exists q, buildInsertQuery plainHost schema bodyA filesA = Returns q /\
            List.length (values q) = 6%nat.
Proof. split; [reflexivity|]. eexists. split; reflexivity. Qed.

Example scenario_D :
  validate plainHost schema
    [("name", VStr "Alice"); ("phone", VStr "12345");
     ("ring_size", VStr "120.50"); ("caret", VStr "2")] filesA =
  Some {| error := "phone must be a valid phone number"; field := "phone" |}.
Proof. reflexivity. Qed.

Example scenario_E :
  validate plainHost schema (bodyA ++ [("foo", VStr "bar")])%list filesA =
  Some {| error := "Extra field not allowed: foo"; field := "foo" |}.
Proof. reflexivity. Qed.

(** * The theorems at the shipped schema *)

(** Scenario E: the undeclared key [foo] after the fields of scenario A. *)
Lemma validate_first_violation_witness :
  validate plainHost schema (bodyA ++ [("foo", VStr "bar")])%list filesA =
  firstViolation
    (List.map (checkDeclared plainHost (bodyA ++ [("foo", VStr "bar")])%list
                             filesA) schema ++
     List.map (checkBodyKey schema)
              (keys (bodyA ++ [("foo", VStr "bar")])%list) ++
     List.map (checkFileKey schema) (keys filesA)).
Proof.
  apply (validate_first_violation plainHost schema
           (bodyA ++ [("foo", VStr "bar")])%list filesA).
  reflexivity.
Defined.

(** The photo field [ss] of the shipped schema, limited to 10 MB by default:
    a file of 10 MB plus one byte is rejected. *)
Lemma file_size_rule_witness :
  validateField plainHost "ss" ssField bodyA
    [("ss", oversized); ("aadhar", image)] =
  Some {| error := "File size exceeds 10MB limit"; field := "ss" |}.
Proof.
  apply (proj1 (proj2 (file_size_rule plainHost "ss" ssField bodyA
                         [("ss", oversized); ("aadhar", image)] oversized
                         eq_refl (or_introl eq_refl) eq_refl eq_refl))).
  reflexivity.
Defined.

(** A yes/no field holding "TRUE". *)
Lemma yesno_coercion_witness :
  buildField plainHost "agree" (optional TYesno "") [("agree", VStr "TRUE")] [] =
  StepPush (dq ++ "agree" ++ dq) (BBool true).
Proof.
  apply (proj1 (yesno_coercion plainHost "agree" (optional TYesno "")
                  [("agree", VStr "TRUE")] [] (VStr "TRUE") eq_refl eq_refl)).
Defined.

(** Scenario B: [ring_size] is omitted. *)
Lemma required_or_skipped_witness :
  validate plainHost schema bodyB filesA =
  Some {| error := "ring_size is required"; field := "ring_size" |}.
Proof.
  apply (proj2 (required_or_skipped plainHost
                  (firstn 3 schema) (skipn 4 schema) "ring_size" ringSizeField
                  bodyB filesA eq_refl (or_introl eq_refl))).
Defined.

(** Scenario C: [caret] holds "2.5". *)
Lemma number_rules_witness :
  validateField plainHost "caret" caretField bodyC filesA =
  Some {| error := "caret must be an integer (no decimals)"; field := "caret" |}.
Proof.
  apply (proj2 (proj1 (number_rules plainHost "caret" caretField bodyC filesA
                         (VStr "2.5") eq_refl
                         (or_intror (conj eq_refl eq_refl)) eq_refl eq_refl)
                      eq_refl)).
  reflexivity.
Defined.

(** Scenario A: [ring_size] holds "120.50". *)
Lemma amount_rules_witness :
  validateField plainHost "ring_size" ringSizeField bodyA filesA = None.
Proof.
  apply (amount_rules plainHost "ring_size" ringSizeField bodyA filesA
           (VStr "120.50") false "120" "50" eq_refl
           (or_intror (conj eq_refl eq_refl))
           (or_intror (conj eq_refl eq_refl)) eq_refl eq_refl eq_refl
           (or_intror eq_refl)).
Defined.

(** Scenario A: [phone] holds ten digits. *)
Lemma phone_rules_witness :
  validateField plainHost "phone" phoneField bodyA filesA = None.
Proof.
  apply (proj2 (proj2 (phone_rules plainHost "phone" phoneField bodyA filesA
                         (VStr "9876543210") eq_refl
                         (or_intror (conj eq_refl eq_refl)) eq_refl eq_refl))).
  - exists "", "9876543210".
    split; [reflexivity|]. split; [left; reflexivity|].
    split; [split; apply Nat.leb_le; reflexivity | reflexivity].
  - apply Z.leb_le. reflexivity.
Defined.

(** The column type of [caret], a number of at most 2 digits. *)
Lemma createTableSQL_columns_witness : typeMap caretField = "INTEGER".
Proof.
  apply (proj2 (createTableSQL_columns schema) caretField
               (or_intror (conj eq_refl eq_refl))).
Defined.

(** Scenario A is validated and its query is built. *)
Lemma builder_after_validation_witness :
  exists q, buildInsertQuery plainHost schema bodyA filesA = Returns q.
Proof.
  apply (builder_after_validation plainHost schema bodyA filesA eq_refl).
  intros name f v Hin Hl. unfold schema in Hin. cbn [In] in Hin.
  repeat (destruct Hin as [Hin | Hin];
          [injection Hin as <- <-;
           first [exact I
                 | cbv in Hl; injection Hl as <-;
                   split; [reflexivity | right; apply Nat.leb_le; reflexivity]]|]).
  contradiction.
Defined.

(** The optional [email] of the shipped schema, sent as white space. *)
Lemma blank_optional_textual_witness :
  buildField plainHost "email" emailField [("email", VStr "  ")] filesA =
  StepPush (dq ++ "email" ++ dq) (BString "").
Proof.
  apply (proj1 (proj2 (blank_optional_textual plainHost "email" emailField
                         [("email", VStr "  ")] filesA "  "
                         eq_refl eq_refl eq_refl eq_refl))).
Defined.

(* ------------------------------------------------------------------ *)
(** ** The save endpoint *)

(** Whatever is thrown, the chain of the [catch] block sends one response,
    and never a success; status 409 is for the unique violation, and status
    500 for what has no handled code and no truthy [error]. *)
Lemma respondToError_responds (S : Type) (thrown : Object) (s : S)
      (t : list Event) :
  exists st body,
    respondToError thrown s t = ((s, t ++ [ERespond st body])%list, inr tt) /\
    (st = 400 \/ st = 409 \/ st = 500) /\
    (hasCode thrown "23505" = true ->
     st = 409 /\
     body = [("error", JStr "Duplicate entry - this record already exists");
             ("code", JStr "DUPLICATE_ENTRY");
             ("details", get thrown "detail")]) /\
    (st = 409 -> hasCode thrown "23505" = true) /\
    (st = 500 ->
     existsb (hasCode thrown) handledCodes = false /\
     truthyJson (get thrown "error") = false /\
     body = [("error", JStr "Internal server error");
             ("code", JStr "INTERNAL_ERROR");
             ("message", get thrown "message")]).
Proof.
  unfold respondToError, respond, handledCodes, hasCode. cbn [existsb].
  repeat match goal with
         | |- context [if ?c then _ else _] => destruct c
         end.
  all: eexists _, _; split; [reflexivity|].
  all: split; [lia|].
  all: split; [intros Hc; first [discriminate Hc | split; reflexivity] |].
  all: split; [intros Hs; first [reflexivity | discriminate Hs] |].
  all: intros Hs; first [discriminate Hs | repeat split; reflexivity].
Qed.

(** The messages the builder throws are not empty. *)
Lemma isEmpty_append_r (a b : string) :
  isEmpty b = false -> isEmpty (a ++ b) = false.
Proof.
  intros Hb. destruct a as [|c a]; [exact Hb | reflexivity].
Qed.

Lemma buildField_message (H : Host) (name : string) (f : FieldSpec)
      (body : Body) (files : Files) (e : ValidationError) :
  buildField H name f body files = StepThrow e ->
  isEmpty (error e) = false.
Proof.
  unfold buildField, throw. intros Hb.
  repeat match type of Hb with
         | context [match ?x with _ => _ end] => destruct x
         end;
    try discriminate; injection Hb as <-; cbn [error];
    apply isEmpty_append_r; reflexivity.
Qed.

Lemma buildFields_message (H : Host) (entries : Schema) (body : Body)
      (files : Files) (e : ValidationError) :
  forall columns values,
    buildFields H entries body files columns values = inl e ->
    isEmpty (error e) = false.
Proof.
  induction entries as [|[name f] rest IH]; intros columns values Hb.
  - discriminate.
  - cbn [buildFields] in Hb.
    destruct (buildField H name f body files) as [e'| |c v] eqn:Hf.
    + injection Hb as <-. exact (buildField_message H name f body files e' Hf).
    + exact (IH _ _ Hb).
    + exact (IH _ _ Hb).
Qed.

Lemma buildInsertQuery_message (H : Host) (schema : Schema) (body : Body)
      (files : Files) (e : ValidationError) :
  buildInsertQuery H schema body files = Throws e ->
  isEmpty (error e) = false.
Proof.
  unfold buildInsertQuery. intros Hb.
  destruct (buildFields H schema body files [] []) as [e'|[cs vs]] eqn:Hf;
    [|discriminate].
  injection Hb as <-. exact (buildFields_message H schema body files e' _ _ Hf).
Qed.

(** A thrown validation error is answered with status 400 and itself. *)
Lemma respondToError_errorObject (S : Type) (e : ValidationError) (s : S)
      (t : list Event) :
  isEmpty (error e) = false ->
  respondToError (errorObject e) s t =
  ((s, t ++ [ERespond 400 (errorObject e)])%list, inr tt).
Proof.
  intros He. unfold respondToError, errorObject, get.
  cbn [lookup String.eqb Ascii.eqb Bool.eqb isStr truthyJson].
  rewrite He. reflexivity.
Qed.

(** A body of values that convert is validated as [validate] does. *)
Lemma convertible_received (body : Body) : convertible (received body) = body.
Proof.
  unfold convertible, received.
  induction body as [|[k v] rest IH]; cbn [List.map flat_map fst snd app];
    [reflexivity|].
  rewrite IH. reflexivity.
Qed.

Lemma keys_received (body : Body) : keys (received body) = keys body.
Proof.
  unfold keys, received. rewrite map_map. reflexivity.
Qed.

Lemma lookup_received (name : string) (body : Body) :
  lookup name (received body) =
  match lookup name body with Some v => Some (Converts v) | None => None end.
Proof.
  unfold received.
  induction body as [|[k v] rest IH]; cbn [List.map lookup fst snd];
    [reflexivity|].
  destruct (String.eqb k name); [reflexivity | exact IH].
Qed.

Lemma validateFieldsReceived_received (H : Host) (entries : Schema)
      (body : Body) (files : Files) :
  validateFieldsReceived H entries (received body) files =
  inr (validateFields H entries body files).
Proof.
  induction entries as [|[name f] rest IH];
    cbn [validateFieldsReceived validateFields]; [reflexivity|].
  rewrite convertible_received, lookup_received.
  destruct (isFileType (type f));
    [|destruct (lookup name body)];
    (destruct (validateField H name f body files); [reflexivity | exact IH]).
Qed.

Lemma validateReceived_received (H : Host) (schema : Schema) (body : Body)
      (files : Files) :
  validateReceived H schema (received body) files =
  inr (validate H schema body files).
Proof.
  unfold validateReceived, validate.
  rewrite validateFieldsReceived_received, keys_received.
  destruct (validateFields H schema body files); reflexivity.
Qed.

(** When [validate] went through the fields of the schema without throwing
    and without an error, every field that is no photo or file has, in the
    body as received, no value or one that converts: the builder reads
    these values only, and the properties that convert hold them. *)
Lemma lookup_convertible (name : string) (body : RequestBody) :
  match lookup name body with
  | Some (Converts v) => lookup name (convertible body) = Some v
  | Some (Unconvertible _) => True
  | None => lookup name (convertible body) = None
  end.
Proof.
  unfold convertible.
  induction body as [|[k r] rest IH]; cbn [lookup flat_map fst snd];
    [reflexivity|].
  destruct (String.eqb k name) eqn:E.
  - destruct r as [v|thrown]; [|exact I].
    cbn [app lookup]. rewrite E. reflexivity.
  - destruct r as [v|thrown]; [|exact IH].
    cbn [app lookup]. rewrite E. exact IH.
Qed.

Lemma validated_fields_convert (H : Host) (entries : Schema)
      (body : RequestBody) (files : Files) :
  validateFieldsReceived H entries body files = inr None ->
  forall name f, In (name, f) entries -> isFileType (type f) = false ->
                 lookup name (convertible body) =
                 match lookup name body with
                 | Some (Converts v) => Some v
                 | _ => None
                 end /\
                 forall thrown, lookup name body <> Some (Unconvertible thrown).
Proof.
  induction entries as [|[n g] rest IH]; cbn [validateFieldsReceived];
    intros Hv name f Hin Ht; [destruct Hin|].
  destruct Hin as [Heq | Hin].
  - injection Heq as -> ->. rewrite Ht in Hv.
    pose proof (lookup_convertible name body) as Hl.
    destruct (lookup name body) as [[v|thrown]|]; [| discriminate Hv |];
      (split; [exact Hl | intros thrown; discriminate]).
  - apply (IH ltac:(
      destruct (if isFileType (type g) then None else lookup n body)
        as [[v|thrown]|]; [| discriminate Hv | ];
      (destruct (validateField H n g (convertible body) files);
       [discriminate Hv | exact Hv])) name f Hin Ht).
Qed.

Section Endpoint.

Variable S : Type.
Variable exec : S -> Query -> S * Reply.
Variable H : Host.
Variable schema : Schema.
Variable body : Body.
Variable files : option Files.
Variable s : S.

(** Case analysis of a run of the handler: every query outcome, the verdict
    of [validate], the outcome of the builder, and the response of the
    [catch] block. *)
Ltac run_handler :=
  unfold eventsOf, escapes, trace, escaping, saveHandler, connecting,
    connected, tryFinally, tryCatch, bind, query, throwing, release;
  rewrite ?validateReceived_received, ?convertible_received;
  repeat match goal with
         | |- context [exec ?s ?q] =>
             let E := fresh "E" in
             destruct (exec s q) as [? [?|?]] eqn:E
         | |- context [match validate ?H ?sc ?b ?f with _ => _ end] =>
             let V := fresh "V" in
             destruct (validate H sc b f) eqn:V
         | |- context [match buildInsertQuery ?H ?sc ?b ?f with _ => _ end] =>
             let B := fresh "B" in
             destruct (buildInsertQuery H sc b f) eqn:B
         | |- context [respondToError ?e ?s ?t] =>
             let st := fresh "st" in
             let b := fresh "b" in
             let R := fresh "R" in
             let C := fresh "C" in
             destruct (respondToError_responds _ e s t) as (st & b & R & C);
             rewrite R
         end;
  unfold respond; cbn [fst snd app].

(** X3: a success is reported only for a request that [validate] accepts
    and the builder turns into a query, after the transaction, the INSERT
    and the COMMIT went through, and with the first row the INSERT gave. *)
Theorem success_means_committed (b : Object) :
  In (200, b) (responses (eventsOf exec H schema body files s)) ->
  validate H schema body (filesOf files) = None /\
  exists q r0 rows r2,
    buildInsertQuery H schema body (filesOf files) = Returns q /\
    b = savedObject rows /\
    eventsOf exec H schema body files s =
    [EQuery (statement "BEGIN") (Rows r0); EQuery q (Rows rows);
     EQuery (statement "COMMIT") (Rows r2); ERespond 200 (savedObject rows);
     ERelease].
Proof.
  run_handler.
  all: cbn [responses flat_map app In].
  all: intros Hin.
  all: repeat match goal with
              | Hin : _ \/ _ |- _ => destruct Hin as [Hin | Hin]
              | Hin : False |- _ => destruct Hin
              | Hin : (_, _) = (_, _) |- _ => inversion Hin; clear Hin; subst
              end.
  all: try lia.
  split; [reflexivity|].
  eexists _, _, _, _. split; [reflexivity|]. split; reflexivity.
Qed.

(** X4: for a request that [validate] rejects, the only queries are BEGIN
    and ROLLBACK, no success is reported, and when both went through the
    response is status 400 with the validation error. *)
Theorem invalid_request_is_not_inserted (e : ValidationError) :
  validate H schema body (filesOf files) = Some e ->
  Forall (fun q => q = statement "BEGIN" \/ q = statement "ROLLBACK")
         (queries (eventsOf exec H schema body files s)) /\
  (forall st b, In (st, b) (responses (eventsOf exec H schema body files s)) ->
                st <> 200) /\
  (forall r0 r1 rest,
      eventsOf exec H schema body files s =
      EQuery (statement "BEGIN") (Rows r0) ::
      EQuery (statement "ROLLBACK") (Rows r1) :: rest ->
      rest = [ERespond 400 (errorObject e); ERelease]).
Proof.
  intros Hv. unfold eventsOf, trace, saveHandler.
  rewrite validateReceived_received, Hv.
  run_handler.
  all: cbn [queries responses flat_map app In].
  all: split;
    [ repeat (apply Forall_cons;
              [first [left; reflexivity | right; reflexivity] |]);
      apply Forall_nil |].
  all: split;
    [ intros st' b' Hin;
      repeat match goal with
             | Hin : _ \/ _ |- _ => destruct Hin as [Hin | Hin]
             | Hin : False |- _ => destruct Hin
             | Hin : (_, _) = (_, _) |- _ => inversion Hin; clear Hin; subst
             end; lia
    | intros r0 r1 rest Heq; try discriminate;
      injection Heq as ? ? ?; subst; reflexivity ].
Qed.

(** X5: a response is sent only right after the transaction has ended, with
    a COMMIT that went through for status 200 and a ROLLBACK that went
    through for any other status, and nothing follows it but the release
    of the client. *)
Theorem response_follows_transaction_end
        (pre post : list Event) (st : Z) (b : Object) :
  eventsOf exec H schema body files s = (pre ++ ERespond st b :: post)%list ->
  post = [ERelease] /\
  exists pre' rows,
    pre = (pre' ++ [EQuery (statement (if st =? 200 then "COMMIT"
                                        else "ROLLBACK")) (Rows rows)])%list.
Proof.
  run_handler.
  all: intros Heq.
  all: repeat (destruct pre as [|? pre]; cbn [app] in Heq;
               [ first [discriminate Heq | idtac]
               | first [discriminate Heq
                       | injection Heq as ? Heq; subst ] ]).
  all: try (injection Heq as ? ? ?; subst).
  all: split; [reflexivity|].
  all: repeat match goal with
              | C : (?x = 400 \/ _) /\ _ |- _ =>
                  let C1 := fresh in
                  destruct C as [C1 _];
                  assert ((x =? 200) = false) as -> by (apply Z.eqb_neq; lia)
              end.
  all: cbn [Z.eqb Pos.eqb].
  all: first
    [ eexists [], _; reflexivity
    | eexists [_], _; reflexivity
    | eexists [_; _], _; reflexivity
    | eexists [_; _; _], _; reflexivity ].
Qed.

(** X6: when the builder throws for a request that [validate] accepted, no
    INSERT is issued: the transaction is rolled back, and when that went
    through the response is status 400 with the object thrown. *)
Theorem builder_error_is_answered (e : ValidationError) :
  validate H schema body (filesOf files) = None ->
  buildInsertQuery H schema body (filesOf files) = Throws e ->
  queries (eventsOf exec H schema body files s) =
  [statement "BEGIN"; statement "ROLLBACK"] /\
  (forall r0 r1 rest,
      eventsOf exec H schema body files s =
      EQuery (statement "BEGIN") (Rows r0) ::
      EQuery (statement "ROLLBACK") (Rows r1) :: rest ->
      rest = [ERespond 400 (errorObject e); ERelease]).
Proof.
  intros Hv Hb. pose proof (buildInsertQuery_message _ _ _ _ _ Hb) as Hm.
  unfold eventsOf, trace, saveHandler, connecting, connected, tryFinally,
    tryCatch, bind, query, throwing, release.
  rewrite validateReceived_received, convertible_received, Hv, Hb.
  destruct (exec s (statement "BEGIN")) as [s1 [r0|x0]] eqn:E0.
  - destruct (exec s1 (statement "ROLLBACK")) as [s2 [r1|x1]] eqn:E1.
    + rewrite (respondToError_errorObject _ e s2 _ Hm).
      cbn [fst snd app queries flat_map]. split; [reflexivity|].
      intros ? ? ? Heq. injection Heq as ? ? ?. subst. reflexivity.
    + cbn [fst snd app queries flat_map]. split; [reflexivity|].
      intros ? ? ? Heq. discriminate Heq.
  - destruct (exec s1 (statement "ROLLBACK")) as [s2 [r1|x1]] eqn:E1.
    + destruct (respondToError_responds _ x0 s2
                  ([] ++ [EQuery (statement "BEGIN") (Rejects x0)] ++
                   [EQuery (statement "ROLLBACK") (Rows r1)])%list)
        as (st & b & R & C).
      cbn [app] in R |- *. rewrite R.
      cbn [fst snd app queries flat_map]. split; [reflexivity|].
      intros ? ? ? Heq. discriminate Heq.
    + cbn [fst snd app queries flat_map]. split; [reflexivity|].
      intros ? ? ? Heq. discriminate Heq.
Qed.

(** X8: when the INSERT of an accepted request is rejected as a unique
    violation and the ROLLBACK goes through, the response is status 409
    with the detail of the database error, and no COMMIT is issued. *)
Theorem duplicate_is_conflict (q : Query) (reason : Object)
        (s1 s2 s3 : S) (r0 r1 : list Object) :
  validate H schema body (filesOf files) = None ->
  buildInsertQuery H schema body (filesOf files) = Returns q ->
  exec s (statement "BEGIN") = (s1, Rows r0) ->
  exec s1 q = (s2, Rejects reason) ->
  hasCode reason "23505" = true ->
  exec s2 (statement "ROLLBACK") = (s3, Rows r1) ->
  eventsOf exec H schema body files s =
  [EQuery (statement "BEGIN") (Rows r0); EQuery q (Rejects reason);
   EQuery (statement "ROLLBACK") (Rows r1);
   ERespond 409
     [("error", JStr "Duplicate entry - this record already exists");
      ("code", JStr "DUPLICATE_ENTRY");
      ("details", get reason "detail")];
   ERelease].
Proof.
  intros Hv Hb E0 E1 Hc E2.
  unfold eventsOf, trace, saveHandler, connecting, connected, tryFinally,
    tryCatch, bind, query, throwing, release.
  rewrite validateReceived_received, convertible_received, E0, Hv, Hb, E1, E2.
  destruct (respondToError_responds _ reason s3
              (([] ++ [EQuery (statement "BEGIN") (Rows r0)]) ++
               [EQuery q (Rejects reason)] ++
               [EQuery (statement "ROLLBACK") (Rows r1)])%list)
    as (st & b & R & _ & C & _).
  destruct (C Hc) as [-> ->].
  cbn [app] in R |- *. rewrite R. reflexivity.
Qed.


End Endpoint.

(** *** Runs from the request on: the pool and the body as received *)

Section Request.

Variable S : Type.
Variable exec : S -> Query -> S * Reply.
Variable connect : S -> S * option Object.
Variable H : Host.
Variable schema : Schema.
Variable body : RequestBody.
Variable files : option Files.
Variable s : S.

(** Case analysis of a run: the pool, every query outcome, what [validate]
    throws or returns, the outcome of the builder, and the response of the
    [catch] block. *)
Ltac run_request :=
  unfold trace, escaping, saveHandler, connecting, tryFinally, tryCatch, bind,
    query, throwing, release;
  repeat match goal with
         | |- context [connect ?s] =>
             let K := fresh "K" in
             destruct (connect s) as [? [?|]] eqn:K
         | |- context [exec ?s ?q] =>
             let E := fresh "E" in
             destruct (exec s q) as [? [?|?]] eqn:E
         | |- context [match validateReceived ?H ?sc ?b ?f with _ => _ end] =>
             let V := fresh "V" in
             destruct (validateReceived H sc b f) as [?|[?|]] eqn:V
         | |- context [match buildInsertQuery ?H ?sc ?b ?f with _ => _ end] =>
             let B := fresh "B" in
             destruct (buildInsertQuery H sc b f) eqn:B
         | |- context [respondToError (errorObject ?e) ?s ?t] =>
             rewrite (respondToError_errorObject _ e s t)
               by (eapply buildInsertQuery_message; eassumption)
         | |- context [respondToError ?e ?s ?t] =>
             let st := fresh "st" in
             let b := fresh "b" in
             let R := fresh "R" in
             let C := fresh "C" in
             destruct (respondToError_responds _ e s t) as (st & b & R & C);
             rewrite R
         end;
  unfold respond; cbn [fst snd app].

(** X1: when the pool hands over no client, the handler does nothing and
    the reason escapes; otherwise the first thing it does is to issue BEGIN
    and the last is to release the client, which it does once. *)
Theorem client_released_last :
  match snd (connect s) with
  | Some reason =>
      trace (saveHandler exec connect H schema body files s []) = [] /\
      escaping (saveHandler exec connect H schema body files s []) =
      Some reason
  | None =>
      exists r mid,
        trace (saveHandler exec connect H schema body files s []) =
        (EQuery (statement "BEGIN") r :: mid ++ [ERelease])%list /\
        existsb isRelease mid = false
  end.
Proof.
  run_request.
  all: first
    [ split; reflexivity
    | eexists _, []; split; reflexivity
    | eexists _, [_]; split; reflexivity
    | eexists _, [_; _]; split; reflexivity
    | eexists _, [_; _; _]; split; reflexivity
    | eexists _, [_; _; _; _]; split; reflexivity
    | eexists _, [_; _; _; _; _]; split; reflexivity ].
Qed.

(** X2: a request is either answered exactly once, with nothing escaping
    the handler, or not answered at all: then what escapes is the reason
    for which the pool handed over no client, or the error with which a
    ROLLBACK was rejected. *)
Theorem answered_once_unless_rollback_fails :
  match escaping (saveHandler exec connect H schema body files s []) with
  | None =>
      exists st b,
        responses (trace (saveHandler exec connect H schema body files s [])) =
        [(st, b)]
  | Some thrown =>
      responses (trace (saveHandler exec connect H schema body files s [])) =
      [] /\
      (snd (connect s) = Some thrown \/
       In (EQuery (statement "ROLLBACK") (Rejects thrown))
          (trace (saveHandler exec connect H schema body files s [])))
  end.
Proof.
  run_request.
  all: cbn [responses flat_map app In].
  all: first
    [ eexists _, _; reflexivity
    | split; [reflexivity | left; reflexivity]
    | split; [reflexivity | right; auto 10] ].
Qed.

(** X7: status 500 is sent only for something thrown while the transaction
    is open that has none of the handled codes and no truthy [error]: the
    error with which the database rejected a query, or what [validate]
    threw on a value that does not convert; the response carries its
    message. *)
Theorem internal_error_reports_what_was_thrown (b : Object) :
  In (500, b)
     (responses (trace (saveHandler exec connect H schema body files s []))) ->
  exists thrown,
    ((exists q,
         In (EQuery q (Rejects thrown))
            (trace (saveHandler exec connect H schema body files s []))) \/
     validateReceived H schema body (filesOf files) = inl thrown) /\
    existsb (hasCode thrown) handledCodes = false /\
    truthyJson (get thrown "error") = false /\
    b = [("error", JStr "Internal server error");
         ("code", JStr "INTERNAL_ERROR");
         ("message", get thrown "message")].
Proof.
  run_request.
  all: cbn [responses flat_map app In].
  all: intros Hin.
  all: repeat match goal with
              | Hin : _ \/ _ |- _ => destruct Hin as [Hin | Hin]
              | Hin : False |- _ => destruct Hin
              | Hin : (_, _) = (_, _) |- _ => inversion Hin; clear Hin; subst
              end.
  all: try discriminate.
  all: match goal with
       | C : _ /\ _ /\ _ /\ (500 = 500 -> _) |- _ =>
           destruct C as (_ & _ & _ & C);
           destruct (C eq_refl) as (C1 & C2 & C3)
       end.
  all: subst.
  all: eexists; split; [|split; [eassumption | split; [eassumption | reflexivity]]].
  all: first [ right; reflexivity | left; eexists; auto 10 ].
Qed.

End Request.

(** *** The endpoint on sample requests *)

(** Scenario A on a database that accepts every query. *)
Lemma success_means_committed_witness :
  validate plainHost schema bodyA (filesOf (Some filesA)) = None /\
  exists q r0 rows r2,
    buildInsertQuery plainHost schema bodyA (filesOf (Some filesA)) =
    Returns q /\
    savedObject [insertedRow] = savedObject rows /\
    eventsOf scripted plainHost schema bodyA (Some filesA)
             [Rows []; Rows [insertedRow]; Rows []] =
    [EQuery (statement "BEGIN") (Rows r0); EQuery q (Rows rows);
     EQuery (statement "COMMIT") (Rows r2); ERespond 200 (savedObject rows);
     ERelease].
Proof.
  apply (success_means_committed (list Reply) scripted plainHost schema bodyA
           (Some filesA) [Rows []; Rows [insertedRow]; Rows []]
           (savedObject [insertedRow])).
  vm_compute. left. reflexivity.
Defined.

(** Scenario D: a phone number of five digits. *)
Lemma invalid_request_is_not_inserted_witness :
  Forall (fun q => q = statement "BEGIN" \/ q = statement "ROLLBACK")
         (queries (eventsOf scripted plainHost schema bodyD (Some filesA) [])) /\
  (forall st b,
      In (st, b)
         (responses (eventsOf scripted plainHost schema bodyD (Some filesA) [])) ->
      st <> 200) /\
  (forall r0 r1 rest,
      eventsOf scripted plainHost schema bodyD (Some filesA) [] =
      EQuery (statement "BEGIN") (Rows r0) ::
      EQuery (statement "ROLLBACK") (Rows r1) :: rest ->
      rest = [ERespond 400
                (errorObject {| error := "phone must be a valid phone number";
                                field := "phone" |});
              ERelease]).
Proof.
  apply (invalid_request_is_not_inserted
           (list Reply) scripted plainHost schema bodyD (Some filesA) []
           {| error := "phone must be a valid phone number";
              field := "phone" |}).
  reflexivity.
Defined.

(** Scenario D again: the response comes right after the ROLLBACK. *)
Lemma response_follows_transaction_end_witness :
  [ERelease] = [ERelease] /\
  exists pre' rows,
    [EQuery (statement "BEGIN") (Rows []);
     EQuery (statement "ROLLBACK") (Rows [])] =
    (pre' ++ [EQuery (statement "ROLLBACK") (Rows rows)])%list.
Proof.
  apply (response_follows_transaction_end
           (list Reply) scripted plainHost schema bodyD (Some filesA) []
           [EQuery (statement "BEGIN") (Rows []);
            EQuery (statement "ROLLBACK") (Rows [])]
           [ERelease] 400
           [("error", JStr "phone must be a valid phone number");
            ("field", JStr "phone")]).
  reflexivity.
Defined.

(** An optional number field holding the empty string passes [validate]
    and makes the builder throw. *)
Lemma builder_error_is_answered_witness :
  queries (eventsOf scripted plainHost [("qty", optional TNumber "")]
                    [("qty", VStr "")] None []) =
  [statement "BEGIN"; statement "ROLLBACK"] /\
  (forall r0 r1 rest,
      eventsOf scripted plainHost [("qty", optional TNumber "")]
               [("qty", VStr "")] None [] =
      EQuery (statement "BEGIN") (Rows r0) ::
      EQuery (statement "ROLLBACK") (Rows r1) :: rest ->
      rest = [ERespond 400
                (errorObject {| error := "qty must be an integer";
                                field := "qty" |});
              ERelease]).
Proof.
  apply (builder_error_is_answered
           (list Reply) scripted plainHost [("qty", optional TNumber "")]
           [("qty", VStr "")] None []
           {| error := "qty must be an integer"; field := "qty" |});
    reflexivity.
Defined.

(** A body whose [name] does not convert, on a database that accepts every
    query. *)
Lemma internal_error_reports_what_was_thrown_witness :
  exists thrown,
    ((exists q,
         In (EQuery q (Rejects thrown))
            (trace (saveHandler scripted (@connected (list Reply)) plainHost
                                schema bodyNested (Some filesA) [] []))) \/
     validateReceived plainHost schema bodyNested (filesOf (Some filesA)) =
     inl thrown) /\
    existsb (hasCode thrown) handledCodes = false /\
    truthyJson (get thrown "error") = false /\
    [("error", JStr "Internal server error"); ("code", JStr "INTERNAL_ERROR");
     ("message", JStr "Cannot convert object to primitive value")] =
    [("error", JStr "Internal server error"); ("code", JStr "INTERNAL_ERROR");
     ("message", get thrown "message")].
Proof.
  apply (internal_error_reports_what_was_thrown
           (list Reply) scripted (@connected (list Reply)) plainHost schema
           bodyNested (Some filesA) []
           [("error", JStr "Internal server error");
            ("code", JStr "INTERNAL_ERROR");
            ("message", JStr "Cannot convert object to primitive value")]).
  vm_compute. left. reflexivity.
Defined.

(** Scenario A when the phone number is already in the table. *)
Lemma duplicate_is_conflict_witness :
  eventsOf scripted plainHost schema bodyA (Some filesA)
           [Rows []; Rejects duplicateKey; Rows []] =
  [EQuery (statement "BEGIN") (Rows []); EQuery insertA (Rejects duplicateKey);
   EQuery (statement "ROLLBACK") (Rows []);
   ERespond 409
     [("error", JStr "Duplicate entry - this record already exists");
      ("code", JStr "DUPLICATE_ENTRY");
      ("details", get duplicateKey "detail")];
   ERelease].
Proof.
  apply (duplicate_is_conflict
           (list Reply) scripted plainHost schema bodyA (Some filesA)
           [Rows []; Rejects duplicateKey; Rows []]
           insertA duplicateKey
           [Rejects duplicateKey; Rows []] [Rows []] [] [] []);
    reflexivity.
Defined.

(* ------------------------------------------------------------------ *)
(** ** Requests that [validate] accepts *)

Lemma lookup_In (A : Type) (key : string) (obj : list (string * A)) (v : A) :
  lookup key obj = Some v -> In (key, v) obj.
Proof.
  induction obj as [|[k w] rest IH]; cbn [lookup]; intros Hl.
  - discriminate.
  - destruct (String.eqb k key) eqn:E.
    + apply String.eqb_eq in E. injection Hl as <-. subst. left. reflexivity.
    + right. exact (IH Hl).
Qed.

Lemma existsb_eqb_In (k : string) (ks : list string) :
  List.existsb (String.eqb k) ks = true <-> In k ks.
Proof.
  rewrite existsb_exists. split.
  - intros (x & Hin & E). apply String.eqb_eq in E. subst. exact Hin.
  - intros Hin. exists k. split; [exact Hin | apply String.eqb_refl].
Qed.

Lemma In_lookup (A : Type) (key : string) (obj : list (string * A)) (v : A) :
  distinct (keys obj) = true -> In (key, v) obj -> lookup key obj = Some v.
Proof.
  induction obj as [|[k w] rest IH]; intros Hd Hin.
  - destruct Hin.
  - change (keys ((k, w) :: rest)) with (k :: keys rest) in Hd.
    cbn [distinct] in Hd. cbn [lookup].
    apply andb_true_iff in Hd. destruct Hd as [Hk Hd].
    destruct Hin as [Heq | Hin].
    + injection Heq as -> ->. rewrite String.eqb_refl. reflexivity.
    + destruct (String.eqb k key) eqn:E.
      * apply String.eqb_eq in E. subst k.
        apply negb_true_iff in Hk.
        assert (List.existsb (String.eqb key) (keys rest) = true) as Hc.
        { apply existsb_eqb_In. unfold keys.
          change key with (fst (key, v)). apply in_map. exact Hin. }
        rewrite Hc in Hk. discriminate.
      * exact (IH Hd Hin).
Qed.

Lemma extraField_None (schema : Schema) (ks : list string) :
  extraField schema ks = None <->
  forall k, In k ks ->
            (exists f, lookup k schema = Some f) \/ inherited k = true.
Proof.
  induction ks as [|k rest IH]; cbn [extraField In].
  - split; [intros _ k [] | reflexivity].
  - destruct (lookup k schema) as [f|] eqn:Hl.
    + rewrite IH. split.
      * intros Hr k' [<- | Hin]; [left; exists f; exact Hl | exact (Hr k' Hin)].
      * intros Hr k' Hin. apply Hr. right. exact Hin.
    + destruct (inherited k) eqn:Hi.
      * rewrite IH. split.
        -- intros Hr k' [<- | Hin]; [right; exact Hi | exact (Hr k' Hin)].
        -- intros Hr k' Hin. apply Hr. right. exact Hin.
      * split; [discriminate|].
        intros Hr. destruct (Hr k (or_introl eq_refl)) as [[f Hf] | Hf].
        -- rewrite Hl in Hf. discriminate.
        -- rewrite Hi in Hf. discriminate.
Qed.

Lemma extraFile_None (schema : Schema) (ks : list string) :
  extraFile schema ks = None <->
  forall k, In k ks ->
            exists f, lookup k schema = Some f /\ isFileType (type f) = true.
Proof.
  induction ks as [|k rest IH]; cbn [extraFile In].
  - split; [intros _ k [] | reflexivity].
  - destruct (lookup k schema) as [f|] eqn:Hl.
    + rewrite (isFileType_isType (type f)).
      destruct (isFileType (type f)) eqn:Ht; cbn [negb].
      * rewrite IH. split.
        -- intros Hr k' [<- | Hin];
             [exists f; split; [exact Hl | exact Ht] | exact (Hr k' Hin)].
        -- intros Hr k' Hin. apply Hr. right. exact Hin.
      * split; [discriminate|].
        intros Hr. destruct (Hr k (or_introl eq_refl)) as (f' & Hf & Ht').
        rewrite Hl in Hf. injection Hf as <-. rewrite Ht in Ht'. discriminate.
    + split; [discriminate|].
      intros Hr. destruct (Hr k (or_introl eq_refl)) as (f & Hf & _).
      rewrite Hl in Hf. discriminate.
Qed.

Lemma validate_None (H : Host) (schema : Schema) (body : Body) (files : Files) :
  validate H schema body files = None ->
  validateFields H schema body files = None /\
  extraField schema (keys body) = None /\
  extraFile schema (keys files) = None.
Proof.
  unfold validate. intros Hv.
  destruct (validateFields H schema body files); [discriminate|].
  destruct (extraField schema (keys body)); [discriminate|].
  destruct (extraFile schema (keys files)); [discriminate|].
  repeat split.
Qed.

Lemma validateField_required (H : Host) (name : string) (f : FieldSpec)
      (body : Body) (files : Files) :
  validateField H name f body files = None -> required f = true ->
  if isFileType (type f) then lookup name files <> None
  else isBlank (lookup name body) = false.
Proof.
  unfold validateField. intros Hv Hr. rewrite Hr in Hv.
  destruct (isFileType (type f)).
  - destruct (lookup name files); [discriminate | discriminate Hv].
  - destruct (isBlank (lookup name body)); [discriminate Hv | reflexivity].
Qed.

(** X10: a request that [validate] accepts holds, outside the schema, no
    file and no property other than one named like a property that objects
    inherit; it holds files only under photo and file fields, and for every
    required field a file, respectively a value that is not blank. *)
Theorem accepted_request_is_well_formed (H : Host) (schema : Schema)
        (body : Body) (files : Files) :
  validate H schema body files = None ->
  (forall k, In k (keys body) ->
             (exists f, lookup k schema = Some f) \/
             In k objectPrototype) /\
  (forall k, In k (keys files) ->
             exists f, lookup k schema = Some f /\ isFileType (type f) = true) /\
  (forall name f, In (name, f) schema -> required f = true ->
                  if isFileType (type f) then lookup name files <> None
                  else isBlank (lookup name body) = false).
Proof.
  intros Hv. destruct (validate_None H schema body files Hv) as (Hf & Hb & Hx).
  split; [|split].
  - intros k Hin.
    destruct (proj1 (extraField_None schema (keys body)) Hb k Hin) as [Hd | Hi].
    + left. exact Hd.
    + right. apply existsb_eqb_In. exact Hi.
  - exact (proj1 (extraFile_None schema (keys files)) Hx).
  - intros name f Hin Hr.
    exact (validateField_required H name f body files
             (validateFields_None H schema body files Hf name f Hin) Hr).
Qed.

(* ------------------------------------------------------------------ *)
(** ** The upload fields *)

Lemma uploadFields_names (schema : Schema) (k : string) :
  In k (List.map name (uploadFields schema)) <->
  exists f, In (k, f) schema /\ isFileType (type f) = true.
Proof.
  unfold uploadFields. rewrite map_map. cbn [name]. rewrite in_map_iff. split.
  - intros ([k' f] & Hk & Hin). cbn [fst] in Hk. subst k'.
    apply filter_In in Hin. destruct Hin as [Hin Ht]. cbn [snd] in Ht.
    exists f. split; [exact Hin|].
    destruct (type f); first [reflexivity | discriminate Ht].
  - intros (f & Hin & Ht). exists (k, f). split; [reflexivity|].
    apply filter_In. split; [exact Hin|]. cbn [snd].
    destruct (type f); first [reflexivity | discriminate Ht].
Qed.

(** X11: the keys that pass the extra file check are the names of the
    upload fields: a file that multer takes under one of these names never
    makes the request an extra file error. *)
Theorem extra_file_iff_upload_field (schema : Schema) (ks : list string) :
  distinct (keys schema) = true ->
  (extraFile schema ks = None <->
   forall k, In k ks -> In k (List.map name (uploadFields schema))).
Proof.
  intros Hd. rewrite extraFile_None. split; intros Hr k Hin.
  - destruct (Hr k Hin) as (f & Hl & Ht).
    apply uploadFields_names. exists f. split; [|exact Ht].
    exact (lookup_In _ k schema f Hl).
  - destruct (proj1 (uploadFields_names schema k) (Hr k Hin)) as (f & Hf & Ht). exists f. split; [|exact Ht].
    exact (In_lookup _ k schema f Hd Hf).
Qed.

(* ------------------------------------------------------------------ *)
(** ** The field a validation error names *)

Lemma names_err (m n : string) : isEmpty m = false -> names n (err m n).
Proof. intros Hm. split; [reflexivity | exact Hm]. Qed.

Lemma names_when (n : string) (c : bool) (o : option ValidationError) :
  names n o -> names n (when c o).
Proof. destruct c; [intros Ho; exact Ho | intros _; exact I]. Qed.

Lemma names_seq (n : string) (a b : option ValidationError) :
  names n a -> names n b -> names n (a ;; b).
Proof. destruct a; intros Ha Hb; [exact Ha | exact Hb]. Qed.

Ltac names_step :=
  first [ apply names_seq
        | apply names_when
        | apply names_err; apply isEmpty_append_r; reflexivity
        | exact I ].

Lemma validateScalar_names (H : Host) (name : string) (f : FieldSpec)
      (str : string) :
  names name (validateScalar H name f str).
Proof.
  unfold validateScalar, validateNumberRange, validateAmountPrecision.
  cbn zeta. repeat names_step.
  destruct (Date_parse H str); repeat names_step.
Qed.

Lemma validateFile_message (u : option UploadedFile) (f : FieldSpec)
      (m : string) :
  validateFile u f = Some m -> isEmpty m = false.
Proof.
  unfold validateFile. intros Hv.
  destruct u as [u|]; [|discriminate].
  destruct (gtb _ _); [injection Hv as <-; reflexivity|].
  destruct (fileConfig f) as [[ms [|exts]]|]; try discriminate.
  destruct (negb _); [injection Hv as <-; reflexivity | discriminate].
Qed.

Lemma validateField_names (H : Host) (name : string) (f : FieldSpec)
      (body : Body) (files : Files) :
  names name (validateField H name f body files).
Proof.
  unfold validateField. destruct (isFileType (type f)).
  - apply names_seq; [repeat names_step|].
    destruct (lookup name files) as [u|]; [|exact I].
    destruct (validateFile (Some u) f) as [m|] eqn:Hm; [|exact I].
    apply names_err. exact (validateFile_message (Some u) f m Hm).
  - apply names_seq; [repeat names_step|].
    destruct (isBlank (lookup name body)); [exact I|].
    apply validateScalar_names.
Qed.

Lemma validateFields_names (H : Host) (entries : Schema) (body : Body)
      (files : Files) (e : ValidationError) :
  validateFields H entries body files = Some e ->
  In (field e) (keys entries) /\ isEmpty (error e) = false.
Proof.
  induction entries as [|[name f] rest IH]; cbn [validateFields]; intros Hv.
  - discriminate.
  - change (keys ((name, f) :: rest)) with (name :: keys rest).
    pose proof (validateField_names H name f body files) as Hn.
    destruct (validateField H name f body files) as [e'|].
    + injection Hv as <-. destruct Hn as [Hf Hm].
      split; [left; symmetry; exact Hf | exact Hm].
    + destruct (IH Hv) as [Hin Hm]. split; [right; exact Hin | exact Hm].
Qed.

Lemma extraField_names (schema : Schema) (ks : list string)
      (e : ValidationError) :
  extraField schema ks = Some e ->
  In (field e) ks /\ lookup (field e) schema = None /\
  error e = "Extra field not allowed: " ++ field e.
Proof.
  induction ks as [|k rest IH]; cbn [extraField]; intros Hv.
  - discriminate.
  - destruct (lookup k schema) eqn:Hl.
    + destruct (IH Hv) as (Hin & Hn & Hm).
      split; [right; exact Hin | split; assumption].
    + destruct (inherited k).
      * destruct (IH Hv) as (Hin & Hn & Hm).
        split; [right; exact Hin | split; assumption].
      * injection Hv as <-. cbn [field error].
        split; [left; reflexivity | split; [exact Hl | reflexivity]].
Qed.

Lemma extraFile_names (schema : Schema) (ks : list string)
      (e : ValidationError) :
  extraFile schema ks = Some e ->
  In (field e) ks /\
  (forall f, lookup (field e) schema = Some f -> isFileType (type f) = false) /\
  error e = "Extra file not allowed: " ++ field e.
Proof.
  induction ks as [|k rest IH]; cbn [extraFile]; intros Hv.
  - discriminate.
  - destruct (lookup k schema) as [f|] eqn:Hl.
    + rewrite (isFileType_isType (type f)) in Hv.
      destruct (isFileType (type f)) eqn:Ht; cbn [negb] in Hv.
      * destruct (IH Hv) as (Hin & Hn & Hm).
        split; [right; exact Hin | split; assumption].
      * injection Hv as <-. cbn [field error].
        split; [left; reflexivity | split; [|reflexivity]].
        intros f' Hf'. rewrite Hl in Hf'. injection Hf' as <-. exact Ht.
    + injection Hv as <-. cbn [field error].
      split; [left; reflexivity | split; [|reflexivity]].
      intros f' Hf'. rewrite Hl in Hf'. discriminate.
Qed.

(** X12: the error that [validate] returns has a message that is not empty,
    and names a field of the schema, a property of the body that the schema
    does not declare, or a file under a key that is not a photo or file
    field of the schema. *)
Theorem violation_names_its_field (H : Host) (schema : Schema) (body : Body)
        (files : Files) (e : ValidationError) :
  validate H schema body files = Some e ->
  isEmpty (error e) = false /\
  (In (field e) (keys schema) \/
   (In (field e) (keys body) /\ lookup (field e) schema = None /\
    error e = "Extra field not allowed: " ++ field e) \/
   (In (field e) (keys files) /\
    (forall f, lookup (field e) schema = Some f ->
               isFileType (type f) = false) /\
    error e = "Extra file not allowed: " ++ field e)).
Proof.
  unfold validate. intros Hv.
  destruct (validateFields H schema body files) as [e1|] eqn:H1.
  - injection Hv as <-.
    destruct (validateFields_names H schema body files e1 H1) as [Hin Hm].
    split; [exact Hm | left; exact Hin].
  - destruct (extraField schema (keys body)) as [e2|] eqn:H2.
    + injection Hv as <-.
      pose proof (extraField_names schema (keys body) e2 H2) as (Hin & Hn & Hm).
      split; [rewrite Hm; reflexivity | right; left; repeat split; assumption].
    + pose proof (extraFile_names schema (keys files) e Hv) as (Hin & Hn & Hm).
      split; [rewrite Hm; reflexivity | right; right; repeat split; assumption].
Qed.

(* ------------------------------------------------------------------ *)
(** ** Email addresses *)

Lemma emailRegex_spec (s : string) :
  test emailRegex s = true <-> emailShape s.
Proof.
  unfold emailRegex, emailShape. rewrite test_Cat. split.
  - intros (user & s1 & -> & Hu & H1).
    apply test_Cat in H1 as (at' & s2 & -> & Hat & H2).
    apply test_Cat in H2 as (domain & s3 & -> & Hd & H3).
    apply test_Cat in H3 as (dot & tld & -> & Hdot & Ht).
    apply test_Chr in Hat, Hdot. subst at' dot.
    rewrite test_Plus_Cls in Hu, Hd, Ht.
    apply andb_true_iff in Hu as [Hu1 Hu2].
    apply andb_true_iff in Hd as [Hd1 Hd2].
    apply andb_true_iff in Ht as [Ht1 Ht2].
    apply negb_true_iff in Hu1, Hd1, Ht1.
    exists user, domain, tld. repeat split; assumption.
  - intros (user & domain & tld & -> & Hu1 & Hd1 & Ht1 & Hu2 & Hd2 & Ht2).
    assert (forall p, isEmpty p = false -> forallb notSpaceAt p = true ->
                      test (Plus (Cls notSpaceAt)) p = true) as Hplus.
    { intros p Hp1 Hp2. rewrite test_Plus_Cls, Hp1, Hp2. reflexivity. }
    exists user, ("@" ++ domain ++ "." ++ tld).
    split; [reflexivity|]. split; [exact (Hplus user Hu1 Hu2)|].
    apply test_Cat. exists "@", (domain ++ "." ++ tld).
    split; [reflexivity|]. split; [apply test_Chr; reflexivity|].
    apply test_Cat. exists domain, ("." ++ tld).
    split; [reflexivity|]. split; [exact (Hplus domain Hd1 Hd2)|].
    apply test_Cat. exists ".", tld.
    split; [reflexivity|]. split; [apply test_Chr; reflexivity|].
    exact (Hplus tld Ht1 Ht2).
Qed.

Lemma validateScalar_email (H : Host) (name : string) (f : FieldSpec)
      (str : string) :
  type f = TEmail ->
  validateScalar H name f str =
  when (negb (test emailRegex str))
       (err (name ++ " must be a valid email address") name).
Proof.
  intros Ht. unfold validateScalar. rewrite Ht. cbn [isType andb orb when].
  destruct (when _ _); reflexivity.
Qed.

(** X13: a value of an email field that is not blank is accepted when,
    trimmed, it consists of three parts without white space and at sign that
    are not empty, joined by an at sign and a dot; any other value is
    rejected as not a valid email address. *)
Theorem email_rule (H : Host) (name : string) (f : FieldSpec) (body : Body)
        (files : Files) (v : value) :
  type f = TEmail -> lookup name body = Some v -> isBlank (Some v) = false ->
  (emailShape (trim (toString v)) ->
   validateField H name f body files = None) /\
  (~ emailShape (trim (toString v)) ->
   validateField H name f body files =
     Some {| error := name ++ " must be a valid email address";
             field := name |}).
Proof.
  intros Ht Hl Hb.
  rewrite (validateField_present H name f body files v)
    by (try assumption; rewrite Ht; reflexivity).
  rewrite (validateScalar_email H name f _ Ht).
  destruct (test emailRegex (trim (toString v))) eqn:Hre; cbn [negb when].
  - split; [reflexivity|]. intros Hn. exfalso. apply Hn.
    apply emailRegex_spec. exact Hre.
  - split; [|reflexivity]. intros Hs. apply emailRegex_spec in Hs.
    rewrite Hs in Hre. discriminate.
Qed.

(* ------------------------------------------------------------------ *)
(** ** Text that fits its column *)

Lemma validateScalar_text (H : Host) (name : string) (f : FieldSpec)
      (str : string) :
  type f = TText \/ type f = TDescription ->
  validateScalar H name f str =
  when (negb (isEmpty (limit f)))
       (when (gtb (len str) (parseInt (limit f) None))
             (err (name ++ " exceeds " ++
                   numberToString (parseInt (limit f) None) ++
                   " characters") name)).
Proof.
  intros Ht. unfold validateScalar.
  destruct Ht as [Ht | Ht]; rewrite Ht; cbn [isType andb orb negb when];
    destruct (when _ _); reflexivity.
Qed.

Lemma parseInt_digits (ds : string) :
  isDigits ds = true -> valueOf 10 ds 0 < two53 ->
  parseInt ds None = Int (valueOf 10 ds 0).
Proof.
  intros Hd Hlt.
  pose proof (parseInt_numeral false ds None Hd (or_introl eq_refl)) as Hp.
  cbn [append signed] in Hp. rewrite Hp.
  pose proof (valueOf_digits ds (isDigits_forallb ds Hd)) as [Hge _].
  apply round_int_small. lia.
Qed.

Lemma isDigits_nonempty (ds : string) : isDigits ds = true -> isEmpty ds = false.
Proof.
  unfold isDigits. intros Hd. apply andb_true_iff in Hd as [Hd _].
  apply negb_true_iff in Hd. exact Hd.
Qed.

Lemma buildField_text (H : Host) (name : string) (f : FieldSpec) (body : Body)
      (files : Files) (v : value) :
  isTextual (type f) = true -> lookup name body = Some v ->
  buildField H name f body files =
  StepPush (dq ++ name ++ dq) (BString (trim (toString v))).
Proof.
  intros Ht Hl. unfold buildField. rewrite Hl.
  destruct (type f); first [discriminate Ht | reflexivity].
Qed.

(** X14: a text or description field whose limit is a numeral takes a value
    when, trimmed, it is no longer than the limit, in code units; the
    builder binds this trimmed string, and the column is a VARCHAR of the
    same limit. *)
Theorem accepted_text_fits_column (H : Host) (name : string) (f : FieldSpec)
        (body : Body) (files : Files) (v : value) :
  type f = TText \/ type f = TDescription ->
  isDigits (limit f) = true -> valueOf 10 (limit f) 0 < two53 ->
  lookup name body = Some v -> isBlank (Some v) = false ->
  let str := trim (toString v) in
  let M := valueOf 10 (limit f) 0 in
  validateField H name f body files =
    (if M <? Z.of_nat (String.length str)
     then Some {| error := name ++ " exceeds " ++ numberToString (Int M) ++
                           " characters";
                  field := name |}
     else None) /\
  typeMap f = "VARCHAR(" ++ limit f ++ ")" /\
  buildField H name f body files =
    StepPush (dq ++ name ++ dq) (BString str) /\
  (validateField H name f body files = None ->
   Z.of_nat (String.length str) <= M).
Proof.
  intros Ht Hd Hlt Hl Hb str M.
  assert (isFileType (type f) = false) as Hft
      by (destruct Ht as [Ht | Ht]; rewrite Ht; reflexivity).
  assert (isTextual (type f) = true) as Htx
      by (destruct Ht as [Ht | Ht]; rewrite Ht; reflexivity).
  assert (validateField H name f body files =
          (if M <? Z.of_nat (String.length str)
           then Some {| error := name ++ " exceeds " ++
                                 numberToString (Int M) ++ " characters";
                        field := name |}
           else None)) as Hv.
  { rewrite (validateField_present H name f body files v Hft Hl Hb).
    rewrite (validateScalar_text H name f _ Ht).
    rewrite (isDigits_nonempty (limit f) Hd). cbn [negb when].
    rewrite (parseInt_digits (limit f) Hd Hlt).
    unfold len. rewrite gtb_Int. fold str. fold M.
    destruct (M <? Z.of_nat (String.length str)); reflexivity. }
  split; [exact Hv|]. split; [|split].
  - unfold typeMap, orElse. rewrite (isDigits_nonempty (limit f) Hd).
    destruct Ht as [Ht | Ht]; rewrite Ht; reflexivity.
  - exact (buildField_text H name f body files v Htx Hl).
  - rewrite Hv. destruct (M <? Z.of_nat (String.length str)) eqn:E;
      [discriminate|]. intros _. apply Z.ltb_ge in E. exact E.
Qed.

(** X15: a text or description field without a limit takes a value of any
    length, although its column is a VARCHAR of 50, respectively 500. *)
Theorem unlimited_text_is_not_measured (H : Host) (name : string)
        (f : FieldSpec) (body : Body) (files : Files) (v : value) :
  type f = TText \/ type f = TDescription -> limit f = "" ->
  lookup name body = Some v -> isBlank (Some v) = false ->
  validateField H name f body files = None /\
  buildField H name f body files =
    StepPush (dq ++ name ++ dq) (BString (trim (toString v))) /\
  typeMap f =
    (if isType (type f) TText then "VARCHAR(50)" else "VARCHAR(500)").
Proof.
  intros Ht He Hl Hb.
  assert (isFileType (type f) = false) as Hft
      by (destruct Ht as [Ht | Ht]; rewrite Ht; reflexivity).
  assert (isTextual (type f) = true) as Htx
      by (destruct Ht as [Ht | Ht]; rewrite Ht; reflexivity).
  split; [|split].
  - rewrite (validateField_present H name f body files v Hft Hl Hb).
    rewrite (validateScalar_text H name f _ Ht). rewrite He. reflexivity.
  - exact (buildField_text H name f body files v Htx Hl).
  - unfold typeMap. rewrite He.
    destruct Ht as [Ht | Ht]; rewrite Ht; reflexivity.
Qed.

(* ------------------------------------------------------------------ *)
(** ** Numbers that fit their column *)

Lemma seq_None (c k : option ValidationError) :
  (c ;; k) = None -> c = None /\ k = None.
Proof. destruct c; [discriminate|]. intros Hk. split; [reflexivity | exact Hk]. Qed.

Lemma validated_number_range (H : Host) (name : string) (f : FieldSpec)
      (str : string) :
  type f = TNumber -> isEmpty str = false ->
  validateScalar H name f str = None ->
  validateNumberRange name f str = None.
Proof.
  intros Ht He Hv.
  rewrite validateScalar_numeric in Hv by (try assumption; left; assumption).
  rewrite Ht in Hv. cbn [isType andb] in Hv.
  apply seq_None in Hv as [_ Hv]. apply seq_None in Hv as [_ Hv].
  apply seq_None in Hv as [_ Hv]. apply seq_None in Hv as [Hv _].
  cbn [when] in Hv. exact Hv.
Qed.

Lemma digitCount_two53 : digitCount two53 = 16.
Proof. vm_compute. reflexivity. Qed.

Lemma isBlank_trim (v : value) :
  isBlank (Some v) = false -> isEmpty (trim (toString v)) = false.
Proof.
  destruct v; cbn [isBlank]; first [discriminate | intros Hb; exact Hb].
Qed.

(** X16: a number field of at most 15 digits takes only a numeral whose
    value has no more digits than the limit and is within the native type
    of its column; the builder binds exactly this value. *)
Theorem accepted_number_fits_column (H : Host) (name : string) (f : FieldSpec)
        (body : Body) (files : Files) (v : value) :
  type f = TNumber -> plainNumeral (limit f) -> limitOr 10 (limit f) <= 15 ->
  lookup name body = Some v -> isBlank (Some v) = false ->
  validateField H name f body files = None ->
  exists neg ds,
    trim (toString v) = numeral neg ds "" /\ isDigits ds = true /\
    let z := valueOf 10 ds 0 in
    z < 10 ^ limitOr 10 (limit f) /\
    buildField H name f body files =
      StepPush (dq ++ name ++ dq) (BNumber (Int (if neg then - z else z))) /\
    (typeMap f = "INTEGER" /\ z <= INTEGER_MAX \/
     typeMap f = "BIGINT" /\ z <= BIGINT_MAX).
Proof.
  intros Ht Hp HM Hl Hb Hv.
  assert (isFileType (type f) = false) as Hft by (rewrite Ht; reflexivity).
  rewrite (validateField_present H name f body files v Hft Hl Hb) in Hv.
  pose proof (isBlank_trim v Hb) as Hne.
  destruct (validated_number H name f _ Ht Hne Hv) as (neg & ds & Hs & Hd).
  pose proof (validated_number_range H name f _ Ht Hne Hv) as Hr.
  rewrite Hs in Hr.
  pose proof (valueOf_digits ds (isDigits_forallb ds Hd)) as [Hge _].
  pose proof (limitOr_bounds (limit f) 10 Hp ltac:(unfold two53; lia)) as [HM0 _].
  set (z := valueOf 10 ds 0) in *.
  set (M := limitOr 10 (limit f)) in *.
  assert (z < two53) as Hz.
  { destruct (Z.lt_ge_cases z two53) as [Hlt | Hbig]; [exact Hlt|]. exfalso.
    assert (M < digitCount z) as Hdc.
    { pose proof (digitCount_mono two53 z ltac:(unfold two53; lia) Hbig) as Hm.
      rewrite digitCount_two53 in Hm. lia. }
    destruct (Z.le_gt_cases z 9223372036854775807) as [Hle | Hgt].
    - exact (range_rejects_long name f neg ds Hd Hp (conj Hbig Hle) Hdc Hr).
    - exact (range_rejects_bigint name f neg ds Hd Hp ltac:(fold M; lia) Hgt Hr). }
  assert (z < 10 ^ M) as Hfit.
  { destruct (Z.eq_dec z 0) as [-> | Hnz]; [apply Z.pow_pos_nonneg; lia|].
    destruct (Z.le_gt_cases (digitCount z) M) as [Hle | Hgt].
    - pose proof (digitCount_spec z ltac:(lia)) as [_ Hup].
      assert (10 ^ digitCount z <= 10 ^ M)
        by (apply Z.pow_le_mono_r; lia).
      lia.
    - exfalso.
      pose proof (range_rejects_digits name f neg ds Hd Hp Hz Hgt) as Hrej.
      rewrite Hrej in Hr. discriminate. }
  exists neg, ds. split; [exact Hs|]. split; [exact Hd|]. cbn zeta.
  fold z. fold M. split; [exact Hfit|]. split.
  - unfold buildField. rewrite Hft, Hl, Ht.
    rewrite (parseFloat_numeral (toString v) neg ds Hs Hd). fold z.
    rewrite (round_int_small z) by lia.
    destruct neg; reflexivity.
  - rewrite (typeMap_number_digits f Ht Hp). unfold nativeType, nativeNumber.
    fold M. destruct (M <=? 9) eqn:E9.
    + left. split; [reflexivity|]. apply Z.leb_le in E9.
      destruct (Z.le_gt_cases z 2147483647) as [Hle | Hgt]; [exact Hle|].
      exfalso.
      exact (range_rejects_integer name f neg ds Hd Hp ltac:(fold M; lia) Hgt Hr).
    + right. assert ((M <=? 18) = true) as -> by (apply Z.leb_le; lia).
      split; [reflexivity|]. unfold BIGINT_MAX, two53 in *. lia.
Qed.

(* ------------------------------------------------------------------ *)
(** ** The columns of the INSERT *)

Lemma buildField_skip (H : Host) (name : string) (f : FieldSpec) (body : Body)
      (files : Files) :
  buildField H name f body files = StepSkip ->
  supplied body files (name, f) = false /\ required f = false.
Proof.
  unfold buildField, supplied, throw. cbn [fst snd]. intros Hb.
  destruct (isFileType (type f)) eqn:Ht.
  - destruct (lookup name files); [discriminate|].
    destruct (required f); [discriminate|]. split; reflexivity.
  - destruct (lookup name body) as [v|].
    + exfalso.
      destruct (type f); try discriminate Ht;
        repeat match type of Hb with
               | context [if ?c then _ else _] => destruct c
               | context [match ?x with _ => _ end] => destruct x
               end; discriminate Hb.
    + destruct (required f); [discriminate|]. split; reflexivity.
Qed.

Lemma buildField_push (H : Host) (name : string) (f : FieldSpec) (body : Body)
      (files : Files) (c : string) (b : BoundValue) :
  buildField H name f body files = StepPush c b ->
  supplied body files (name, f) = true /\ c = quoted (name, f).
Proof.
  unfold buildField, supplied, quoted, throw. cbn [fst snd]. intros Hb.
  destruct (isFileType (type f)) eqn:Ht.
  - destruct (lookup name files).
    + injection Hb as <- _. split; reflexivity.
    + destruct (required f); discriminate.
  - destruct (lookup name body) as [v|].
    + split; [reflexivity|].
      destruct (type f); try discriminate Ht;
        repeat match type of Hb with
               | context [if ?c then _ else _] => destruct c
               | context [match ?x with _ => _ end] => destruct x
               end; first [discriminate Hb | injection Hb as <- _; reflexivity].
    + destruct (required f); discriminate.
Qed.

Lemma buildFields_columns (H : Host) (entries : Schema) (body : Body)
      (files : Files) :
  forall columns values columns' values',
    buildFields H entries body files columns values = inr (columns', values') ->
    columns' =
      (columns ++ List.map quoted (List.filter (supplied body files) entries))%list /\
    List.length values' =
      (List.length values +
       List.length (List.filter (supplied body files) entries))%nat /\
    (forall entry, In entry entries -> required (snd entry) = true ->
                   supplied body files entry = true).
Proof.
  induction entries as [|[name f] rest IH]; intros columns values columns' values' Hb.
  - cbn [buildFields] in Hb. injection Hb as <- <-. cbn [List.filter List.map List.length].
    rewrite app_nil_r, Nat.add_0_r. repeat split. intros entry [].
  - cbn [buildFields] in Hb. cbn [List.filter].
    destruct (buildField H name f body files) as [e| |c b] eqn:Hf.
    + discriminate.
    + destruct (buildField_skip H name f body files Hf) as [Hs Hr].
      rewrite Hs. destruct (IH _ _ _ _ Hb) as (Hc & Hl & Hq).
      split; [exact Hc|]. split; [exact Hl|].
      intros entry [<- | Hin] Hreq.
      * cbn [snd] in Hreq. rewrite Hr in Hreq. discriminate.
      * exact (Hq entry Hin Hreq).
    + destruct (buildField_push H name f body files c b Hf) as [Hs ->].
      rewrite Hs. destruct (IH _ _ _ _ Hb) as (Hc & Hl & Hq).
      cbn [List.map List.length]. split; [|split].
      * rewrite Hc, <- app_assoc. reflexivity.
      * rewrite Hl, length_app. cbn [List.length]. lia.
      * intros entry [<- | Hin] Hreq; [exact Hs | exact (Hq entry Hin Hreq)].
Qed.

(** X17: a query that the builder returns inserts into the columns of the
    declared fields that the request supplies, in the order of the schema,
    with one bound value and one placeholder for each, and every required
    field is among them; a property or a file outside the schema adds no
    column. *)
Theorem insert_names_supplied_fields (H : Host) (schema : Schema)
        (body : Body) (files : Files) (q : Query) :
  buildInsertQuery H schema body files = Returns q ->
  text q =
    "INSERT INTO " ++ dq ++ TABLE_NAME ++ dq ++ " (" ++
    join "," (List.map quoted (List.filter (supplied body files) schema)) ++
    ") VALUES (" ++ join "," (placeholdersOf (values q)) ++
    ") RETURNING id, created_at" /\
  List.length (values q) =
    List.length (List.filter (supplied body files) schema) /\
  List.length (placeholdersOf (values q)) = List.length (values q) /\
  (forall entry, In entry schema -> required (snd entry) = true ->
                 supplied body files entry = true).
Proof.
  unfold buildInsertQuery. intros Hb.
  destruct (buildFields H schema body files [] []) as [e|[cs vs]] eqn:Hf;
    [discriminate|].
  injection Hb as <-. cbn [text values].
  destruct (buildFields_columns H schema body files [] [] cs vs Hf)
    as (Hc & Hl & Hq).
  cbn [app List.length Nat.add] in Hc, Hl. subst cs.
  split; [reflexivity|]. split; [exact Hl|]. split; [|exact Hq].
  unfold placeholdersOf. rewrite length_map, length_seq. reflexivity.
Qed.

(* ------------------------------------------------------------------ *)
(** ** The size check behind the upload limit *)

(** X18: for a file within the size limit of the upload middleware, a field
    limit of 10 MB or more (the default included) never gives the size
    error: the verdict of [validateFile] is that of the extension check. *)
Theorem size_check_behind_upload_limit (f : FieldSpec) (u : UploadedFile) :
  plainNumeral (limit f) -> 10 <= numeralOr 10 (limit f) < 2 ^ 33 ->
  size u <= fileSize upload ->
  validateFile (Some u) f =
  if extensionAllowed f u then None
  else Some ("File type not allowed. Allowed types: " ++ allowedTypes f).
Proof.
  intros Hp [Hlo Hhi] Hs. unfold validateFile.
  rewrite (maxSize_bytes f Hp Hhi). rewrite gtb_Int.
  assert ((numeralOr 10 (limit f) * 1048576 <? size u) = false) as ->.
  { apply Z.ltb_ge. unfold upload in Hs. cbn [fileSize] in Hs. lia. }
  unfold extensionAllowed, allowedTypes.
  destruct (fileConfig f) as [[ms [|exts]]|]; cbn [extensions];
    try reflexivity.
  destruct (existsb _ exts); reflexivity.
Qed.

(* ------------------------------------------------------------------ *)
(** ** Saving an accepted request *)

Section Saving.

Variable S : Type.
Variable exec : S -> Query -> S * Reply.

(** X19: when [validate] accepts a request, the builder returns a query and
    the database takes BEGIN, the INSERT and COMMIT, the handler answers
    with status 200 and the [id] and [created_at] of the first row
    returned, and nothing escapes. *)
Theorem accepted_request_is_saved (H : Host) (schema : Schema) (body : Body)
        (files : option Files) (q : Query) (s s1 s2 s3 : S)
        (r0 rows r2 : list Object) :
  validate H schema body (filesOf files) = None ->
  buildInsertQuery H schema body (filesOf files) = Returns q ->
  exec s (statement "BEGIN") = (s1, Rows r0) ->
  exec s1 q = (s2, Rows rows) ->
  exec s2 (statement "COMMIT") = (s3, Rows r2) ->
  eventsOf exec H schema body files s =
  [EQuery (statement "BEGIN") (Rows r0); EQuery q (Rows rows);
   EQuery (statement "COMMIT") (Rows r2);
   ERespond 200
     [("success", JBool true); ("id", firstRow rows "id");
      ("created_at", firstRow rows "created_at");
      ("message", JStr "Record saved successfully"); ("table", JStr "Ring")];
   ERelease] /\
  escapes exec H schema body files s = None.
Proof.
  intros Hv Hb E0 E1 E2.
  unfold eventsOf, escapes, trace, escaping, saveHandler, connecting,
    connected, tryFinally, tryCatch, bind, query, respond, release.
  rewrite validateReceived_received, convertible_received, E0, Hv, Hb, E1, E2.
  split; reflexivity.
Qed.

End Saving.

(* ------------------------------------------------------------------ *)
(** ** The properties on sample requests *)

(** Scenario A. *)
Lemma accepted_request_is_well_formed_witness :
  (forall k, In k (keys bodyA) ->
             (exists f, lookup k schema = Some f) \/
             In k objectPrototype) /\
  (forall k, In k (keys filesA) ->
             exists f, lookup k schema = Some f /\ isFileType (type f) = true) /\
  (forall name f, In (name, f) schema -> required f = true ->
                  if isFileType (type f) then lookup name filesA <> None
                  else isBlank (lookup name bodyA) = false).
Proof.
  apply (accepted_request_is_well_formed plainHost schema bodyA filesA).
  reflexivity.
Defined.

(** The two photo fields of the shipped schema. *)
Lemma extra_file_iff_upload_field_witness :
  extraFile schema ["ss"; "aadhar"] = None <->
  forall k, In k ["ss"; "aadhar"] -> In k (List.map name (uploadFields schema)).
Proof.
  apply (extra_file_iff_upload_field schema ["ss"; "aadhar"]).
  reflexivity.
Defined.

(** An address for the [email] field of the shipped schema. *)
Lemma email_rule_witness :
  validateField plainHost "email" emailField
                [("email", VStr "alice@example.com")] [] = None.
Proof.
  apply (proj1 (email_rule plainHost "email" emailField
                  [("email", VStr "alice@example.com")] []
                  (VStr "alice@example.com") eq_refl eq_refl eq_refl)).
  exists "alice", "example", "com". repeat split.
Defined.

(** A nickname of three letters between spaces, for a limit of five. *)
Lemma accepted_text_fits_column_witness :
  validateField plainHost "nick" nickField bodyNick [] = None /\
  typeMap nickField = "VARCHAR(5)" /\
  buildField plainHost "nick" nickField bodyNick [] =
    StepPush (dq ++ "nick" ++ dq) (BString "Ali").
Proof.
  destruct (accepted_text_fits_column plainHost "nick" nickField bodyNick []
              (VStr "  Ali  ") (or_introl eq_refl) eq_refl eq_refl eq_refl
              eq_refl) as (Hv & Ht & Hb & _).
  split; [exact Hv|]. split; [exact Ht | exact Hb].
Defined.

(** A description without a limit. *)
Lemma unlimited_text_is_not_measured_witness :
  validateField plainHost "note" (optional TDescription "")
                [("note", VStr "engraved inside")] [] = None /\
  buildField plainHost "note" (optional TDescription "")
             [("note", VStr "engraved inside")] [] =
    StepPush (dq ++ "note" ++ dq) (BString "engraved inside") /\
  typeMap (optional TDescription "") = "VARCHAR(500)".
Proof.
  apply (unlimited_text_is_not_measured plainHost "note"
           (optional TDescription "") [("note", VStr "engraved inside")] []
           (VStr "engraved inside") (or_intror eq_refl) eq_refl eq_refl
           eq_refl).
Defined.

(** Scenario A: [caret] holds "2". *)
Lemma accepted_number_fits_column_witness :
  exists neg ds,
    trim (toString (VStr "2")) = numeral neg ds "" /\ isDigits ds = true /\
    let z := valueOf 10 ds 0 in
    z < 10 ^ limitOr 10 (limit caretField) /\
    buildField plainHost "caret" caretField bodyA filesA =
      StepPush (dq ++ "caret" ++ dq) (BNumber (Int (if neg then - z else z))) /\
    (typeMap caretField = "INTEGER" /\ z <= INTEGER_MAX \/
     typeMap caretField = "BIGINT" /\ z <= BIGINT_MAX).
Proof.
  apply (accepted_number_fits_column plainHost "caret" caretField bodyA filesA
           (VStr "2")).
  - reflexivity.
  - right. split; reflexivity.
  - vm_compute. intros Hc. discriminate Hc.
  - reflexivity.
  - reflexivity.
  - reflexivity.
Defined.

(** Scenario A: the six fields supplied, [email] left out. *)
Lemma insert_names_supplied_fields_witness :
  text insertA =
    "INSERT INTO " ++ dq ++ TABLE_NAME ++ dq ++ " (" ++
    join "," (List.map quoted (List.filter (supplied bodyA filesA) schema)) ++
    ") VALUES (" ++ join "," (placeholdersOf (values insertA)) ++
    ") RETURNING id, created_at" /\
  List.length (values insertA) =
    List.length (List.filter (supplied bodyA filesA) schema) /\
  List.length (placeholdersOf (values insertA)) =
    List.length (values insertA) /\
  (forall entry, In entry schema -> required (snd entry) = true ->
                 supplied bodyA filesA entry = true).
Proof.
  apply (insert_names_supplied_fields plainHost schema bodyA filesA insertA).
  reflexivity.
Defined.

(** A text file for a field that lists pdf and png. *)
Lemma size_check_behind_upload_limit_witness :
  validateFile (Some textFile) scanField =
  Some "File type not allowed. Allowed types: pdf, PNG".
Proof.
  apply (size_check_behind_upload_limit scanField textFile).
  - right. split; reflexivity.
  - vm_compute. split; [intros Hc; discriminate Hc | reflexivity].
  - vm_compute. intros Hc. discriminate Hc.
Defined.

(** Scenario A on a database that accepts every query. *)
Lemma accepted_request_is_saved_witness :
  eventsOf scripted plainHost schema bodyA (Some filesA)
           [Rows []; Rows [insertedRow]; Rows []] =
  [EQuery (statement "BEGIN") (Rows []); EQuery insertA (Rows [insertedRow]);
   EQuery (statement "COMMIT") (Rows []);
   ERespond 200
     [("success", JBool true); ("id", firstRow [insertedRow] "id");
      ("created_at", firstRow [insertedRow] "created_at");
      ("message", JStr "Record saved successfully"); ("table", JStr "Ring")];
   ERelease] /\
  escapes scripted plainHost schema bodyA (Some filesA)
          [Rows []; Rows [insertedRow]; Rows []] = None.
Proof.
  apply (accepted_request_is_saved
           (list Reply) scripted plainHost schema bodyA (Some filesA) insertA
           [Rows []; Rows [insertedRow]; Rows []]
           [Rows [insertedRow]; Rows []] [Rows []] [] [] [insertedRow] []);
    reflexivity.
Defined.

(** Scenario D: the error names the [phone] field. *)
Lemma violation_names_its_field_witness :
  isEmpty "phone must be a valid phone number" = false /\
  (In "phone" (keys schema) \/
   (In "phone" (keys bodyD) /\ lookup "phone" schema = None /\
    "phone must be a valid phone number" =
    "Extra field not allowed: " ++ "phone") \/
   (In "phone" (keys filesA) /\
    (forall f, lookup "phone" schema = Some f ->
               isFileType (type f) = false) /\
    "phone must be a valid phone number" =
    "Extra file not allowed: " ++ "phone")).
Proof.
  apply (violation_names_its_field plainHost schema bodyD filesA
           {| error := "phone must be a valid phone number";
              field := "phone" |}).
  reflexivity.
Defined.
